(** * FLH desk: command codec, notification decoder and link manager

    A shallow embedding of [custom_components/flh_desk/coordinator.py]
    (with the constants of [const.py]), and of the methods of the cover
    entity of [cover.py] that drive it, and the properties of its frames,
    its desk state and its reconnection cycle.

    Conventions of the embedding:
    - Python [int] is [Z]; [bytes] and [bytearray] are [list byte]; a
      Python [float] is a binary64 [float] of the kernel.
    - A Python exception is a value of [exn]; a pure computation that may
      raise has type [result A], a method of the coordinator has type
      [M A]: it reads and writes the [World] and either returns or raises,
      and what it wrote before raising stays written.
    - Every [await] on the transport or on the clock takes an [await_env]:
      what the event loop delivers while the coroutine is suspended (the
      link reported lost, then a normal return or an exception, a
      cancellation included).
    - Listeners are opaque handles; invoking one is the event [Callback].
      Within this repository every registered listener is an entity's
      [_handle_coordinator_update], which only writes the entity state.
    - [_LOGGER.debug] lines are not events; where the arguments of a debug
      line are computed by code that can raise, that computation is kept. *)

From Stdlib Require Import ZArith List Lia Bool.
From Stdlib Require Import Strings.Byte.
From Stdlib Require Import Floats.PrimFloat Floats.SpecFloat Floats.FloatOps.
From Stdlib Require Import Floats.FloatAxioms.
From stdpp Require Import base list.
Import ListNotations.

Open Scope Z_scope.

(** ** Python values *)

Definition bytes := list byte.

Inductive exn :=
| ValueError
| OverflowError
| IndexError
| ZeroDivisionError
| BleakError (code : nat)
| UpdateFailed_not_connected
| UpdateFailed_send (err : exn)
| CancelledError.

(** [except Exception] catches everything but the [BaseException]s, of
    which only [asyncio.CancelledError] occurs here. *)
Definition is_Exception (e : exn) : bool :=
  match e with
  | CancelledError => false
  | _ => true
  end.

Inductive result (A : Type) :=
| Ok (a : A)
| Raise (e : exn).
Arguments Ok {A} a.
Arguments Raise {A} e.

Definition rbind {A B} (r : result A) (k : A -> result B) : result B :=
  match r with
  | Ok a => k a
  | Raise e => Raise e
  end.

Declare Scope result_scope.
Delimit Scope result_scope with result.
Notation "'do' x <- m ; k" := (rbind m (fun x => k))
  (at level 10, x name, m at level 100, k at level 200,
   format "'[v' 'do'  x  <-  m ; '/' k ']'") : result_scope.

(** [b[i]] read as an [int]. *)
Definition int_of_byte (b : byte) : Z := Z.of_N (Byte.to_N b).

(** One element of [bytes(iterable_of_ints)]: [ValueError] outside
    [range(0, 256)]. *)
Definition byte_of_int (z : Z) : result byte :=
  if (0 <=? z) && (z <? 256) then
    match Byte.of_N (Z.to_N z) with
    | Some b => Ok b
    | None => Raise ValueError
    end
  else Raise ValueError.

(** [list(b)] for [b : bytes]. *)
Definition list_of_bytes (b : bytes) : list Z := map int_of_byte b.

(** [bytes(l)] for a list of ints. *)
Fixpoint bytes_of_list (l : list Z) : result bytes :=
  match l with
  | [] => Ok []
  | z :: l' =>
      (do b <- byte_of_int z ;
       do bs <- bytes_of_list l' ;
       Ok (b :: bs))%result
  end.

(** [l[i]] and [l[i] = v] on a Python list, for [0 <= i]. *)
Definition getitem {A} (l : list A) (i : nat) : result A :=
  match l !! i with
  | Some x => Ok x
  | None => Raise IndexError
  end.

Definition setitem {A} (l : list A) (i : nat) (v : A) : result (list A) :=
  if (i <? length l)%nat then Ok (<[i := v]> l) else Raise IndexError.

(** Built-in [sum]: a left fold from [0]. *)
Definition sum (l : list Z) : Z := fold_left Z.add l 0.

(** [len]. *)
Definition len {A} (l : list A) : Z := Z.of_nat (length l).

(** ** const.py *)

Definition DEFAULT_MIN_HEIGHT : Z := 72.
Definition DEFAULT_MAX_HEIGHT : Z := 122.
Definition CMD_UP : bytes := [x41; x20; x00; x00].
Definition CMD_DOWN : bytes := [x42; x20; x00; x00].
Definition CMD_STOP : bytes := [x40; x20; x00; x00].
Definition CMD_INIT : bytes := [xdd; x01; x00; x00; x00; x00; x00; x00].
Definition CMD_AUTO_MOVE_BASE : bytes := [x40; x28].
Definition CMD_AUTO_STOP : bytes := [xc3; x00; x00; x00].
Definition DEFAULT_SENSITIVITY : Z := 0.

(** ** Command codec *)

Definition COMMON_PREFIX : bytes := [xdd; x00].

Definition calculate_checksum (data : bytes) : Z :=
  Z.land (sum (list_of_bytes data)) 0x7F.

Definition build_command (command_bytes : bytes)
    (has_max_limit has_min_limit : bool) : result bytes :=
  (let cmd_list := list_of_bytes command_bytes in
   do cmd_list <-
     (if 0 <? len cmd_list then
        if has_max_limit && has_min_limit then
          do b0 <- getitem cmd_list 0 ;
          setitem cmd_list 0 (Z.land (b0 + 0x30) 0xFF)
        else if has_max_limit then
          do b0 <- getitem cmd_list 0 ;
          setitem cmd_list 0 (Z.land (b0 + 0x10) 0xFF)
        else if has_min_limit then
          do b0 <- getitem cmd_list 0 ;
          setitem cmd_list 0 (Z.land (b0 + 0x20) 0xFF)
        else Ok cmd_list
      else Ok cmd_list) ;
   do modified_bytes <- bytes_of_list cmd_list ;
   let checksum := calculate_checksum modified_bytes in
   do tail <- bytes_of_list [checksum] ;
   Ok (COMMON_PREFIX ++ modified_bytes ++ tail))%result.

(** The frame as section 4.1 of the specification words it: the offset
    chosen by the two flags, added to the first byte modulo 256. *)
Definition spec_limit_offset (has_max_limit has_min_limit : bool) : Z :=
  match has_max_limit, has_min_limit with
  | true, true => 0x30
  | true, false => 0x10
  | false, true => 0x20
  | false, false => 0
  end.

Definition spec_adjusted_body (body : list Z)
    (has_max_limit has_min_limit : bool) : list Z :=
  match body with
  | [] => []
  | b0 :: rest =>
      (b0 + spec_limit_offset has_max_limit has_min_limit) mod 256 :: rest
  end.

Definition spec_checksum (adjusted : list Z) : Z :=
  Z.land (fold_right Z.add 0 adjusted) 0x7F.


(** ** Python floats

    [float(n)] as [PyLong_AsDouble] does it: the integer rounded to the
    nearest binary64 value, ties to even, and [OverflowError] when that
    value is not finite, which happens from [2^1024 - 2^970] on. *)
Definition DBL_OVERFLOW : Z := 2 ^ 1024 - 2 ^ 970.

Definition float_of_int (n : Z) : result float :=
  if Z.abs n <? DBL_OVERFLOW
  then Ok (SF2Prim (binary_normalize prec emax n 0 false))
  else Raise OverflowError.

(** [n / d] for an [int] and a [float]: the int is converted first. *)
Definition int_truediv_float (n : Z) (d : float) : result float :=
  (do x <- float_of_int n ;
   if PrimFloat.is_zero d then Raise ZeroDivisionError
   else Ok (PrimFloat.div x d))%result.

(** [a / b] for two [int]s: the exact quotient rounded once.  The
    quotient is computed with [k] extra binary digits and a sticky last
    digit, which is enough for [binary_normalize] to round it as the
    exact value; a zero quotient takes the sign of the divisor. *)
Definition int_truediv (a b : Z) : result float :=
  if b =? 0 then Raise ZeroDivisionError
  else if DBL_OVERFLOW * Z.abs b <=? Z.abs a then Raise OverflowError
  else
    let k := Z.max 0 (64 + Z.log2 (Z.abs b) - Z.log2 (Z.abs a)) in
    let n := Z.abs a * 2 ^ k in
    let q := n / Z.abs b in
    let sticky := if n mod Z.abs b =? 0 then 0 else 1 in
    let m := Z.sgn a * Z.sgn b * (2 * q + sticky) in
    Ok (SF2Prim (binary_normalize prec emax m (- (k + 1)) (b <? 0))).

(** [int(x)] for a [float]: truncation toward zero; [ValueError] on a
    NaN, [OverflowError] on an infinity. *)
Definition int_of_float (x : float) : result Z :=
  match Prim2SF x with
  | S754_zero _ => Ok 0
  | S754_finite s m e =>
      let mag := if 0 <=? e then Z.pos m * 2 ^ e else Z.pos m / 2 ^ (- e) in
      Ok (if s then - mag else mag)
  | S754_infinity _ => Raise OverflowError
  | S754_nan => Raise ValueError
  end.

(** A number handed to [asyncio.sleep]. *)
Inductive num :=
| Int (n : Z)
| Float (x : float).


(** ** The coordinator and its surroundings *)

(** A [BLEDevice] is an opaque handle from the Bluetooth integration. *)
Definition BLEDevice := nat.

(** The [BleakClient] the coordinator holds: the transport owns it and
    flips [client_is_connected] when the link goes down. *)
Record BleakClient := { client_is_connected : bool }.

(** Attributes of [FLHDeskCoordinator], as [__init__] declares them.
    [_reconnect_task] holds the identity of the task, [_update_callbacks]
    the listeners in registration order. *)
Record Coordinator := {
  ble_device : BLEDevice;
  client : option BleakClient;
  _is_connected : bool;
  _reconnect_task : option nat;
  _should_reconnect : bool;
  _max_reconnect_attempts : Z;
  _reconnect_delay : Z;
  _current_height_mm : Z;
  _min_height_mm : Z;
  _max_height_mm : Z;
  _is_moving : bool;
  _sensitivity : Z;
  _update_callbacks : list nat
}.

Definition set_ble_device (v : BLEDevice) (c : Coordinator) : Coordinator :=
  {| ble_device := v; client := client c; _is_connected := _is_connected c;
     _reconnect_task := _reconnect_task c;
     _should_reconnect := _should_reconnect c;
     _max_reconnect_attempts := _max_reconnect_attempts c;
     _reconnect_delay := _reconnect_delay c;
     _current_height_mm := _current_height_mm c;
     _min_height_mm := _min_height_mm c; _max_height_mm := _max_height_mm c;
     _is_moving := _is_moving c; _sensitivity := _sensitivity c;
     _update_callbacks := _update_callbacks c |}.

Definition set_client (v : option BleakClient) (c : Coordinator)
  : Coordinator :=
  {| ble_device := ble_device c; client := v;
     _is_connected := _is_connected c;
     _reconnect_task := _reconnect_task c;
     _should_reconnect := _should_reconnect c;
     _max_reconnect_attempts := _max_reconnect_attempts c;
     _reconnect_delay := _reconnect_delay c;
     _current_height_mm := _current_height_mm c;
     _min_height_mm := _min_height_mm c; _max_height_mm := _max_height_mm c;
     _is_moving := _is_moving c; _sensitivity := _sensitivity c;
     _update_callbacks := _update_callbacks c |}.

Definition set_is_connected (v : bool) (c : Coordinator) : Coordinator :=
  {| ble_device := ble_device c; client := client c; _is_connected := v;
     _reconnect_task := _reconnect_task c;
     _should_reconnect := _should_reconnect c;
     _max_reconnect_attempts := _max_reconnect_attempts c;
     _reconnect_delay := _reconnect_delay c;
     _current_height_mm := _current_height_mm c;
     _min_height_mm := _min_height_mm c; _max_height_mm := _max_height_mm c;
     _is_moving := _is_moving c; _sensitivity := _sensitivity c;
     _update_callbacks := _update_callbacks c |}.

Definition set_reconnect_task (v : option nat) (c : Coordinator)
  : Coordinator :=
  {| ble_device := ble_device c; client := client c;
     _is_connected := _is_connected c; _reconnect_task := v;
     _should_reconnect := _should_reconnect c;
     _max_reconnect_attempts := _max_reconnect_attempts c;
     _reconnect_delay := _reconnect_delay c;
     _current_height_mm := _current_height_mm c;
     _min_height_mm := _min_height_mm c; _max_height_mm := _max_height_mm c;
     _is_moving := _is_moving c; _sensitivity := _sensitivity c;
     _update_callbacks := _update_callbacks c |}.

Definition set_should_reconnect (v : bool) (c : Coordinator) : Coordinator :=
  {| ble_device := ble_device c; client := client c;
     _is_connected := _is_connected c;
     _reconnect_task := _reconnect_task c; _should_reconnect := v;
     _max_reconnect_attempts := _max_reconnect_attempts c;
     _reconnect_delay := _reconnect_delay c;
     _current_height_mm := _current_height_mm c;
     _min_height_mm := _min_height_mm c; _max_height_mm := _max_height_mm c;
     _is_moving := _is_moving c; _sensitivity := _sensitivity c;
     _update_callbacks := _update_callbacks c |}.

Definition set_current_height_mm (v : Z) (c : Coordinator) : Coordinator :=
  {| ble_device := ble_device c; client := client c;
     _is_connected := _is_connected c;
     _reconnect_task := _reconnect_task c;
     _should_reconnect := _should_reconnect c;
     _max_reconnect_attempts := _max_reconnect_attempts c;
     _reconnect_delay := _reconnect_delay c;
     _current_height_mm := v;
     _min_height_mm := _min_height_mm c; _max_height_mm := _max_height_mm c;
     _is_moving := _is_moving c; _sensitivity := _sensitivity c;
     _update_callbacks := _update_callbacks c |}.

Definition set_min_height_mm (v : Z) (c : Coordinator) : Coordinator :=
  {| ble_device := ble_device c; client := client c;
     _is_connected := _is_connected c;
     _reconnect_task := _reconnect_task c;
     _should_reconnect := _should_reconnect c;
     _max_reconnect_attempts := _max_reconnect_attempts c;
     _reconnect_delay := _reconnect_delay c;
     _current_height_mm := _current_height_mm c;
     _min_height_mm := v; _max_height_mm := _max_height_mm c;
     _is_moving := _is_moving c; _sensitivity := _sensitivity c;
     _update_callbacks := _update_callbacks c |}.

Definition set_max_height_mm (v : Z) (c : Coordinator) : Coordinator :=
  {| ble_device := ble_device c; client := client c;
     _is_connected := _is_connected c;
     _reconnect_task := _reconnect_task c;
     _should_reconnect := _should_reconnect c;
     _max_reconnect_attempts := _max_reconnect_attempts c;
     _reconnect_delay := _reconnect_delay c;
     _current_height_mm := _current_height_mm c;
     _min_height_mm := _min_height_mm c; _max_height_mm := v;
     _is_moving := _is_moving c; _sensitivity := _sensitivity c;
     _update_callbacks := _update_callbacks c |}.

Definition set_sensitivity_attr (v : Z) (c : Coordinator) : Coordinator :=
  {| ble_device := ble_device c; client := client c;
     _is_connected := _is_connected c;
     _reconnect_task := _reconnect_task c;
     _should_reconnect := _should_reconnect c;
     _max_reconnect_attempts := _max_reconnect_attempts c;
     _reconnect_delay := _reconnect_delay c;
     _current_height_mm := _current_height_mm c;
     _min_height_mm := _min_height_mm c; _max_height_mm := _max_height_mm c;
     _is_moving := _is_moving c; _sensitivity := v;
     _update_callbacks := _update_callbacks c |}.

Definition set_update_callbacks (v : list nat) (c : Coordinator)
  : Coordinator :=
  {| ble_device := ble_device c; client := client c;
     _is_connected := _is_connected c;
     _reconnect_task := _reconnect_task c;
     _should_reconnect := _should_reconnect c;
     _max_reconnect_attempts := _max_reconnect_attempts c;
     _reconnect_delay := _reconnect_delay c;
     _current_height_mm := _current_height_mm c;
     _min_height_mm := _min_height_mm c; _max_height_mm := _max_height_mm c;
     _is_moving := _is_moving c; _sensitivity := _sensitivity c;
     _update_callbacks := v |}.

(** [FLHDeskCoordinator.__init__]. *)
Definition init_coordinator (dev : BLEDevice) : Coordinator :=
  {| ble_device := dev; client := None; _is_connected := false;
     _reconnect_task := None; _should_reconnect := true;
     _max_reconnect_attempts := 10; _reconnect_delay := 5;
     _current_height_mm := 0;
     _min_height_mm := DEFAULT_MIN_HEIGHT * 10;
     _max_height_mm := DEFAULT_MAX_HEIGHT * 10;
     _is_moving := false; _sensitivity := DEFAULT_SENSITIVITY;
     _update_callbacks := [] |}.

(** The read-only properties. *)
Definition current_height_cm (c : Coordinator) : result float :=
  int_truediv_float (_current_height_mm c) 10%float.
Definition min_height_cm (c : Coordinator) : result float :=
  int_truediv_float (_min_height_mm c) 10%float.
Definition max_height_cm (c : Coordinator) : result float :=
  int_truediv_float (_max_height_mm c) 10%float.
Definition is_moving (c : Coordinator) : bool := _is_moving c.
Definition is_connected (c : Coordinator) : bool := _is_connected c.

(** The dictionary handed to [async_set_updated_data]. *)
Record Snapshot := {
  height_cm : float;
  snap_min_height_cm : float;
  snap_max_height_cm : float;
  snap_is_moving : bool;
  snap_is_connected : bool
}.

Inductive level := INFO | WARNING | ERROR.

Inductive message :=
| Connected_to_desk
| Disconnected_from_desk
| Reconnection_attempt (attempt max_attempts delay : Z)
| Reconnected
| Reconnection_attempt_failed (attempt : Z) (err : exn)
| Failed_to_reconnect (max_attempts : Z)
| Received_empty_notification
| Invalid_format (length : Z) (first_byte : Z)
| Initialization_response_received
| Height_limits (min_cm max_cm : float) (min_b1 min_b2 max_b1 max_b2 : Z)
| Failed_to_send_command (err : exn).

(** What the coordinator does to the outside, in order. *)
Inductive event :=
| Log (lvl : level) (m : message)
| Callback (listener : nat)
| SetUpdatedData (d : Snapshot)
| EstablishConnection (dev : BLEDevice)
| StartNotify
| WriteGattChar (command : bytes)
| ClientDisconnect
| Sleep (seconds : num)
| CreateTask (id : nat).

(** An [_async_reconnect] coroutine on the event loop.  It is suspended
    either before its first instruction ([None]) or in the
    [asyncio.sleep] of the attempt whose number it holds. *)
Record Task := { task_id : nat; task_attempt : option Z }.

(** The coordinator, the reconnection coroutines alive on the event loop
    and the number of tasks created so far. *)
Record World := {
  desk : Coordinator;
  tasks : list Task;
  created : nat
}.

Definition init_world (dev : BLEDevice) : World :=
  {| desk := init_coordinator dev; tasks := []; created := 0 |}.

(** ** Methods: state, events and exceptions *)

Record Run (A : Type) := {
  outcome : result A;
  final : World;
  emitted : list event
}.
Arguments outcome {A} r.
Arguments final {A} r.
Arguments emitted {A} r.

Definition M (A : Type) := World -> Run A.

Definition ret {A} (a : A) : M A :=
  fun w => {| outcome := Ok a; final := w; emitted := [] |}.

Definition raise {A} (e : exn) : M A :=
  fun w => {| outcome := Raise e; final := w; emitted := [] |}.

(** The events [es], then the run [r]. *)
Definition prepend {A} (es : list event) (r : Run A) : Run A :=
  match r with
  | {| outcome := o; final := w; emitted := es' |} =>
      {| outcome := o; final := w; emitted := es ++ es' |}
  end.

Definition bind {A B} (m : M A) (k : A -> M B) : M B :=
  fun w =>
    match m w with
    | {| outcome := Ok a; final := w'; emitted := es |} =>
        prepend es (k a w')
    | {| outcome := Raise e; final := w'; emitted := es |} =>
        {| outcome := Raise e; final := w'; emitted := es |}
    end.

Declare Scope method_scope.
Delimit Scope method_scope with M.
Notation "'do' x <- m ; k" := (bind m (fun x => k))
  (at level 10, x name, m at level 100, k at level 200,
   format "'[v' 'do'  x  <-  m ; '/' k ']'") : method_scope.
Notation "m ;; k" := (bind m (fun _ => k))
  (at level 100, k at level 200, right associativity,
   format "'[v' m  ;; '/' k ']'") : method_scope.

(** Reading and writing [self]. *)
Definition gets {A} (f : Coordinator -> A) : M A :=
  fun w => {| outcome := Ok (f (desk w)); final := w; emitted := [] |}.

Definition modify (f : Coordinator -> Coordinator) : M unit :=
  fun w =>
    {| outcome := Ok tt;
       final := {| desk := f (desk w); tasks := tasks w;
                   created := created w |};
       emitted := [] |}.

Definition emit (e : event) : M unit :=
  fun w => {| outcome := Ok tt; final := w; emitted := [e] |}.

Definition lift {A} (r : result A) : M A :=
  match r with
  | Ok a => ret a
  | Raise e => raise e
  end.

(** [try: m  except Exception as err: handler err]. *)
Definition try_except {A} (m : M A) (handler : exn -> M A) : M A :=
  fun w =>
    match m w with
    | {| outcome := Ok a; final := w'; emitted := es |} =>
        {| outcome := Ok a; final := w'; emitted := es |}
    | {| outcome := Raise e; final := w'; emitted := es |} =>
        if is_Exception e then prepend es (handler e w')
        else {| outcome := Raise e; final := w'; emitted := es |}
    end.

Open Scope method_scope.

(** [for x in l: body x]. *)
Fixpoint for_each {A} (l : list A) (body : A -> M unit) : M unit :=
  match l with
  | [] => ret tt
  | x :: l' => body x ;; for_each l' body
  end.

(** [data[i]] on a [bytes] or [bytearray]. *)
Definition byte_at (data : bytes) (i : nat) : result Z :=
  (do b <- getitem data i ; Ok (int_of_byte b))%result.

(** [x is None]. *)
Definition is_None {A} (x : option A) : bool :=
  match x with
  | None => true
  | Some _ => false
  end.

(** ** Observer hub *)

Definition register_callback (callback : nat) : M unit :=
  do cbs <- gets _update_callbacks ;
  modify (set_update_callbacks (cbs ++ [callback])).

(** [list.remove]: the first occurrence only. *)
Fixpoint list_remove (x : nat) (l : list nat) : list nat :=
  match l with
  | [] => []
  | y :: l' => if Nat.eqb x y then l' else y :: list_remove x l'
  end.

Definition remove_callback (callback : nat) : M unit :=
  do cbs <- gets _update_callbacks ;
  if existsb (Nat.eqb callback) cbs
  then modify (set_update_callbacks (list_remove callback cbs))
  else ret tt.

Definition _trigger_callbacks : M unit :=
  do cbs <- gets _update_callbacks ;
  for_each cbs (fun callback => emit (Callback callback)).

(** ** Event loop and transport *)

(** [hass.async_create_task(self._async_reconnect())]: a new coroutine,
    not yet started. *)
Definition create_task : M nat :=
  fun w =>
    {| outcome := Ok (created w);
       final := {| desk := desk w;
                   tasks := tasks w
                            ++ [{| task_id := created w;
                                   task_attempt := None |}];
                   created := S (created w) |};
       emitted := [CreateTask (created w)] |}.

(** [task.cancel()] followed by awaiting the task: the coroutine gets
    [CancelledError] where it is suspended, which none of its handlers
    catches, and is gone. *)
Definition cancel_task (id : nat) : M unit :=
  fun w =>
    {| outcome := Ok tt;
       final := {| desk := desk w;
                   tasks := filter (fun t => task_id t <> id) (tasks w);
                   created := created w |};
       emitted := [] |}.

Definition _on_disconnect : M unit :=
  emit (Log WARNING Disconnected_from_desk) ;;
  modify (set_is_connected false) ;;
  _trigger_callbacks ;;
  do should <- gets _should_reconnect ;
  do task <- gets _reconnect_task ;
  if should && is_None task then
    do id <- create_task ;
    modify (set_reconnect_task (Some id))
  else ret tt.

(** The transport notices that the link is down: the client object
    reports it from now on, and the [disconnected_callback] runs. *)
Definition mark_link_down (c : Coordinator) : Coordinator :=
  set_client
    (match client c with
     | Some _ => Some {| client_is_connected := false |}
     | None => None
     end) c.

Definition transport_disconnected : M unit :=
  modify mark_link_down ;; _on_disconnect.

(** What happens while a coroutine is suspended in one [await]. *)
Record await_env := {
  lost : bool;            (* the link is reported lost meanwhile *)
  raised : option exn     (* the awaited call raises instead of returning *)
}.

Definition returns : await_env := {| lost := false; raised := None |}.
Definition raises (e : exn) : await_env :=
  {| lost := false; raised := Some e |}.

Definition await (env : await_env) : M unit :=
  (if lost env then transport_disconnected else ret tt) ;;
  match raised env with
  | Some e => raise e
  | None => ret tt
  end.

(** ** Commands *)

Definition _send_command (command : bytes) (env : await_env) : M unit :=
  do c <- gets client ;
  if negb (match c with
           | Some cl => client_is_connected cl
           | None => false
           end)
  then raise UpdateFailed_not_connected
  else
    try_except
      (emit (WriteGattChar command) ;; await env)
      (fun err =>
         emit (Log ERROR (Failed_to_send_command err)) ;;
         raise (UpdateFailed_send err)).

Definition async_move_up (env : await_env) : M unit :=
  do sensitivity <- gets _sensitivity ;
  do command_bytes <-
    lift (bytes_of_list (list_of_bytes CMD_UP ++ [sensitivity])) ;
  do full_command <- lift (build_command command_bytes false false) ;
  _send_command full_command env.

Definition async_move_down (env : await_env) : M unit :=
  do sensitivity <- gets _sensitivity ;
  do command_bytes <-
    lift (bytes_of_list (list_of_bytes CMD_DOWN ++ [sensitivity])) ;
  do full_command <- lift (build_command command_bytes false false) ;
  _send_command full_command env.

Definition async_stop (env : await_env) : M unit :=
  do sensitivity <- gets _sensitivity ;
  do command_bytes <-
    lift (bytes_of_list (list_of_bytes CMD_STOP ++ [sensitivity])) ;
  do full_command <- lift (build_command command_bytes false false) ;
  _send_command full_command env.

Definition async_move_to_height (height_cm : float) (env : await_env)
  : M unit :=
  do height_mm <- lift (int_of_float (PrimFloat.mul height_cm 10%float)) ;
  do lo <- gets _min_height_mm ;
  do hi <- gets _max_height_mm ;
  let height_mm := Z.max lo (Z.min height_mm hi) in
  do _ <- lift (int_truediv height_mm 10) ;
  let height_high := Z.land (Z.shiftr height_mm 8) 0xFF in
  let height_low := Z.land height_mm 0xFF in
  do sensitivity <- gets _sensitivity ;
  do command_bytes <-
    lift (bytes_of_list
            (list_of_bytes CMD_AUTO_MOVE_BASE
             ++ [height_high; height_low; sensitivity])) ;
  do full_command <- lift (build_command command_bytes false false) ;
  _send_command full_command env.

Definition async_stop_auto_move (env : await_env) : M unit :=
  do full_command <- lift (build_command CMD_AUTO_STOP false false) ;
  _send_command full_command env.

Definition set_sensitivity (sensitivity : Z) : M unit :=
  modify (set_sensitivity_attr (Z.max 0 (Z.min 8 sensitivity))).

(** ** Notifications *)

Definition async_set_updated_data (d : Snapshot) : M unit :=
  emit (SetUpdatedData d).

Definition _notification_handler (data : bytes) : M unit :=
  if len data =? 0 then
    emit (Log WARNING Received_empty_notification)
  else
    do invalid <-
      (if len data <? 11 then ret true
       else do b0 <- lift (byte_at data 0) ; ret (negb (b0 =? 0x9D))) ;
    if invalid : bool then
      do first_byte <-
        (if 0 <? len data then lift (byte_at data 0) else ret 0) ;
      emit (Log WARNING (Invalid_format (len data) first_byte))
    else
      do cmd_type <- lift (byte_at data 1) ;
      (if cmd_type =? 0x00 then
         emit (Log INFO Initialization_response_received) ;;
         do min_b1 <- lift (byte_at data 6) ;
         do min_b2 <- lift (byte_at data 7) ;
         do max_b1 <- lift (byte_at data 8) ;
         do max_b2 <- lift (byte_at data 9) ;
         modify (set_min_height_mm
                   (Z.lor (Z.land min_b2 0xFF)
                          (Z.shiftl (Z.land min_b1 0x0F) 8))) ;;
         modify (set_max_height_mm
                   (Z.lor (Z.land max_b2 0xFF)
                          (Z.shiftl (Z.land max_b1 0x0F) 8))) ;;
         do lo <- bind (gets min_height_cm) lift ;
         do hi <- bind (gets max_height_cm) lift ;
         emit (Log INFO (Height_limits lo hi min_b1 min_b2 max_b1 max_b2))
       else if cmd_type =? 0x01 then
         do b1 <- lift (byte_at data 6) ;
         do b2 <- lift (byte_at data 7) ;
         modify (set_current_height_mm
                   (Z.lor (Z.land b2 0xFF) (Z.shiftl (Z.land b1 0x0F) 8))) ;;
         do _ <- bind (gets current_height_cm) lift ;
         ret tt
       else ret tt) ;;
      _trigger_callbacks ;;
      do h <- bind (gets current_height_cm) lift ;
      do lo <- bind (gets min_height_cm) lift ;
      do hi <- bind (gets max_height_cm) lift ;
      do moving <- gets is_moving ;
      do connected <- gets is_connected ;
      async_set_updated_data
        {| height_cm := h; snap_min_height_cm := lo;
           snap_max_height_cm := hi; snap_is_moving := moving;
           snap_is_connected := connected |}.

(** ** Link manager *)

(** What each [await] of [async_connect] meets, in program order. *)
Record connect_env := {
  at_establish : await_env;
  at_start_notify : await_env;
  at_stop_write : await_env;
  at_wake_sleep : await_env;
  at_init_write : await_env;
  at_init_sleep : await_env
}.

Definition async_connect (env : connect_env) : M unit :=
  do dev <- gets ble_device ;
  emit (EstablishConnection dev) ;;
  await (at_establish env) ;;
  modify (set_client (Some {| client_is_connected := true |})) ;;
  emit StartNotify ;;
  await (at_start_notify env) ;;
  modify (set_is_connected true) ;;
  emit (Log INFO Connected_to_desk) ;;
  async_stop (at_stop_write env) ;;
  emit (Sleep (Float 1.0)) ;;
  await (at_wake_sleep env) ;;
  _send_command CMD_INIT (at_init_write env) ;;
  emit (Sleep (Float 0.5)) ;;
  await (at_init_sleep env).

(** [async_disconnect], run with [_disconnect_lock] free.  A close that
    returns leaves the client object reporting the link down. *)
Definition async_disconnect (env : await_env) : M unit :=
  do c <- gets client ;
  (if match c with
      | Some cl => client_is_connected cl
      | None => false
      end
   then
     emit ClientDisconnect ;;
     await env ;;
     modify mark_link_down
   else ret tt) ;;
  modify (set_is_connected false).

(** ** Reconnection cycle

    [_async_reconnect] is suspended only in its [asyncio.sleep] and
    inside [async_connect]; the latter is run in one piece, its own
    [await]s being fed by a [connect_env].  What the coroutine does
    between two suspensions is a function of the attempt counter. *)

(** After the [while] loop. *)
Definition after_loop : M (option Z) :=
  do should <- gets _should_reconnect ;
  do max_attempts <- gets _max_reconnect_attempts ;
  (if should : bool
   then emit (Log ERROR (Failed_to_reconnect max_attempts))
   else ret tt) ;;
  modify (set_reconnect_task None) ;;
  ret None.

(** From the test of the [while] condition to the [asyncio.sleep]:
    [Some attempt] when the coroutine goes to sleep, [None] when it is
    over. *)
Definition loop_head (attempt : Z) : M (option Z) :=
  do should <- gets _should_reconnect ;
  do max_attempts <- gets _max_reconnect_attempts ;
  if should && (attempt <? max_attempts) then
    let attempt := attempt + 1 in
    do delay <- gets _reconnect_delay ;
    emit (Log INFO (Reconnection_attempt attempt max_attempts delay)) ;;
    emit (Sleep (Int delay)) ;;
    ret (Some attempt)
  else after_loop.

(** What one attempt meets: the sleep, the device the Bluetooth
    integration now knows for the address, and the connect. *)
Record attempt_env := {
  at_sleep : await_env;
  resolved : option BLEDevice;
  at_connect : connect_env
}.

(** The [try] statement of the loop body: [true] when the coroutine
    reconnected and is to return, [false] when the attempt failed. *)
Definition try_connect (attempt : Z) (env : attempt_env) : M bool :=
  try_except
    ((match resolved env with
      | Some dev => modify (set_ble_device dev)
      | None => ret tt
      end) ;;
     async_connect (at_connect env) ;;
     emit (Log INFO Reconnected) ;;
     modify (set_reconnect_task None) ;;
     ret true)
    (fun err =>
       emit (Log WARNING (Reconnection_attempt_failed attempt err)) ;;
       ret false).

(** From the end of the sleep to the next sleep or to the end. *)
Definition after_sleep (attempt : Z) (env : attempt_env) : M (option Z) :=
  await (at_sleep env) ;;
  do should <- gets _should_reconnect ;
  if negb should then after_loop
  else
    do reconnected <- try_connect attempt env ;
    if reconnected : bool then ret None else loop_head attempt.

(** One slice of the coroutine, from where it is suspended. *)
Definition cycle_step (at_ : option Z) (env : attempt_env) : M (option Z) :=
  match at_ with
  | None => loop_head 0
  | Some attempt => after_sleep attempt env
  end.

(** The coroutine run to its end without anything else in between;
    [envs n] is what attempt [n] meets.  [None] when [fuel] slices were
    not enough. *)
Fixpoint reconnect_from (fuel : nat) (envs : Z -> attempt_env)
    (attempt : Z) : M (option unit) :=
  match fuel with
  | O => ret None
  | S fuel' =>
      do next <- after_sleep attempt (envs attempt) ;
      match next with
      | None => ret (Some tt)
      | Some attempt' => reconnect_from fuel' envs attempt'
      end
  end.

Definition _async_reconnect (fuel : nat) (envs : Z -> attempt_env)
  : M (option unit) :=
  do next <- loop_head 0 ;
  match next with
  | None => ret (Some tt)
  | Some attempt => reconnect_from fuel envs attempt
  end.

Definition async_shutdown (env : await_env) : M unit :=
  modify (set_should_reconnect false) ;;
  do task <- gets _reconnect_task ;
  (match task with
   | Some id =>
       cancel_task id ;;
       modify (set_reconnect_task None)
   | None => ret tt
   end) ;;
  async_disconnect env.

(** ** The system: everything that can happen to a coordinator *)

(** The event loop resumes the coroutine [id], if it is alive.  The
    coroutine stays in the loop when it went back to sleep and leaves it
    when it returned or raised. *)
Definition set_task_attempt (id : nat) (a : Z) (t : Task) : Task :=
  if Nat.eqb (task_id t) id
  then {| task_id := id; task_attempt := Some a |}
  else t.

Definition resume_task (id : nat) (env : attempt_env) : M unit :=
  fun w =>
    match find (fun t => Nat.eqb (task_id t) id) (tasks w) with
    | None => ret tt w
    | Some t =>
        match cycle_step (task_attempt t) env w with
        | {| outcome := o; final := w'; emitted := es |} =>
            {| outcome := Ok tt;
               final :=
                 {| desk := desk w';
                    tasks :=
                      match o with
                      | Ok (Some a) => map (set_task_attempt id a) (tasks w')
                      | _ => filter (fun t => task_id t <> id) (tasks w')
                      end;
                    created := created w' |};
               emitted := es |}
        end
    end.

Inductive op :=
| Connect (env : connect_env)
| Disconnect (env : await_env)
| Shutdown (env : await_env)
| Notification (data : bytes)
| LinkLost
| Resume (id : nat) (env : attempt_env)
| MoveUp (env : await_env)
| MoveDown (env : await_env)
| Stop (env : await_env)
| MoveToHeight (height_cm : float) (env : await_env)
| StopAutoMove (env : await_env)
| SetSensitivity (sensitivity : Z)
| RegisterCallback (callback : nat)
| RemoveCallback (callback : nat).

Definition exec (o : op) : M unit :=
  match o with
  | Connect env => async_connect env
  | Disconnect env => async_disconnect env
  | Shutdown env => async_shutdown env
  | Notification data => _notification_handler data
  | LinkLost => transport_disconnected
  | Resume id env => resume_task id env
  | MoveUp env => async_move_up env
  | MoveDown env => async_move_down env
  | Stop env => async_stop env
  | MoveToHeight height_cm env => async_move_to_height height_cm env
  | StopAutoMove env => async_stop_auto_move env
  | SetSensitivity sensitivity => set_sensitivity sensitivity
  | RegisterCallback callback => register_callback callback
  | RemoveCallback callback => remove_callback callback
  end.

(** The world after a history of operations, whatever each returned. *)
Definition run_ops (ops : list op) (w : World) : World :=
  fold_left (fun w o => final (exec o w)) ops w.

(** What that history emitted, in order. *)
Fixpoint trace_ops (ops : list op) (w : World) : list event :=
  match ops with
  | [] => []
  | o :: ops' =>
      let r := exec o w in
      emitted r ++ trace_ops ops' (final r)
  end.

Definition reachable (w : World) : Prop :=
  exists dev ops, w = run_ops ops (init_world dev).


(** Environments in which nothing goes wrong. *)
Definition all_return : connect_env :=
  {| at_establish := returns; at_start_notify := returns;
     at_stop_write := returns; at_wake_sleep := returns;
     at_init_write := returns; at_init_sleep := returns |}.

(** ** Specifications of methods and invariants of the world *)

(** [hoare P m Q]: run from a world in [P], [m] ends, by a return or by
    an exception, in a world that [Q] relates to that end. *)
Definition hoare {A} (P : World -> Prop) (m : M A)
    (Q : result A -> World -> Prop) : Prop :=
  forall w, P w -> Q (outcome (m w)) (final (m w)).

(** [P] holds after [m] however [m] ends. *)
Definition preserves {A} (P : World -> Prop) (m : M A) : Prop :=
  hoare P m (fun _ => P).

Definition sensitivity_ok (c : Coordinator) : Prop :=
  0 <= _sensitivity c <= 8.

Definition heights_12bit (c : Coordinator) : Prop :=
  0 <= _current_height_mm c <= 4095
  /\ 0 <= _min_height_mm c <= 4095
  /\ 0 <= _max_height_mm c <= 4095.

Definition desk_inv (w : World) : Prop :=
  sensitivity_ok (desk w) /\ heights_12bit (desk w).

(** The types section 3 of the specification gives the desk state:
    three [u16] heights and a [u8] sensitivity. *)
Definition well_typed (c : Coordinator) : Prop :=
  0 <= _current_height_mm c < 65536
  /\ 0 <= _min_height_mm c < 65536
  /\ 0 <= _max_height_mm c < 65536
  /\ 0 <= _sensitivity c < 256.

(** At most one reconnection coroutine is alive, and the coordinator
    holds its identity. *)
Definition one_cycle (w : World) : Prop :=
  tasks w = []
  \/ exists t, tasks w = [t] /\ _reconnect_task (desk w) = Some (task_id t).

(** The coroutine [id] is the one alive, and the coordinator knows it. *)
Definition cycle_running (ts : list Task) (id : nat) (w : World) : Prop :=
  tasks w = ts /\ _reconnect_task (desk w) = Some id.

(** What a slice of the running cycle leaves: the loop as it was, and
    the handle still in place when the coroutine went back to sleep. *)
Definition slice_post (ts : list Task) (id : nat)
    (r : result (option Z)) (w : World) : Prop :=
  tasks w = ts
  /\ match r with
     | Ok (Some _) => _reconnect_task (desk w) = Some id
     | _ => True
     end.

(** The desk state of section 3, field by field. *)
Definition same_desk_state (c c' : Coordinator) : Prop :=
  _current_height_mm c' = _current_height_mm c
  /\ _min_height_mm c' = _min_height_mm c
  /\ _max_height_mm c' = _max_height_mm c
  /\ _is_moving c' = _is_moving c
  /\ _is_connected c' = _is_connected c
  /\ _sensitivity c' = _sensitivity c.

(** Observers reached by a run: listener invocations and data pushes. *)
Definition is_notification (e : event) : bool :=
  match e with
  | Callback _ | SetUpdatedData _ => true
  | _ => false
  end.

Definition is_write (e : event) : bool :=
  match e with
  | WriteGattChar _ => true
  | _ => false
  end.

(** The pacing of a reconnection cycle: its delays and its attempts. *)
Inductive tick :=
| Delay (seconds : Z)
| Attempt.

Definition tick_of (e : event) : option tick :=
  match e with
  | Sleep (Int d) => Some (Delay d)
  | EstablishConnection _ => Some Attempt
  | _ => None
  end.

Fixpoint pacing (tr : list event) : list tick :=
  match tr with
  | [] => []
  | e :: tr' =>
      match tick_of e with
      | Some t => t :: pacing tr'
      | None => pacing tr'
      end
  end.

(** [n] attempts, each one after a delay of [d] seconds. *)
Fixpoint paced (d : Z) (n : nat) : list tick :=
  match n with
  | O => []
  | S n' => Delay d :: Attempt :: paced d n'
  end.

Definition is_attempt (t : tick) : bool :=
  match t with
  | Attempt => true
  | Delay _ => false
  end.

Definition attempts (tr : list event) : nat :=
  length (List.filter is_attempt (pacing tr)).

(** A method that neither waits for a reconnection delay nor opens a
    connection. *)
Definition quiet {A} (m : M A) : Prop :=
  forall w, pacing (emitted (m w)) = [].

(** The settings of the reconnection policy. *)
Definition policy (should : bool) (max_attempts delay : Z) (w : World)
  : Prop :=
  _should_reconnect (desk w) = should
  /\ _max_reconnect_attempts (desk w) = max_attempts
  /\ _reconnect_delay (desk w) = delay.

(** An attempt that meets a failing connect and is not cancelled in its
    sleep. *)
Definition attempt_fails (env : attempt_env) : Prop :=
  raised (at_sleep env) = None
  /\ forall w, exists e,
       outcome (async_connect (at_connect env) w) = Raise e
       /\ is_Exception e = true.

(** A transport that cannot be reached. *)
Definition unreachable : attempt_env :=
  {| at_sleep := returns; resolved := None;
     at_connect :=
       {| at_establish := raises (BleakError 0);
          at_start_notify := returns; at_stop_write := returns;
          at_wake_sleep := returns; at_init_write := returns;
          at_init_sleep := returns |} |}.

(** ** Further invariants of the world *)

(** The coordinator after a shutdown: reconnection is off, no coroutine
    is alive, and [n] coroutines were created so far. *)
Definition shut_down (n : nat) (w : World) : Prop :=
  _should_reconnect (desk w) = false /\ tasks w = [] /\ created w = n.

(** The attributes that only [__init__] assigns. *)
Definition fixed_settings (w : World) : Prop :=
  _is_moving (desk w) = false
  /\ _max_reconnect_attempts (desk w) = 10
  /\ _reconnect_delay (desk w) = 5.

(** Everything of the world [w0] but the three heights. *)
Definition heights_aside (w0 w : World) : Prop :=
  tasks w = tasks w0 /\ created w = created w0
  /\ ble_device (desk w) = ble_device (desk w0)
  /\ client (desk w) = client (desk w0)
  /\ _is_connected (desk w) = _is_connected (desk w0)
  /\ _reconnect_task (desk w) = _reconnect_task (desk w0)
  /\ _should_reconnect (desk w) = _should_reconnect (desk w0)
  /\ _sensitivity (desk w) = _sensitivity (desk w0)
  /\ _update_callbacks (desk w) = _update_callbacks (desk w0).

(** The handle of a reconnection coroutine that is no more. *)
Definition handle_stale (id n : nat) (w : World) : Prop :=
  tasks w = [] /\ _reconnect_task (desk w) = Some id /\ created w = n.

Definition is_shutdown (o : op) : bool :=
  match o with
  | Shutdown _ => true
  | _ => false
  end.

(** ** The cover entity

    The methods of [cover.py] that drive the coordinator; the desk is a
    cover that opens upwards. *)

Definition async_open_cover (env : await_env) : M unit :=
  do height_cm <- bind (gets max_height_cm) lift ;
  async_move_to_height height_cm env.

Definition async_close_cover (env : await_env) : M unit :=
  do height_cm <- bind (gets min_height_cm) lift ;
  async_move_to_height height_cm env.

Definition async_stop_cover (env : await_env) : M unit :=
  async_stop env.

(** [current_cover_position]: [None] without a link, else the current
    height as a percentage of the range.  [min(100, position)] keeps
    the [int] 100 unless [position < 100], and [max(0, _)] keeps the
    [int] 0 unless the other is above it; [int] of an [int] is that
    [int]. *)
Definition current_cover_position (c : Coordinator) : result (option Z) :=
  (if negb (is_connected c) then Ok None
   else
     do hi <- max_height_cm c ;
     do lo <- min_height_cm c ;
     let height_range := PrimFloat.sub hi lo in
     if PrimFloat.eqb height_range 0%float then Ok (Some 0)
     else
       do cur <- current_height_cm c ;
       do lo' <- min_height_cm c ;
       let position :=
         PrimFloat.mul (PrimFloat.div (PrimFloat.sub cur lo') height_range)
                       100%float in
       if PrimFloat.ltb position 100%float then
         if PrimFloat.ltb 0%float position then
           do n <- int_of_float position ; Ok (Some n)
         else Ok (Some 0)
       else Ok (Some 100))%result.
(** * Properties *)

(** ** Bytes and ints *)

Lemma int_of_byte_range (b : byte) : 0 <= int_of_byte b < 256.
Proof.
  unfold int_of_byte. pose proof (Byte.to_N_bounded b). lia.
Qed.

Lemma byte_of_int_of_byte (b : byte) : byte_of_int (int_of_byte b) = Ok b.
Proof.
  unfold byte_of_int. pose proof (int_of_byte_range b) as Hb.
  replace (0 <=? int_of_byte b) with true by (symmetry; apply Z.leb_le; lia).
  replace (int_of_byte b <? 256) with true by (symmetry; apply Z.ltb_lt; lia).
  simpl. unfold int_of_byte. rewrite N2Z.id, Byte.of_to_N. reflexivity.
Qed.

Lemma byte_of_int_ok (z : Z) :
  0 <= z < 256 -> exists b, byte_of_int z = Ok b /\ int_of_byte b = z.
Proof.
  intros Hz. unfold byte_of_int.
  replace (0 <=? z) with true by (symmetry; apply Z.leb_le; lia).
  replace (z <? 256) with true by (symmetry; apply Z.ltb_lt; lia).
  simpl. destruct (Byte.of_N (Z.to_N z)) as [b|] eqn:E.
  - exists b. split; [reflexivity|].
    apply Byte.to_of_N in E. unfold int_of_byte. rewrite E. lia.
  - apply Byte.of_N_None_iff in E. lia.
Qed.

Lemma bytes_of_list_of_bytes (b : bytes) :
  bytes_of_list (list_of_bytes b) = Ok b.
Proof.
  induction b as [|x b IH]; [reflexivity|].
  cbn [list_of_bytes map bytes_of_list]. fold (list_of_bytes b).
  rewrite byte_of_int_of_byte, IH. reflexivity.
Qed.

Lemma bytes_of_list_cons_ok (z : Z) (b : bytes) :
  0 <= z < 256 ->
  exists x, bytes_of_list (z :: list_of_bytes b) = Ok (x :: b)
            /\ int_of_byte x = z.
Proof.
  intros Hz. destruct (byte_of_int_ok z Hz) as (x & Hx & Hi).
  exists x. split; [|exact Hi].
  cbn [bytes_of_list]. rewrite Hx, bytes_of_list_of_bytes. reflexivity.
Qed.

Lemma sum_fold_right (l : list Z) : sum l = fold_right Z.add 0 l.
Proof.
  unfold sum.
  assert (H : forall a, fold_left Z.add l a = a + fold_right Z.add 0 l).
  { induction l as [|x l IH]; intros a; simpl; [lia|]. rewrite IH. lia. }
  rewrite H. lia.
Qed.

Lemma land_255_mod (z : Z) : Z.land z 0xFF = z mod 256.
Proof. change 0xFF with (Z.ones 8). rewrite Z.land_ones by lia. reflexivity. Qed.

Lemma land_127_range (z : Z) : 0 <= Z.land z 0x7F < 256.
Proof.
  change 0x7F with (Z.ones 7). rewrite Z.land_ones by lia.
  pose proof (Z.mod_pos_bound z (2 ^ 7)). lia.
Qed.

(** ** Command codec *)

Lemma build_command_cons (b0 : byte) (rest : bytes) (mx mn : bool) :
  exists x chk,
    build_command (b0 :: rest) mx mn = Ok (xdd :: x00 :: (x :: rest) ++ [chk])
    /\ int_of_byte x = (int_of_byte b0 + spec_limit_offset mx mn) mod 256
    /\ int_of_byte chk = calculate_checksum (x :: rest).
Proof.
  pose proof (int_of_byte_range b0) as Hb0.
  assert (Hstep : forall off,
    exists x, bytes_of_list
                (Z.land (int_of_byte b0 + off) 0xFF :: list_of_bytes rest)
              = Ok (x :: rest)
              /\ int_of_byte x = (int_of_byte b0 + off) mod 256).
  { intros off.
    destruct (bytes_of_list_cons_ok (Z.land (int_of_byte b0 + off) 0xFF) rest)
      as (x & Hx & Hi).
    - rewrite land_255_mod. apply Z.mod_pos_bound. lia.
    - exists x. split; [exact Hx|]. rewrite Hi. apply land_255_mod. }
  assert (Hfin : forall x,
    exists chk, bytes_of_list [calculate_checksum (x :: rest)] = Ok [chk]
                /\ int_of_byte chk = calculate_checksum (x :: rest)).
  { intros x.
    destruct (byte_of_int_ok (calculate_checksum (x :: rest))) as (c & Hc & Hi).
    - apply land_127_range.
    - exists c. split; [|exact Hi]. simpl. rewrite Hc. reflexivity. }
  assert (Hset : forall v : Z,
             setitem (int_of_byte b0 :: list_of_bytes rest) 0 v
             = Ok (v :: list_of_bytes rest)).
  { intros v. reflexivity. }
  unfold build_command.
  replace (0 <? len (list_of_bytes (b0 :: rest))) with true
    by (symmetry; apply Z.ltb_lt; unfold len; simpl; lia).
  cbn [list_of_bytes map]. fold (list_of_bytes rest).
  change (getitem (int_of_byte b0 :: list_of_bytes rest) 0)
    with (Ok (int_of_byte b0)).
  destruct mx, mn; cbn [andb rbind]; rewrite ?Hset; cbn [rbind].
  - destruct (Hstep 0x30) as (x & Hx & Hi). destruct (Hfin x) as (c & Hc & Hci).
    exists x, c. rewrite Hx. cbn [rbind]. rewrite Hc. cbn. auto.
  - destruct (Hstep 0x10) as (x & Hx & Hi). destruct (Hfin x) as (c & Hc & Hci).
    exists x, c. rewrite Hx. cbn [rbind]. rewrite Hc. cbn. auto.
  - destruct (Hstep 0x20) as (x & Hx & Hi). destruct (Hfin x) as (c & Hc & Hci).
    exists x, c. rewrite Hx. cbn [rbind]. rewrite Hc. cbn. auto.
  - destruct (Hfin b0) as (c & Hc & Hci).
    exists b0, c.
    change (int_of_byte b0 :: list_of_bytes rest)
      with (list_of_bytes (b0 :: rest)).
    rewrite bytes_of_list_of_bytes. cbn [rbind]. rewrite Hc. cbn.
    split; [reflexivity|]. split; [|exact Hci].
    rewrite Z.add_0_r, Z.mod_small; lia.
Qed.

Lemma build_command_returns (body : bytes) (mx mn : bool) :
  exists adjusted checksum,
    build_command body mx mn = Ok ([xdd; x00] ++ adjusted ++ [checksum])
    /\ list_of_bytes adjusted = spec_adjusted_body (list_of_bytes body) mx mn
    /\ int_of_byte checksum = spec_checksum (list_of_bytes adjusted).
Proof.
  destruct body as [|b0 rest].
  - exists [], x00. repeat split; destruct mx, mn; reflexivity.
  - destruct (build_command_cons b0 rest mx mn) as (x & chk & Hb & Hx & Hc).
    exists (x :: rest), chk. split; [exact Hb|]. split.
    + simpl. rewrite Hx. reflexivity.
    + rewrite Hc. unfold calculate_checksum, spec_checksum.
      rewrite sum_fold_right. reflexivity.
Qed.

(** C1, as the code has it. For every body and every pair of flags
    [build_command] returns (it never raises) the frame
    [DD 00 ++ adjusted ++ [checksum]], where [adjusted] is the body with
    its first byte, if any, increased modulo 256 by 0x30, 0x10, 0x20 or
    nothing according to the flags, and the checksum is the sum of the
    adjusted bytes masked with 0x7F; the frame for [40 28 01 2C 00] with
    both flags is [DD 00 70 28 01 2C 00 45], the sum being 0xC5. *)
Theorem build_command_frame (body : bytes) (has_max_limit has_min_limit : bool) :
  (exists adjusted checksum,
      build_command body has_max_limit has_min_limit
      = Ok ([xdd; x00] ++ adjusted ++ [checksum])
      /\ list_of_bytes adjusted
         = spec_adjusted_body (list_of_bytes body) has_max_limit has_min_limit
      /\ int_of_byte checksum = spec_checksum (list_of_bytes adjusted))
  /\ build_command [x40; x28; x01; x2c; x00] true true
     = Ok [xdd; x00; x70; x28; x01; x2c; x00; x45].
Proof.
  split; [apply build_command_returns|reflexivity].
Qed.

(** C1, the example as the specification prints it: the checksum of
    [70 28 01 2C 00] is not 0x41. *)
Lemma build_command_example_checksum_not_41 :
  build_command [x40; x28; x01; x2c; x00] true true
  <> Ok [xdd; x00; x70; x28; x01; x2c; x00; x41].
Proof. vm_compute. discriminate. Qed.

(** ** Floats: the conversions on some values *)

Example float_of_int_300 : float_of_int 300 = Ok 300%float.
Proof. reflexivity. Qed.

Example float_of_int_rounds_to_even :
  float_of_int (2 ^ 53 + 1) = Ok 9007199254740992%float
  /\ float_of_int (2 ^ 53 + 3) = Ok 9007199254740996%float.
Proof. split; vm_compute; reflexivity. Qed.

Example float_of_int_overflow :
  float_of_int DBL_OVERFLOW = Raise OverflowError
  /\ binary_normalize prec emax DBL_OVERFLOW 0 false = S754_infinity false
  /\ float_of_int (DBL_OVERFLOW - 1) = Ok 0x1.fffffffffffffp+1023%float.
Proof. repeat split; vm_compute; reflexivity. Qed.

Example int_truediv_values :
  int_truediv 1220 10 = Ok 122%float
  /\ int_truediv 805 10 = Ok 80.5%float
  /\ int_truediv 0 (-5) = Ok (-0)%float
  /\ int_truediv (2 ^ 1030) 64 = Raise OverflowError
  /\ int_truediv 1 0 = Raise ZeroDivisionError.
Proof. repeat split; vm_compute; reflexivity. Qed.

Example int_of_float_values :
  int_of_float (PrimFloat.mul 150%float 10%float) = Ok 1500
  /\ int_of_float (PrimFloat.mul 72.5%float 10%float) = Ok 725
  /\ int_of_float (-0.5)%float = Ok 0
  /\ int_of_float infinity = Raise OverflowError
  /\ int_of_float nan = Raise ValueError.
Proof. repeat split; vm_compute; reflexivity. Qed.

(** ** Rules for [hoare] and [preserves] *)

Section Rules.
Context {A B : Type}.
Implicit Types (P : World -> Prop).

Lemma hoare_conseq P (m : M A) (Q Q' : result A -> World -> Prop) :
  hoare P m Q -> (forall r w, Q r w -> Q' r w) -> hoare P m Q'.
Proof. intros H HQ w Hw. apply HQ, H, Hw. Qed.

Lemma hoare_pre P P' (m : M A) (Q : result A -> World -> Prop) :
  hoare P' m Q -> (forall w, P w -> P' w) -> hoare P m Q.
Proof. intros H HP w Hw. apply H, HP, Hw. Qed.

Lemma hoare_ret P (a : A) (Q : result A -> World -> Prop) :
  (forall w, P w -> Q (Ok a) w) -> hoare P (ret a) Q.
Proof. intros H w Hw. apply H, Hw. Qed.

Lemma hoare_raise P (e : exn) (Q : result A -> World -> Prop) :
  (forall w, P w -> Q (Raise e) w) -> hoare P (raise e) Q.
Proof. intros H w Hw. apply H, Hw. Qed.

Lemma hoare_bind P (m : M A) (k : A -> M B)
    (R : result A -> World -> Prop) (Q : result B -> World -> Prop) :
  hoare P m R ->
  (forall a, hoare (R (Ok a)) (k a) Q) ->
  (forall e w, R (Raise e) w -> Q (Raise e) w) ->
  hoare P (bind m k) Q.
Proof.
  intros Hm Hk He w Hw. specialize (Hm w Hw). unfold bind.
  destruct (m w) as [[a|e] w' es]; simpl in *.
  - specialize (Hk a w' Hm). destruct (k a w'); exact Hk.
  - apply He, Hm.
Qed.

Lemma hoare_try_except P (m : M A) (handler : exn -> M A)
    (R Q : result A -> World -> Prop) :
  hoare P m R ->
  (forall e, is_Exception e = true -> hoare (R (Raise e)) (handler e) Q) ->
  (forall a w, R (Ok a) w -> Q (Ok a) w) ->
  (forall e w, is_Exception e = false -> R (Raise e) w -> Q (Raise e) w) ->
  hoare P (try_except m handler) Q.
Proof.
  intros Hm Hh Hok Hex w Hw. specialize (Hm w Hw). unfold try_except.
  destruct (m w) as [[a|e] w' es]; simpl in *.
  - apply Hok, Hm.
  - destruct (is_Exception e) eqn:Ee; simpl.
    + specialize (Hh e Ee w' Hm). destruct (handler e w'); exact Hh.
    + apply Hex; assumption.
Qed.

Lemma preserves_ret P (a : A) : preserves P (ret a).
Proof. intros w Hw. exact Hw. Qed.

Lemma preserves_raise P (e : exn) : preserves P (raise (A := A) e).
Proof. intros w Hw. exact Hw. Qed.

Lemma preserves_lift P (r : result A) : preserves P (lift r).
Proof. destruct r; intros w Hw; exact Hw. Qed.

Lemma preserves_gets P (f : Coordinator -> A) : preserves P (gets f).
Proof. intros w Hw. exact Hw. Qed.

Lemma preserves_bind P (m : M A) (k : A -> M B) :
  preserves P m -> (forall a, preserves P (k a)) -> preserves P (bind m k).
Proof.
  intros Hm Hk. apply hoare_bind with (R := fun _ => P); auto.
Qed.

Lemma preserves_try_except P (m : M A) (handler : exn -> M A) :
  preserves P m -> (forall e, preserves P (handler e)) ->
  preserves P (try_except m handler).
Proof.
  intros Hm Hh. apply hoare_try_except with (R := fun _ => P); auto.
  intros e _. apply Hh.
Qed.
End Rules.

Lemma preserves_emit (P : World -> Prop) (e : event) : preserves P (emit e).
Proof. intros w Hw. exact Hw. Qed.

Lemma preserves_modify (P : World -> Prop) (f : Coordinator -> Coordinator) :
  (forall w, P w ->
             P {| desk := f (desk w); tasks := tasks w;
                  created := created w |}) ->
  preserves P (modify f).
Proof. intros H w Hw. apply H, Hw. Qed.

Lemma preserves_for_each {A} (P : World -> Prop) (l : list A)
    (body : A -> M unit) :
  (forall x, preserves P (body x)) -> preserves P (for_each l body).
Proof.
  intros Hb. induction l as [|x l IH]; simpl.
  - apply preserves_ret.
  - apply preserves_bind; auto.
Qed.

(** Goals [preserves P m] for a method [m] put together from the
    primitives; what is left is one goal for each attribute written. *)
Ltac preserves_step :=
  first
    [ apply preserves_ret | apply preserves_raise | apply preserves_lift
    | apply preserves_gets | apply preserves_emit
    | apply preserves_for_each; intros ?
    | apply preserves_try_except; [|intros ?]
    | apply preserves_bind; [|intros ?]
    | match goal with
      | |- preserves _ (if ?b then _ else _) => destruct b
      | |- preserves _ (match ?x with _ => _ end) => destruct x
      end ].

(** ** The 12-bit field of a notification *)

Lemma twelve_bits (b1 b2 : Z) :
  0 <= Z.lor (Z.land b2 0xFF) (Z.shiftl (Z.land b1 0x0F) 8) <= 4095.
Proof.
  assert (Hlo : 0 <= Z.land b2 0xFF < 2 ^ 8).
  { change 0xFF with (Z.ones 8). rewrite Z.land_ones by lia.
    apply Z.mod_pos_bound. lia. }
  assert (Hhi : 0 <= Z.land b1 0x0F < 2 ^ 4).
  { change 0x0F with (Z.ones 4). rewrite Z.land_ones by lia.
    apply Z.mod_pos_bound. lia. }
  set (lo := Z.land b2 0xFF) in *. set (hi := Z.land b1 0x0F) in *.
  assert (Hsh : 0 <= Z.shiftl hi 8 < 2 ^ 12).
  { rewrite Z.shiftl_mul_pow2 by lia. lia. }
  assert (Hnn : 0 <= Z.lor lo (Z.shiftl hi 8)) by (apply Z.lor_nonneg; lia).
  split; [exact Hnn|].
  destruct (Z.eq_dec (Z.lor lo (Z.shiftl hi 8)) 0) as [E|E]; [lia|].
  assert (Z.lor lo (Z.shiftl hi 8) < 2 ^ 12); [|lia].
  apply Z.log2_lt_pow2; [lia|].
  rewrite Z.log2_lor by lia.
  assert (Z.log2 lo < 12).
  { destruct (Z.eq_dec lo 0) as [->|]; [simpl; lia|].
    apply Z.log2_lt_pow2; lia. }
  assert (Z.log2 (Z.shiftl hi 8) < 12).
  { destruct (Z.eq_dec (Z.shiftl hi 8) 0) as [->|]; [simpl; lia|].
    apply Z.log2_lt_pow2; lia. }
  lia.
Qed.

(** ** Invariants of the desk state *)

Create HintDb methods.
#[local] Hint Unfold exec async_connect async_disconnect async_shutdown
  _notification_handler transport_disconnected _on_disconnect
  _trigger_callbacks await _send_command async_move_up async_move_down
  async_stop async_move_to_height async_stop_auto_move set_sensitivity
  register_callback remove_callback async_set_updated_data
  cycle_step loop_head after_loop after_sleep try_connect : methods.

Lemma desk_inv_create_task : preserves desk_inv create_task.
Proof. intros w Hw. exact Hw. Qed.

Lemma desk_inv_cancel_task (id : nat) : preserves desk_inv (cancel_task id).
Proof. intros w Hw. exact Hw. Qed.

Ltac desk_modify :=
  apply preserves_modify; intros [[] ? ?];
  unfold desk_inv, sensitivity_ok, heights_12bit; simpl; intros;
  repeat split; try lia; try apply twelve_bits.

Ltac preserves_desk :=
  autounfold with methods;
  repeat first
    [ preserves_step | apply desk_inv_create_task
    | apply desk_inv_cancel_task | desk_modify ].

Lemma desk_inv_cycle_step (at_ : option Z) (env : attempt_env) :
  preserves desk_inv (cycle_step at_ env).
Proof. preserves_desk. Qed.

Lemma desk_inv_resume_task (id : nat) (env : attempt_env) :
  preserves desk_inv (resume_task id env).
Proof.
  intros w Hw. unfold resume_task.
  destruct (find _ (tasks w)) as [t|]; [|exact Hw].
  pose proof (desk_inv_cycle_step (task_attempt t) env w Hw) as H.
  destruct (cycle_step _ env w); exact H.
Qed.

Lemma desk_inv_exec (o : op) : preserves desk_inv (exec o).
Proof.
  destruct o; try apply desk_inv_resume_task; preserves_desk.
Qed.

Lemma desk_inv_init (dev : BLEDevice) : desk_inv (init_world dev).
Proof.
  unfold desk_inv, sensitivity_ok, heights_12bit. simpl.
  unfold DEFAULT_SENSITIVITY, DEFAULT_MIN_HEIGHT, DEFAULT_MAX_HEIGHT. lia.
Qed.

Lemma desk_inv_run_ops (ops : list op) (w : World) :
  desk_inv w -> desk_inv (run_ops ops w).
Proof.
  revert w. induction ops as [|o ops IH]; intros w Hw; [exact Hw|].
  simpl. apply IH. apply (desk_inv_exec o w Hw).
Qed.

Lemma desk_inv_reachable (w : World) : reachable w -> desk_inv w.
Proof.
  intros (dev & ops & ->). apply desk_inv_run_ops, desk_inv_init.
Qed.


(** ** Running a method step by step *)

Lemma prepend_nil {A} (r : Run A) : prepend [] r = r.
Proof. destruct r; reflexivity. Qed.

Lemma prepend_prepend {A} (es es' : list event) (r : Run A) :
  prepend es (prepend es' r) = prepend (es ++ es') r.
Proof. destruct r; simpl. rewrite app_assoc. reflexivity. Qed.

Lemma bind_assoc_run {A B C} (m : M A) (k1 : A -> M B) (k2 : B -> M C)
    (w : World) :
  bind (bind m k1) k2 w = bind m (fun a => bind (k1 a) k2) w.
Proof.
  unfold bind. destruct (m w) as [[a|e] w' es]; [|reflexivity].
  destruct (k1 a w') as [[b|e] w'' es']; simpl; [|reflexivity].
  rewrite prepend_prepend. reflexivity.
Qed.

Lemma bind_ret_run {A B} (a : A) (k : A -> M B) (w : World) :
  bind (ret a) k w = k a w.
Proof. unfold bind. simpl. apply prepend_nil. Qed.

Lemma bind_raise_run {A B} (e : exn) (k : A -> M B) (w : World) :
  bind (raise e) k w = raise e w.
Proof. reflexivity. Qed.

Lemma bind_gets_run {A B} (f : Coordinator -> A) (k : A -> M B) (w : World) :
  bind (gets f) k w = k (f (desk w)) w.
Proof. unfold bind. simpl. apply prepend_nil. Qed.

Lemma bind_lift_ok {A B} (a : A) (k : A -> M B) (w : World) :
  bind (lift (Ok a)) k w = k a w.
Proof. unfold bind. simpl. apply prepend_nil. Qed.

Lemma bind_lift_raise {A B} (e : exn) (k : A -> M B) (w : World) :
  bind (lift (Raise e)) k w = raise e w.
Proof. reflexivity. Qed.

Lemma bind_emit_run {B} (e : event) (k : unit -> M B) (w : World) :
  bind (emit e) k w = prepend [e] (k tt w).
Proof. reflexivity. Qed.

Lemma bind_modify_run {B} (f : Coordinator -> Coordinator) (k : unit -> M B)
    (w : World) :
  bind (modify f) k w
  = k tt {| desk := f (desk w); tasks := tasks w; created := created w |}.
Proof. unfold bind. simpl. apply prepend_nil. Qed.

Lemma for_each_emit {A} (f : A -> event) (l : list A) (w : World) :
  for_each l (fun x => emit (f x)) w
  = {| outcome := Ok tt; final := w; emitted := map f l |}.
Proof.
  induction l as [|x l IH]; [reflexivity|].
  cbn [for_each]. rewrite bind_emit_run, IH. reflexivity.
Qed.

Lemma trigger_callbacks_run (w : World) :
  _trigger_callbacks w
  = {| outcome := Ok tt; final := w;
       emitted := map Callback (_update_callbacks (desk w)) |}.
Proof.
  unfold _trigger_callbacks. rewrite bind_gets_run, for_each_emit.
  reflexivity.
Qed.

Lemma bind_trigger_callbacks {B} (k : unit -> M B) (w : World) :
  bind _trigger_callbacks k w
  = prepend (map Callback (_update_callbacks (desk w))) (k tt w).
Proof. unfold bind at 1. rewrite trigger_callbacks_run. reflexivity. Qed.

Lemma byte_at_0 (b : byte) (l : bytes) : byte_at (b :: l) 0 = Ok (int_of_byte b).
Proof. reflexivity. Qed.

Lemma byte_at_S (b : byte) (l : bytes) (i : nat) :
  byte_at (b :: l) (S i) = byte_at l i.
Proof. reflexivity. Qed.

Lemma bind_create_task_run {B} (k : nat -> M B) (w : World) :
  bind create_task k w
  = prepend [CreateTask (created w)]
      (k (created w)
         {| desk := desk w;
            tasks := tasks w ++ [{| task_id := created w;
                                    task_attempt := None |}];
            created := S (created w) |}).
Proof. reflexivity. Qed.

Lemma bind_cancel_task_run {B} (id : nat) (k : unit -> M B) (w : World) :
  bind (cancel_task id) k w
  = k tt {| desk := desk w;
            tasks := filter (fun t => task_id t <> id) (tasks w);
            created := created w |}.
Proof. unfold bind. simpl. apply prepend_nil. Qed.

(** One step of a run: the head of the method is a primitive. *)
Ltac run_step :=
  first
    [ rewrite bind_assoc_run | rewrite bind_ret_run | rewrite bind_raise_run
    | rewrite bind_gets_run | rewrite bind_lift_ok | rewrite bind_lift_raise
    | rewrite bind_emit_run | rewrite bind_modify_run
    | rewrite bind_trigger_callbacks | rewrite prepend_prepend
    | rewrite bind_create_task_run | rewrite bind_cancel_task_run
    | rewrite byte_at_S | rewrite byte_at_0 ];
  cbv beta.

Ltac run := repeat run_step.

(** The same, with the records in sight reduced as well. *)
Ltac simp_state :=
  cbn [desk tasks created client_is_connected lost raised
       outcome final emitted prepend app
       ble_device client _is_connected _reconnect_task _should_reconnect
       _max_reconnect_attempts _reconnect_delay _current_height_mm
       _min_height_mm _max_height_mm _is_moving _sensitivity
       _update_callbacks
       set_ble_device set_client set_is_connected set_reconnect_task
       set_should_reconnect set_current_height_mm set_min_height_mm
       set_max_height_mm set_sensitivity_attr set_update_callbacks
       mark_link_down andb negb is_None is_Exception returns raises
       at_establish at_start_notify at_stop_write at_wake_sleep
       at_init_write at_init_sleep at_sleep resolved at_connect
       is_moving is_connected ret raise].

Ltac exec := repeat first [run_step | progress simp_state].

Lemma float_of_int_12bit (n : Z) :
  0 <= n <= 4095 -> exists x, int_truediv_float n 10%float = Ok x.
Proof.
  intros Hn. unfold int_truediv_float, float_of_int.
  replace (Z.abs n <? DBL_OVERFLOW) with true.
  - eexists. reflexivity.
  - symmetry. apply Z.ltb_lt.
    assert (4095 < DBL_OVERFLOW) by (vm_compute; reflexivity). lia.
Qed.

Lemma long_buffer (data : bytes) :
  11 <= len data ->
  exists b0 b1 b2 b3 b4 b5 b6 b7 b8 b9 b10 rest,
    data = b0 :: b1 :: b2 :: b3 :: b4 :: b5 :: b6 :: b7 :: b8 :: b9 :: b10
              :: rest.
Proof.
  unfold len. intros H.
  do 11 (destruct data as [|? data]; [simpl in H; lia|]).
  eauto 13.
Qed.

(** The guards of the handler on a buffer of eleven bytes or more. *)
Ltac handler_guards :=
  unfold _notification_handler;
  replace (len _ =? 0) with false
    by (symmetry; apply Z.eqb_neq; unfold len; simpl length; lia);
  replace (len _ <? 11) with false
    by (symmetry; apply Z.ltb_ge; unfold len; simpl length; lia);
  run.

(** Reading a height in centimetres, its conversion being [E]. *)
Ltac read_cm E :=
  unfold current_height_cm, min_height_cm, max_height_cm;
  cbn [desk _current_height_mm _min_height_mm _max_height_mm
       set_current_height_mm set_min_height_mm set_max_height_mm];
  rewrite E; run.

Section ValidFrame.
Variables (w : World) (b0 b1 b2 b3 b4 b5 b6 b7 b8 b9 b10 : byte)
          (rest : bytes).
Let data : bytes :=
  b0 :: b1 :: b2 :: b3 :: b4 :: b5 :: b6 :: b7 :: b8 :: b9 :: b10 :: rest.
Hypothesis first : int_of_byte b0 = 0x9D.
Hypothesis bounded : heights_12bit (desk w).

Lemma handler_unrecognized :
  (int_of_byte b1 =? 0x00) = false -> (int_of_byte b1 =? 0x01) = false ->
  exists d,
    _notification_handler data w
    = {| outcome := Ok tt; final := w;
         emitted := map Callback (_update_callbacks (desk w))
                    ++ [SetUpdatedData d] |}.
Proof.
  intros H1 H1'. destruct bounded as (Hc & Hlo & Hhi).
  destruct (float_of_int_12bit _ Hc) as (xc & Ec).
  destruct (float_of_int_12bit _ Hlo) as (xlo & Elo).
  destruct (float_of_int_12bit _ Hhi) as (xhi & Ehi).
  eexists. subst data. handler_guards.
  rewrite first. cbn [Z.eqb Pos.eqb negb]. run. rewrite H1, H1'. run.
  read_cm Ec. read_cm Elo. read_cm Ehi.
  reflexivity.
Qed.

Lemma handler_height :
  int_of_byte b1 = 0x01 ->
  let height :=
    Z.lor (Z.land (int_of_byte b7) 0xFF)
          (Z.shiftl (Z.land (int_of_byte b6) 0x0F) 8) in
  exists d,
    _notification_handler data w
    = {| outcome := Ok tt;
         final := {| desk := set_current_height_mm height (desk w);
                     tasks := tasks w; created := created w |};
         emitted := map Callback (_update_callbacks (desk w))
                    ++ [SetUpdatedData d] |}
    /\ int_truediv_float height 10%float = Ok (height_cm d).
Proof.
  intros H1 height. destruct bounded as (Hc & Hlo & Hhi).
  destruct (float_of_int_12bit height) as (xc & Ec);
    [apply twelve_bits|].
  destruct (float_of_int_12bit _ Hlo) as (xlo & Elo).
  destruct (float_of_int_12bit _ Hhi) as (xhi & Ehi).
  eexists. subst data. handler_guards.
  rewrite first. cbn [Z.eqb Pos.eqb negb]. run.
  rewrite H1. cbn [Z.eqb Pos.eqb]. run. fold height.
  read_cm Ec. read_cm Ec. read_cm Elo. read_cm Ehi.
  split; reflexivity.
Qed.

Lemma handler_limits :
  int_of_byte b1 = 0x00 ->
  let lo :=
    Z.lor (Z.land (int_of_byte b7) 0xFF)
          (Z.shiftl (Z.land (int_of_byte b6) 0x0F) 8) in
  let hi :=
    Z.lor (Z.land (int_of_byte b9) 0xFF)
          (Z.shiftl (Z.land (int_of_byte b8) 0x0F) 8) in
  exists d lo_cm hi_cm,
    _notification_handler data w
    = {| outcome := Ok tt;
         final := {| desk := set_max_height_mm hi
                               (set_min_height_mm lo (desk w));
                     tasks := tasks w; created := created w |};
         emitted :=
           [Log INFO Initialization_response_received;
            Log INFO (Height_limits lo_cm hi_cm (int_of_byte b6)
                        (int_of_byte b7) (int_of_byte b8) (int_of_byte b9))]
           ++ map Callback (_update_callbacks (desk w))
           ++ [SetUpdatedData d] |}.
Proof.
  intros H1 lo hi. destruct bounded as (Hc & Hlo & Hhi).
  destruct (float_of_int_12bit _ Hc) as (xc & Ec).
  destruct (float_of_int_12bit lo) as (xlo & Elo); [apply twelve_bits|].
  destruct (float_of_int_12bit hi) as (xhi & Ehi); [apply twelve_bits|].
  do 3 eexists. subst data. handler_guards.
  rewrite first. cbn [Z.eqb Pos.eqb negb]. run.
  rewrite H1. cbn [Z.eqb]. run. fold lo hi.
  read_cm Elo. read_cm Ehi.
  read_cm Ec. read_cm Elo. read_cm Ehi.
  reflexivity.
Qed.
End ValidFrame.

(** ** Notification decoder *)

Lemma reachable_init (dev : BLEDevice) : reachable (init_world dev).
Proof. exists dev, []. reflexivity. Qed.

Lemma reachable_exec (o : op) (w : World) :
  reachable w -> reachable (final (exec o w)).
Proof.
  intros (dev & ops & ->). exists dev, (ops ++ [o]).
  unfold run_ops. rewrite fold_left_app. reflexivity.
Qed.

(** C2. For a buffer of at least eleven bytes that starts with 0x9D,
    received in a state the coordinator can be in: when byte 1 is 0x01
    the handler returns and the current height is
    [(buffer[7] & 0xFF) | ((buffer[6] & 0x0F) << 8)], the limits being
    kept and the listeners and the data update being served with that
    height in centimetres; when byte 1 is 0x00 the handler returns and the
    minimum is that same field while the maximum is
    [(buffer[9] & 0xFF) | ((buffer[8] & 0x0F) << 8)], the current height
    being kept.  The buffer [9D 01 00 00 00 00 01 2C 00 00 00] sets the
    current height to 300 mm, which [current_height_cm] shows as 30.0. *)
Theorem notification_decodes (w : World) (data : bytes) :
  reachable w -> 11 <= len data -> byte_at data 0 = Ok 0x9D ->
  (exists b6 b7 b8 b9,
      byte_at data 6 = Ok b6 /\ byte_at data 7 = Ok b7
      /\ byte_at data 8 = Ok b8 /\ byte_at data 9 = Ok b9
      /\ (byte_at data 1 = Ok 0x01 ->
          let r := _notification_handler data w in
          outcome r = Ok tt
          /\ _current_height_mm (desk (final r))
             = Z.lor (Z.land b7 0xFF) (Z.shiftl (Z.land b6 0x0F) 8)
          /\ _min_height_mm (desk (final r)) = _min_height_mm (desk w)
          /\ _max_height_mm (desk (final r)) = _max_height_mm (desk w)
          /\ exists d,
               emitted r = map Callback (_update_callbacks (desk w))
                           ++ [SetUpdatedData d]
               /\ current_height_cm (desk (final r)) = Ok (height_cm d))
      /\ (byte_at data 1 = Ok 0x00 ->
          let r := _notification_handler data w in
          outcome r = Ok tt
          /\ _min_height_mm (desk (final r))
             = Z.lor (Z.land b7 0xFF) (Z.shiftl (Z.land b6 0x0F) 8)
          /\ _max_height_mm (desk (final r))
             = Z.lor (Z.land b9 0xFF) (Z.shiftl (Z.land b8 0x0F) 8)
          /\ _current_height_mm (desk (final r))
             = _current_height_mm (desk w)))
  /\ (forall dev,
        let r := _notification_handler
                   [x9d; x01; x00; x00; x00; x00; x01; x2c; x00; x00; x00]
                   (init_world dev) in
        _current_height_mm (desk (final r)) = 300
        /\ current_height_cm (desk (final r)) = Ok 30%float).
Proof.
  intros Hw Hlen H0. split; [|intros dev; split; reflexivity].
  apply desk_inv_reachable in Hw. destruct Hw as (_ & Hh).
  destruct (long_buffer data Hlen)
    as (b0 & b1 & b2 & b3 & b4 & b5 & b6 & b7 & b8 & b9 & b10 & rest & ->).
  assert (Hb0 : int_of_byte b0 = 0x9D) by (rewrite byte_at_0 in H0; congruence).
  exists (int_of_byte b6), (int_of_byte b7), (int_of_byte b8), (int_of_byte b9).
  do 4 (split; [reflexivity|]). split.
  - intros H1. rewrite byte_at_S, byte_at_0 in H1.
    assert (Hb1 : int_of_byte b1 = 0x01) by congruence.
    destruct (handler_height w b0 b1 b2 b3 b4 b5 b6 b7 b8 b9 b10 rest
                Hb0 Hh Hb1) as (d & Hrun & Hcm).
    cbv zeta. rewrite Hrun. cbn [outcome final emitted desk].
    repeat split. exists d. split; [reflexivity|exact Hcm].
  - intros H1. rewrite byte_at_S, byte_at_0 in H1.
    assert (Hb1 : int_of_byte b1 = 0x00) by congruence.
    destruct (handler_limits w b0 b1 b2 b3 b4 b5 b6 b7 b8 b9 b10 rest
                Hb0 Hh Hb1) as (d & lo & hi & Hrun).
    cbv zeta. rewrite Hrun. cbn [outcome final emitted desk].
    repeat split.
Qed.

Lemma notification_decodes_witness :
  _current_height_mm
    (desk (final (_notification_handler
                    [x9d; x01; x00; x00; x00; x00; x01; x2c; x00; x00; x00]
                    (init_world 0%nat))))
  = Z.lor (Z.land 0x2C 0xFF) (Z.shiftl (Z.land 0x01 0x0F) 8).
Proof.
  destruct (notification_decodes (init_world 0%nat)
              [x9d; x01; x00; x00; x00; x00; x01; x2c; x00; x00; x00])
    as ((b6 & b7 & b8 & b9 & H6 & H7 & _ & _ & Hheight & _) & _).
  - apply reachable_init.
  - vm_compute. discriminate.
  - reflexivity.
  - injection H6 as <-. injection H7 as <-.
    apply Hheight. reflexivity.
Defined.

(** C3. A buffer shorter than eleven bytes, or whose first byte is not
    0x9D, is dropped: the handler returns after one warning, the world,
    and with it every field of the desk state, is as before, and no
    listener is called and no data update is pushed. *)
Theorem invalid_frame_rejected (w : World) (data : bytes) :
  len data < 11 \/ byte_at data 0 <> Ok 0x9D ->
  let r := _notification_handler data w in
  outcome r = Ok tt
  /\ final r = w
  /\ same_desk_state (desk w) (desk (final r))
  /\ (exists m, emitted r = [Log WARNING m])
  /\ List.filter is_notification (emitted r) = [].
Proof.
  intros H.
  assert (Hgoal : exists m,
             _notification_handler data w
             = {| outcome := Ok tt; final := w;
                  emitted := [Log WARNING m] |}).
  { destruct data as [|b0 rest].
    - eexists. reflexivity.
    - unfold _notification_handler.
      replace (len (b0 :: rest) =? 0) with false
        by (symmetry; apply Z.eqb_neq; unfold len; simpl length; lia).
      replace (0 <? len (b0 :: rest)) with true
        by (symmetry; apply Z.ltb_lt; unfold len; simpl length; lia).
      destruct (len (b0 :: rest) <? 11) eqn:E11.
      + run. eexists. reflexivity.
      + run. destruct (int_of_byte b0 =? 157) eqn:E0.
        * exfalso. apply Z.ltb_ge in E11. apply Z.eqb_eq in E0.
          destruct H as [H|H]; [lia|]. apply H. rewrite byte_at_0.
          f_equal. exact E0.
        * cbn [negb]. run. eexists. reflexivity. }
  destruct Hgoal as (m & ->). cbn [outcome final emitted].
  repeat split. exists m. reflexivity.
Qed.

Lemma invalid_frame_rejected_witness :
  final (_notification_handler [x9d; x01; x00; x00; x00] (init_world 0%nat))
  = init_world 0%nat
  /\ final (_notification_handler
              [x00; x01; x00; x00; x00; x00; x01; x2c; x00; x00; x00]
              (init_world 0%nat))
     = init_world 0%nat.
Proof.
  split.
  - apply (invalid_frame_rejected (init_world 0%nat) [x9d; x01; x00; x00; x00]).
    left. vm_compute. reflexivity.
  - apply (invalid_frame_rejected (init_world 0%nat)
             [x00; x01; x00; x00; x00; x00; x01; x2c; x00; x00; x00]).
    right. vm_compute. discriminate.
Defined.

(** C9. A buffer of at least eleven bytes that starts with 0x9D and
    whose byte 1 is neither 0x00 nor 0x01, received in a state the
    coordinator can be in, changes nothing: the handler returns, the
    world, and with it every field of the desk state, is as before; yet
    every registered listener is called, in registration order, and the
    data update is pushed. *)
Theorem unrecognized_frame_surfaced (w : World) (data : bytes) (cmd_type : Z) :
  reachable w -> 11 <= len data -> byte_at data 0 = Ok 0x9D ->
  byte_at data 1 = Ok cmd_type -> cmd_type <> 0x00 -> cmd_type <> 0x01 ->
  let r := _notification_handler data w in
  outcome r = Ok tt
  /\ final r = w
  /\ same_desk_state (desk w) (desk (final r))
  /\ exists d,
       emitted r = map Callback (_update_callbacks (desk w))
                   ++ [SetUpdatedData d].
Proof.
  intros Hw Hlen H0 H1 Hn0 Hn1.
  apply desk_inv_reachable in Hw. destruct Hw as (_ & Hh).
  destruct (long_buffer data Hlen)
    as (b0 & b1 & b2 & b3 & b4 & b5 & b6 & b7 & b8 & b9 & b10 & rest & ->).
  assert (Hb0 : int_of_byte b0 = 0x9D) by (rewrite byte_at_0 in H0; congruence).
  rewrite byte_at_S, byte_at_0 in H1.
  assert (Hb1 : int_of_byte b1 = cmd_type) by congruence.
  destruct (handler_unrecognized w b0 b1 b2 b3 b4 b5 b6 b7 b8 b9 b10 rest
              Hb0 Hh) as (d & Hrun).
  - apply Z.eqb_neq. congruence.
  - apply Z.eqb_neq. congruence.
  - cbv zeta. rewrite Hrun. cbn [outcome final emitted].
    repeat split. exists d. reflexivity.
Qed.

Lemma unrecognized_frame_surfaced_witness :
  exists d,
    emitted (_notification_handler
               [x9d; x02; x00; x00; x00; x00; x01; x2c; x00; x00; x00]
               (final (exec (RegisterCallback 7%nat) (init_world 0%nat))))
    = [Callback 7%nat; SetUpdatedData d].
Proof.
  apply (unrecognized_frame_surfaced
           (final (exec (RegisterCallback 7%nat) (init_world 0%nat)))
           [x9d; x02; x00; x00; x00; x00; x01; x2c; x00; x00; x00] 2).
  - apply reachable_exec, reachable_init.
  - vm_compute. discriminate.
  - reflexivity.
  - reflexivity.
  - discriminate.
  - discriminate.
Defined.

(** ** Sensitivity and heights *)

Ltac sens_modify :=
  apply preserves_modify; intros [[] ? ?];
  unfold sensitivity_ok; simpl; intros; lia.

Ltac preserves_sens :=
  autounfold with methods;
  repeat first
    [ preserves_step
    | match goal with
      | |- preserves _ create_task => intros ? H; exact H
      | |- preserves _ (cancel_task _) => intros ? H; exact H
      end
    | sens_modify ].

Lemma sensitivity_ok_exec (o : op) :
  preserves (fun w => sensitivity_ok (desk w)) (exec o).
Proof.
  destruct o; try solve [preserves_sens].
  intros w Hw. unfold exec, resume_task.
  destruct (find _ (tasks w)) as [t|]; [|exact Hw].
  assert (H : preserves (fun w => sensitivity_ok (desk w))
                (cycle_step (task_attempt t) env))
    by (destruct (task_attempt t); preserves_sens).
  specialize (H w Hw). destruct (cycle_step _ env w); exact H.
Qed.

(** C8. [set_sensitivity] returns and stores its argument clamped to
    [0, 8]: 0 below 0, 8 above 8, the argument itself in between, so 0
    for -3 and 8 for 20.  The sensitivity is 0 at construction, every
    operation keeps it within [0, 8] when it was, and so it is within
    [0, 8] after any history of operations. *)
Theorem sensitivity_clamped (dev : BLEDevice) (ops : list op) (o : op)
    (w : World) (v : Z) :
  sensitivity_ok (desk w) ->
  (outcome (set_sensitivity v w) = Ok tt
   /\ _sensitivity (desk (final (set_sensitivity v w)))
      = (if v <? 0 then 0 else if 8 <? v then 8 else v)
   /\ sensitivity_ok (desk (final (set_sensitivity v w))))
  /\ _sensitivity (desk (final (set_sensitivity (-3) w))) = 0
  /\ _sensitivity (desk (final (set_sensitivity 20 w))) = 8
  /\ _sensitivity (desk (init_world dev)) = 0
  /\ sensitivity_ok (desk (final (exec o w)))
  /\ sensitivity_ok (desk (run_ops ops (init_world dev))).
Proof.
  intros Hw. split; [|split; [|split; [|split; [|split]]]].
  - split; [reflexivity|]. unfold sensitivity_ok. cbn.
    destruct (Z.ltb_spec v 0), (Z.ltb_spec 8 v); lia.
  - reflexivity.
  - reflexivity.
  - reflexivity.
  - exact (sensitivity_ok_exec o w Hw).
  - apply (desk_inv_run_ops ops (init_world dev)), desk_inv_init.
Qed.

Lemma sensitivity_clamped_witness :
  _sensitivity
    (desk (final (set_sensitivity 11
                    (final (exec (SetSensitivity 5) (init_world 0%nat))))))
  = 8.
Proof.
  apply (sensitivity_clamped 0%nat [] (Stop returns)
           (final (exec (SetSensitivity 5) (init_world 0%nat))) 11).
  unfold sensitivity_ok. cbn. lia.
Defined.

(** C10. Each height a notification writes is a 12-bit value, and the
    heights start at 0, 720 and 1220 mm: after any sequence of
    notifications, and indeed after any history of operations, the
    current height and both limits lie within [0, 4095]. *)
Theorem heights_stay_12bit (dev : BLEDevice) (frames : list bytes)
    (ops : list op) :
  (_current_height_mm (desk (init_world dev)) = 0
   /\ _min_height_mm (desk (init_world dev)) = 720
   /\ _max_height_mm (desk (init_world dev)) = 1220)
  /\ heights_12bit
       (desk (run_ops (map Notification frames) (init_world dev)))
  /\ heights_12bit (desk (run_ops ops (init_world dev))).
Proof.
  split; [repeat split|].
  split; apply desk_inv_run_ops, desk_inv_init.
Qed.

(** ** Move to height *)

Lemma int_truediv_u16 (a : Z) :
  0 <= a < 65536 -> exists x, int_truediv a 10 = Ok x.
Proof.
  intros Ha. unfold int_truediv. cbn [Z.eqb].
  replace (DBL_OVERFLOW * Z.abs 10 <=? Z.abs a) with false.
  - eexists. reflexivity.
  - symmetry. apply Z.leb_gt.
    assert (65536 < DBL_OVERFLOW * Z.abs 10) by (vm_compute; reflexivity).
    lia.
Qed.

Lemma big_endian_u16 (m : Z) :
  0 <= m < 65536 ->
  0 <= Z.land (Z.shiftr m 8) 0xFF < 256
  /\ 0 <= Z.land m 0xFF < 256
  /\ Z.land (Z.shiftr m 8) 0xFF * 256 + Z.land m 0xFF = m.
Proof.
  intros Hm. rewrite !land_255_mod, Z.shiftr_div_pow2 by lia.
  change (2 ^ 8) with 256.
  assert (0 <= m / 256 < 256).
  { split; [apply Z.div_pos; lia|apply Z.div_lt_upper_bound; lia]. }
  rewrite (Z.mod_small (m / 256)) by lia.
  pose proof (Z.mod_pos_bound m 256). pose proof (Z.div_mod m 256). lia.
Qed.

Lemma auto_move_body (height_high height_low sensitivity : Z) :
  0 <= height_high < 256 -> 0 <= height_low < 256 ->
  0 <= sensitivity < 256 ->
  exists bh bl bs,
    bytes_of_list (list_of_bytes CMD_AUTO_MOVE_BASE
                   ++ [height_high; height_low; sensitivity])
    = Ok [x40; x28; bh; bl; bs]
    /\ int_of_byte bh = height_high /\ int_of_byte bl = height_low
    /\ int_of_byte bs = sensitivity.
Proof.
  intros Hh Hl Hs.
  destruct (byte_of_int_ok _ Hh) as (bh & Ebh & Hbh).
  destruct (byte_of_int_ok _ Hl) as (bl & Ebl & Hbl).
  destruct (byte_of_int_ok _ Hs) as (bs & Ebs & Hbs).
  exists bh, bl, bs. split; [|auto].
  change (list_of_bytes CMD_AUTO_MOVE_BASE
          ++ [height_high; height_low; sensitivity])
    with (int_of_byte x40 :: int_of_byte x28
          :: [height_high; height_low; sensitivity]).
  cbn [bytes_of_list]. rewrite !byte_of_int_of_byte, Ebh, Ebl, Ebs.
  reflexivity.
Qed.

(** C4. For a request whose tenfold is a finite float, of integer part
    [requested], and a desk state of the types of section 3 with the
    minimum not above the maximum: the height sent is [requested]
    clamped to the limits, it lies between them, and the command handed
    to [_send_command] is the frame built, without limit flags, from the
    body [40 28 hi lo sensitivity] whose two height bytes are the clamped
    height, high byte first.  With the limits 720 and 1220 mm of a new
    coordinator a request of 150 cm is sent as 1220 mm, the bytes
    [04 C4]. *)
Theorem move_to_height_clamps (w : World) (height_cm : float)
    (env : await_env) (requested : Z) :
  int_of_float (PrimFloat.mul height_cm 10%float) = Ok requested ->
  well_typed (desk w) ->
  _min_height_mm (desk w) <= _max_height_mm (desk w) ->
  (let lo := _min_height_mm (desk w) in
   let hi := _max_height_mm (desk w) in
   let height_mm :=
     if requested <? lo then lo
     else if hi <? requested then hi else requested in
   lo <= height_mm <= hi
   /\ exists height_high height_low sensitivity frame,
        int_of_byte height_high * 256 + int_of_byte height_low = height_mm
        /\ int_of_byte sensitivity = _sensitivity (desk w)
        /\ build_command [x40; x28; height_high; height_low; sensitivity]
             false false = Ok frame
        /\ async_move_to_height height_cm env w = _send_command frame env w)
  /\ (forall dev,
        int_of_float (PrimFloat.mul 150%float 10%float) = Ok 1500
        /\ _min_height_mm (desk (init_world dev)) = 720
        /\ _max_height_mm (desk (init_world dev)) = 1220
        /\ build_command [x40; x28; x04; xc4; x00] false false
           = Ok [xdd; x00; x40; x28; x04; xc4; x00; x30]
        /\ int_of_byte x04 * 256 + int_of_byte xc4 = 1220
        /\ async_move_to_height 150%float env (init_world dev)
           = _send_command [xdd; x00; x40; x28; x04; xc4; x00; x30] env
               (init_world dev)).
Proof.
  intros Hreq (Hc & Hlo & Hhi & Hs) Hle.
  split; [|intros dev; repeat split; vm_compute; reflexivity].
  cbv zeta.
  set (lo := _min_height_mm (desk w)) in *.
  set (hi := _max_height_mm (desk w)) in *.
  set (height_mm := if requested <? lo then lo
                    else if hi <? requested then hi else requested).
  assert (Hclamp : Z.max lo (Z.min requested hi) = height_mm).
  { unfold height_mm.
    destruct (Z.ltb_spec requested lo), (Z.ltb_spec hi requested); lia. }
  assert (Hrange : lo <= height_mm <= hi).
  { unfold height_mm.
    destruct (Z.ltb_spec requested lo), (Z.ltb_spec hi requested); lia. }
  split; [exact Hrange|].
  assert (Hu16 : 0 <= height_mm < 65536) by lia.
  destruct (big_endian_u16 height_mm Hu16) as (Hh & Hl & Hbe).
  destruct (auto_move_body _ _ _ Hh Hl Hs)
    as (bh & bl & bs & Ebody & Hbh & Hbl & Hbs).
  destruct (build_command_returns [x40; x28; bh; bl; bs] false false)
    as (adjusted & checksum & Eframe & _).
  destruct (int_truediv_u16 height_mm Hu16) as (x & Ex).
  exists bh, bl, bs, ([xdd; x00] ++ adjusted ++ [checksum]).
  split; [rewrite Hbh, Hbl; exact Hbe|].
  split; [exact Hbs|]. split; [exact Eframe|].
  unfold async_move_to_height. rewrite Hreq. run.
  fold lo hi. cbv zeta. rewrite Hclamp, Ex. run.
  rewrite Ebody. run. rewrite Eframe. run. reflexivity.
Qed.

Lemma move_to_height_clamps_witness :
  exists frame,
    async_move_to_height 150%float returns (init_world 0%nat)
    = _send_command frame returns (init_world 0%nat).
Proof.
  destruct (move_to_height_clamps (init_world 0%nat) 150%float returns 1500)
    as ((_ & hh & hl & s & frame & _ & _ & _ & Hsend) & _).
  - vm_compute. reflexivity.
  - unfold well_typed. cbn.
    unfold DEFAULT_MIN_HEIGHT, DEFAULT_MAX_HEIGHT, DEFAULT_SENSITIVITY. lia.
  - cbn. unfold DEFAULT_MIN_HEIGHT, DEFAULT_MAX_HEIGHT. lia.
  - exists frame. exact Hsend.
Defined.

(** ** Explicit disconnect *)

(** C6, as the code has it. An explicit disconnect returns with the
    stored connection flag false when there is no transport handle, when
    the handle reports not connected and when the close returns.  When
    the close raises, the exception reaches the caller and the flag is
    not written: the world is as before, unless the transport reported
    the link lost meanwhile, which by itself sets the flag to false. *)
Theorem explicit_disconnect_flag (w : World) (env : await_env) :
  let r := async_disconnect env w in
  let connected :=
    match client (desk w) with
    | Some cl => client_is_connected cl
    | None => false
    end in
  match connected, raised env with
  | true, Some e =>
      outcome r = Raise e
      /\ (if lost env then _is_connected (desk (final r)) = false
          else final r = w)
  | _, _ => outcome r = Ok tt /\ _is_connected (desk (final r)) = false
  end.
Proof.
  cbv zeta. unfold async_disconnect, await, transport_disconnected,
    _on_disconnect.
  destruct w as [d ts n], env as [l r]. exec.
  destruct (client d) as [[[|]]|] eqn:Ec; exec; [|auto|auto].
  destruct l, r as [e|]; exec;
    try (destruct (_should_reconnect d), (_reconnect_task d); exec); auto.
Qed.

(** C6, where the sentence of the specification fails: a connected
    coordinator whose transport fails to close stays marked as
    connected. *)
Lemma explicit_disconnect_close_fails :
  let w := final (exec (Connect all_return) (init_world 0%nat)) in
  let r := async_disconnect (raises (BleakError 0)) w in
  _is_connected (desk w) = true
  /\ outcome r = Raise (BleakError 0)
  /\ _is_connected (desk (final r)) <> false.
Proof. vm_compute. repeat split. discriminate. Qed.

(** ** Commands without a link *)

Lemma send_command_not_connected (w : World) (command : bytes)
    (env : await_env) :
  match client (desk w) with
  | Some cl => client_is_connected cl
  | None => false
  end = false ->
  _send_command command env w = raise UpdateFailed_not_connected w.
Proof.
  intros H. unfold _send_command. run. rewrite H. reflexivity.
Qed.

(** A method that, after pure computations, ends in [_send_command]. *)
Ltac fails_without_link H :=
  run;
  repeat match goal with
    | |- context [bind (lift ?r) _ _] => destruct r; run
    end;
  rewrite ?(send_command_not_connected _ _ _ H);
  cbn [raise outcome final emitted]; eauto.

Lemma bytes_of_list_app (b : bytes) (l : list Z) :
  bytes_of_list (list_of_bytes b ++ l)
  = rbind (bytes_of_list l) (fun bs => Ok (b ++ bs)).
Proof.
  induction b as [|x b IH]; cbn [list_of_bytes map app bytes_of_list].
  - destruct (bytes_of_list l); reflexivity.
  - fold (list_of_bytes b). rewrite byte_of_int_of_byte, IH.
    destruct (bytes_of_list l); reflexivity.
Qed.

Lemma command_with_sensitivity (base : bytes) (sensitivity : Z) :
  0 <= sensitivity < 256 ->
  exists body frame,
    bytes_of_list (list_of_bytes base ++ [sensitivity]) = Ok body
    /\ build_command body false false = Ok frame.
Proof.
  intros Hs. destruct (byte_of_int_ok _ Hs) as (bs & Ebs & _).
  exists (base ++ [bs]).
  destruct (build_command_returns (base ++ [bs]) false false)
    as (adjusted & checksum & Eframe & _).
  eexists. split; [|exact Eframe].
  rewrite bytes_of_list_app. cbn [bytes_of_list]. rewrite Ebs. reflexivity.
Qed.

(** C7, as the code has it. What a command checks is the transport
    handle, not the stored flag: while there is no handle, or the handle
    reports not connected, each of move up, move down, stop,
    move-to-height and stop auto-move raises at once, writes nothing to
    the transport, emits nothing and leaves the world, and with it the
    desk state, as it was.  With a sensitivity that fits a byte the
    exception of move up, move down, stop and stop auto-move is
    [UpdateFailed("Not connected to desk")]. *)
Theorem command_needs_link (w : World) (env : await_env) (height_cm : float) :
  match client (desk w) with
  | Some cl => client_is_connected cl
  | None => false
  end = false ->
  Forall (fun command : M unit =>
            let r := command w in
            (exists e, outcome r = Raise e)
            /\ final r = w /\ emitted r = []
            /\ List.filter is_write (emitted r) = [])
    [async_move_up env; async_move_down env; async_stop env;
     async_move_to_height height_cm env; async_stop_auto_move env]
  /\ (0 <= _sensitivity (desk w) < 256 ->
      Forall (fun command : M unit =>
                outcome (command w) = Raise UpdateFailed_not_connected)
        [async_move_up env; async_move_down env; async_stop env;
         async_stop_auto_move env]).
Proof.
  intros H. split.
  - assert (Hall : Forall (fun command : M unit =>
                     exists e, command w = raise e w)
              [async_move_up env; async_move_down env; async_stop env;
               async_move_to_height height_cm env;
               async_stop_auto_move env]).
    { repeat constructor.
      - unfold async_move_up. fails_without_link H.
      - unfold async_move_down. fails_without_link H.
      - unfold async_stop. fails_without_link H.
      - unfold async_move_to_height. fails_without_link H.
      - unfold async_stop_auto_move. fails_without_link H. }
    eapply Forall_impl; [exact Hall|].
    intros command (e & ->). cbn. eauto.
  - intros Hs.
    repeat constructor.
    + destruct (command_with_sensitivity CMD_UP _ Hs) as (b & f & Eb & Ef).
      unfold async_move_up. run. rewrite Eb. run. rewrite Ef. run.
      rewrite (send_command_not_connected _ _ _ H). reflexivity.
    + destruct (command_with_sensitivity CMD_DOWN _ Hs) as (b & f & Eb & Ef).
      unfold async_move_down. run. rewrite Eb. run. rewrite Ef. run.
      rewrite (send_command_not_connected _ _ _ H). reflexivity.
    + destruct (command_with_sensitivity CMD_STOP _ Hs) as (b & f & Eb & Ef).
      unfold async_stop. run. rewrite Eb. run. rewrite Ef. run.
      rewrite (send_command_not_connected _ _ _ H). reflexivity.
    + unfold async_stop_auto_move.
      destruct (build_command_returns CMD_AUTO_STOP false false)
        as (adjusted & checksum & Ef & _).
      rewrite Ef. run.
      rewrite (send_command_not_connected _ _ _ H). reflexivity.
Qed.

Lemma command_needs_link_witness :
  outcome (async_move_up returns (init_world 0%nat))
  = Raise UpdateFailed_not_connected.
Proof.
  destruct (command_needs_link (init_world 0%nat) returns 100%float)
    as (_ & Hprecise).
  - reflexivity.
  - assert (Hs : 0 <= _sensitivity (desk (init_world 0%nat)) < 256)
      by (cbn; unfold DEFAULT_SENSITIVITY; lia).
    specialize (Hprecise Hs).
    exact (Forall_inv Hprecise).
Defined.

(** C7, where the sentence of the specification fails: after a
    connect whose subscription failed the stored flag is false while the
    handle is connected, and a command is written to the transport. *)
Lemma command_sent_while_flag_false :
  let env :=
    {| at_establish := returns; at_start_notify := raises (BleakError 0);
       at_stop_write := returns; at_wake_sleep := returns;
       at_init_write := returns; at_init_sleep := returns |} in
  let w := final (exec (Connect env) (init_world 0%nat)) in
  let r := async_move_up returns w in
  is_connected (desk w) = false
  /\ outcome r = Ok tt
  /\ emitted r = [WriteGattChar [xdd; x00; x41; x20; x00; x00; x00; x61]].
Proof. vm_compute. repeat split. Qed.

(** ** Pacing of the reconnection cycle *)

Lemma pacing_app (es es' : list event) :
  pacing (es ++ es') = pacing es ++ pacing es'.
Proof.
  induction es as [|e es IH]; [reflexivity|].
  simpl. destruct (tick_of e); simpl; rewrite IH; reflexivity.
Qed.

Lemma outcome_prepend {A} (es : list event) (r : Run A) :
  outcome (prepend es r) = outcome r.
Proof. destruct r; reflexivity. Qed.

Lemma final_prepend {A} (es : list event) (r : Run A) :
  final (prepend es r) = final r.
Proof. destruct r; reflexivity. Qed.

Lemma emitted_prepend {A} (es : list event) (r : Run A) :
  emitted (prepend es r) = es ++ emitted r.
Proof. destruct r; reflexivity. Qed.

(** How a sequence runs, by the end of its first part. *)
Lemma bind_inv {A B} (m : M A) (k : A -> M B) (w : World) :
  match outcome (m w) with
  | Ok a => bind m k w = prepend (emitted (m w)) (k a (final (m w)))
  | Raise e =>
      bind m k w
      = {| outcome := Raise e; final := final (m w);
           emitted := emitted (m w) |}
  end.
Proof. unfold bind. destruct (m w) as [[a|e] w' es]; reflexivity. Qed.

Lemma try_except_inv {A} (m : M A) (handler : exn -> M A) (w : World) :
  match outcome (m w) with
  | Ok a => try_except m handler w = m w
  | Raise e =>
      if is_Exception e
      then try_except m handler w
           = prepend (emitted (m w)) (handler e (final (m w)))
      else try_except m handler w = m w
  end.
Proof.
  unfold try_except. destruct (m w) as [[a|e] w' es]; [reflexivity|].
  cbn [outcome]. destruct (is_Exception e); reflexivity.
Qed.

Lemma quiet_ret {A} (a : A) : quiet (ret a).
Proof. intros w. reflexivity. Qed.

Lemma quiet_raise {A} (e : exn) : quiet (raise (A := A) e).
Proof. intros w. reflexivity. Qed.

Lemma quiet_lift {A} (r : result A) : quiet (lift r).
Proof. destruct r; intros w; reflexivity. Qed.

Lemma quiet_gets {A} (f : Coordinator -> A) : quiet (gets f).
Proof. intros w. reflexivity. Qed.

Lemma quiet_modify (f : Coordinator -> Coordinator) : quiet (modify f).
Proof. intros w. reflexivity. Qed.

Lemma quiet_emit (e : event) : tick_of e = None -> quiet (emit e).
Proof. intros H w. simpl. rewrite H. reflexivity. Qed.

Lemma quiet_create_task : quiet create_task.
Proof. intros w. reflexivity. Qed.

Lemma quiet_bind {A B} (m : M A) (k : A -> M B) :
  quiet m -> (forall a, quiet (k a)) -> quiet (bind m k).
Proof.
  intros Hm Hk w. pose proof (bind_inv m k w) as H.
  destruct (outcome (m w)) as [a|e]; rewrite H.
  - rewrite emitted_prepend, pacing_app, Hm, Hk. reflexivity.
  - apply Hm.
Qed.

Lemma quiet_try_except {A} (m : M A) (handler : exn -> M A) :
  quiet m -> (forall e, quiet (handler e)) -> quiet (try_except m handler).
Proof.
  intros Hm Hh w. pose proof (try_except_inv m handler w) as H.
  destruct (outcome (m w)) as [a|e]; [rewrite H; apply Hm|].
  destruct (is_Exception e); rewrite H; [|apply Hm].
  rewrite emitted_prepend, pacing_app, Hm, Hh. reflexivity.
Qed.

Lemma quiet_for_each {A} (l : list A) (body : A -> M unit) :
  (forall x, quiet (body x)) -> quiet (for_each l body).
Proof.
  intros Hb. induction l as [|x l IH]; simpl.
  - apply quiet_ret.
  - apply quiet_bind; auto.
Qed.

Ltac quiet_step :=
  first
    [ apply quiet_ret | apply quiet_raise | apply quiet_lift
    | apply quiet_gets | apply quiet_modify | apply quiet_create_task
    | apply quiet_emit; reflexivity
    | apply quiet_for_each; intros ?
    | apply quiet_try_except; [|intros ?]
    | apply quiet_bind; [|intros ?]
    | match goal with
      | |- quiet (if ?b then _ else _) => destruct b
      | |- quiet (match ?x with _ => _ end) => destruct x
      end ].

Ltac quiet_all := autounfold with methods; repeat quiet_step.

Lemma quiet_await (env : await_env) : quiet (await env).
Proof. quiet_all. Qed.

Lemma quiet_after_loop : quiet after_loop.
Proof. quiet_all. Qed.

(** A connect is one attempt, whatever becomes of it. *)
Lemma async_connect_pacing (env : connect_env) (w : World) :
  pacing (emitted (async_connect env w)) = [Attempt].
Proof.
  unfold async_connect. rewrite bind_gets_run, bind_emit_run.
  rewrite emitted_prepend, pacing_app.
  match goal with
  | |- _ ++ pacing (emitted (?m w)) = _ =>
      assert (Hq : quiet m) by quiet_all; rewrite Hq
  end.
  reflexivity.
Qed.

Ltac policy_modify :=
  apply preserves_modify; intros [[] ? ?]; unfold policy; simpl; auto.

Ltac preserves_policy :=
  autounfold with methods;
  repeat first
    [ preserves_step
    | match goal with
      | |- preserves _ create_task => intros ? H; exact H
      end
    | policy_modify ].

Section Policy.
Variables (should : bool) (max_attempts delay : Z).

Lemma policy_await (env : await_env) : preserves (policy should max_attempts delay) (await env).
Proof. preserves_policy. Qed.

Lemma policy_async_connect (env : connect_env) :
  preserves (policy should max_attempts delay) (async_connect env).
Proof. preserves_policy. Qed.

Lemma policy_try_connect (attempt : Z) (env : attempt_env) :
  preserves (policy should max_attempts delay) (try_connect attempt env).
Proof. preserves_policy. Qed.

Lemma after_loop_run (w : World) :
  (policy should max_attempts delay) w ->
  exists es,
    after_loop w
    = {| outcome := Ok None;
         final := {| desk := set_reconnect_task None (desk w);
                     tasks := tasks w; created := created w |};
         emitted := es |}
    /\ pacing es = [].
Proof.
  intros (Hs & Hm & Hd). unfold after_loop. exec.
  destruct (_should_reconnect (desk w)); exec; eexists; split;
    reflexivity.
Qed.

Lemma loop_head_run (attempt : Z) (w : World) :
  (policy should max_attempts delay) w ->
  if should && (attempt <? max_attempts)
  then loop_head attempt w
       = {| outcome := Ok (Some (attempt + 1)); final := w;
            emitted :=
              [Log INFO (Reconnection_attempt (attempt + 1) max_attempts
                           delay);
               Sleep (Int delay)] |}
  else loop_head attempt w = after_loop w.
Proof.
  intros (Hs & Hm & Hd). unfold loop_head. exec. rewrite Hs, Hm.
  destruct (should && (attempt <? max_attempts)); exec;
    rewrite ?Hd; reflexivity.
Qed.

(** One pass through the [try] statement is one attempt; it ends with
    the task handle cleared, with a failure to report, or with an
    exception that is none of [Exception]. *)
Lemma try_connect_run (attempt : Z) (env : attempt_env) (w : World) :
  let r := try_connect attempt env w in
  pacing (emitted r) = [Attempt]
  /\ match outcome r with
     | Ok true => _reconnect_task (desk (final r)) = None
     | Ok false => True
     | Raise e => is_Exception e = false
     end
  /\ ((forall w', exists e,
          outcome (async_connect (at_connect env) w') = Raise e
          /\ is_Exception e = true) ->
      outcome r = Ok false).
Proof.
  cbv zeta. unfold try_connect.
  match goal with
  | |- context [try_except ?m ?h w] =>
      pose proof (try_except_inv m h w) as Htry;
      assert (Hbody :
        exists w1,
          let c := async_connect (at_connect env) w1 in
          match outcome c with
          | Ok _ =>
              m w = {| outcome := Ok true;
                       final := {| desk := set_reconnect_task None
                                             (desk (final c));
                                   tasks := tasks (final c);
                                   created := created (final c) |};
                       emitted := emitted c ++ [Log INFO Reconnected] |}
          | Raise e =>
              m w = {| outcome := Raise e; final := final c;
                       emitted := emitted c |}
          end)
  end.
  { destruct (resolved env) as [dev|].
    - exists {| desk := set_ble_device dev (desk w); tasks := tasks w;
                created := created w |}.
      rewrite bind_modify_run. cbv zeta.
      match goal with
      | |- context [bind (async_connect ?c) ?k ?w1] =>
          pose proof (bind_inv (async_connect c) k w1) as Hb
      end.
      destruct (async_connect _ _) as [[[]|e] w2 es]; cbn [outcome] in *;
        rewrite Hb; [|reflexivity].
      exec. rewrite app_nil_r. reflexivity.
    - exists w. rewrite bind_ret_run. cbv zeta.
      match goal with
      | |- context [bind (async_connect ?c) ?k ?w1] =>
          pose proof (bind_inv (async_connect c) k w1) as Hb
      end.
      destruct (async_connect _ _) as [[[]|e] w2 es]; cbn [outcome] in *;
        rewrite Hb; [|reflexivity].
      exec. rewrite app_nil_r. reflexivity. }
  destruct Hbody as (w1 & Hbody). cbv zeta in Hbody.
  pose proof (async_connect_pacing (at_connect env) w1) as Hpace.
  destruct (outcome (async_connect (at_connect env) w1)) as [[]|e] eqn:Ec.
  - rewrite Hbody in Htry. cbn [outcome] in Htry. rewrite Htry.
    cbn [outcome final emitted desk _reconnect_task set_reconnect_task].
    rewrite pacing_app, Hpace. repeat split.
    intros Hfail. destruct (Hfail w1) as (e & He & _). congruence.
  - rewrite Hbody in Htry. cbn [outcome] in Htry.
    destruct (is_Exception e) eqn:Ee; rewrite Htry.
    + exec. rewrite app_nil_r, pacing_app, Hpace. repeat split.
    + cbn [outcome final emitted]. rewrite Hpace.
      repeat split; [exact Ee|].
      intros Hfail. destruct (Hfail w1) as (e' & He' & Hex). congruence.
Qed.

Lemma policy_after_sleep (attempt : Z) (env : attempt_env) :
  preserves (policy should max_attempts delay) (after_sleep attempt env).
Proof. preserves_policy. Qed.

Lemma transport_disconnected_returns (w : World) :
  outcome (transport_disconnected w) = Ok tt.
Proof.
  unfold transport_disconnected, _on_disconnect. exec.
  destruct (_should_reconnect (desk w)), (_reconnect_task (desk w));
    exec; reflexivity.
Qed.

Lemma await_returns (env : await_env) (w : World) :
  raised env = None -> outcome (await env w) = Ok tt.
Proof.
  intros H. unfold await. rewrite H.
  match goal with
  | |- context [bind ?m ?k w] => pose proof (bind_inv m k w) as Hb
  end.
  destruct (lost env).
  - rewrite transport_disconnected_returns in Hb. rewrite Hb.
    rewrite outcome_prepend. reflexivity.
  - reflexivity.
Qed.

End Policy.

(** One slice of the cycle from its sleep: at most one attempt; the
    coroutine goes back to sleep only after a failed attempt that was
    not the last, and then a delay follows the attempt. *)
Lemma after_sleep_run (should : bool) (max_attempts delay attempt : Z)
    (env : attempt_env) (w : World) :
  policy should max_attempts delay w ->
  let r := after_sleep attempt env w in
  match outcome r with
  | Ok (Some attempt') =>
      attempt' = attempt + 1
      /\ should && (attempt <? max_attempts) = true
      /\ pacing (emitted r) = [Attempt; Delay delay]
  | Ok None =>
      (pacing (emitted r) = [] \/ pacing (emitted r) = [Attempt])
      /\ _reconnect_task (desk (final r)) = None
  | Raise e => pacing (emitted r) = [] \/ pacing (emitted r) = [Attempt]
  end
  /\ (should = true -> attempt_fails env ->
      if attempt <? max_attempts
      then outcome r = Ok (Some (attempt + 1))
           /\ pacing (emitted r) = [Attempt; Delay delay]
      else outcome r = Ok None
           /\ pacing (emitted r) = [Attempt]
           /\ _reconnect_task (desk (final r)) = None).
Proof.
  intros Hpol. cbv zeta. unfold after_sleep.
  match goal with
  | |- context [bind (await ?s) ?k w] =>
      pose proof (bind_inv (await s) k w) as H1
  end.
  pose proof (policy_await _ _ _ (at_sleep env) w Hpol) as Hp1.
  pose proof (quiet_await (at_sleep env) w) as Hq1.
  pose proof (await_returns (at_sleep env) w) as Hr1.
  destruct (outcome (await (at_sleep env) w)) as [[]|e1]; rewrite H1;
    clear H1.
  2:{ cbn [outcome emitted]. split; [left; exact Hq1|].
      intros _ (Hnc & _). specialize (Hr1 Hnc). discriminate. }
  set (w1 := final (await (at_sleep env) w)) in *.
  rewrite outcome_prepend, final_prepend, emitted_prepend, pacing_app, Hq1.
  cbn [app]. rewrite bind_gets_run.
  destruct Hp1 as (Hs1 & Hm1 & Hd1). rewrite Hs1.
  destruct should; cbn [negb].
  2:{ destruct (after_loop_run false max_attempts delay w1)
        as (es & -> & Hes); [repeat split; auto|].
      cbn [outcome final emitted desk _reconnect_task set_reconnect_task].
      split; [split; [left; exact Hes|reflexivity]|]. discriminate. }
  match goal with
  | |- context [bind (try_connect ?a ?e) ?k w1] =>
      pose proof (bind_inv (try_connect a e) k w1) as H2
  end.
  pose proof (policy_try_connect true max_attempts delay attempt env w1)
    as Hp2.
  destruct (try_connect_run attempt env w1) as (Hq2 & Ho2 & Hf2).
  specialize (Hp2 (conj Hs1 (conj Hm1 Hd1))).
  destruct (outcome (try_connect attempt env w1)) as [[|]|e2]; rewrite H2;
    clear H2.
  - (* reconnected *)
    cbn [outcome final emitted prepend ret]. rewrite app_nil_r, Hq2.
    split; [split; [right; reflexivity|exact Ho2]|].
    intros _ (_ & Hfail). specialize (Hf2 Hfail). discriminate.
  - (* the attempt failed *)
    set (w2 := final (try_connect attempt env w1)) in *.
    rewrite outcome_prepend, final_prepend, emitted_prepend, pacing_app, Hq2.
    pose proof (loop_head_run _ _ _ attempt w2 Hp2) as Hl.
    cbn [andb] in Hl |- *.
    destruct (attempt <? max_attempts).
    + rewrite Hl. cbn [outcome final emitted]. repeat split.
    + rewrite Hl. destruct (after_loop_run _ _ _ w2 Hp2) as (es & -> & Hes).
      cbn [outcome final emitted desk _reconnect_task set_reconnect_task].
      rewrite Hes. repeat split. right. reflexivity.
  - (* an exception that is not an Exception *)
    cbn [outcome emitted]. rewrite Hq2. split; [right; reflexivity|].
    intros _ (_ & Hfail). specialize (Hf2 Hfail). discriminate.
Qed.

Lemma paced_attempts (d : Z) (n : nat) :
  length (List.filter is_attempt (paced d n)) = n
  /\ length (List.filter is_attempt (paced d n ++ [Delay d])) = n.
Proof.
  induction n as [|n (IH1 & IH2)]; [split; reflexivity|].
  cbn [paced app List.filter is_attempt length]. split; congruence.
Qed.

(** The cycle from its first sleep on, the delay of which is already
    behind: it ends within [fuel] slices, after at most as many attempts
    as are left, each but the first after a delay of its own. *)
Lemma reconnect_from_run (should : bool) (max_attempts delay : Z)
    (envs : Z -> attempt_env) (fuel : nat) :
  forall (attempt : Z) (w : World),
    policy should max_attempts delay w ->
    (Z.to_nat (max_attempts - attempt) < fuel)%nat ->
    let r := reconnect_from fuel envs attempt w in
    let ticks := Delay delay :: pacing (emitted r) in
    outcome r <> Ok None
    /\ (exists n,
           (n <= Z.to_nat (max_attempts - attempt) + 1)%nat
           /\ (ticks = paced delay n \/ ticks = paced delay n ++ [Delay delay]))
    /\ (should = true -> (forall a, attempt_fails (envs a)) ->
        attempt <= max_attempts ->
        outcome r = Ok (Some tt)
        /\ ticks = paced delay (Z.to_nat (max_attempts - attempt) + 1)
        /\ _reconnect_task (desk (final r)) = None).
Proof.
  induction fuel as [|fuel IH]; intros attempt w Hpol Hfuel; [lia|].
  cbv zeta. cbn [reconnect_from].
  match goal with
  | |- context [bind (after_sleep ?a ?e) ?k w] =>
      pose proof (bind_inv (after_sleep a e) k w) as Hb
  end.
  pose proof (policy_after_sleep _ _ _ attempt (envs attempt) w Hpol) as Hp.
  destruct (after_sleep_run _ _ _ attempt (envs attempt) w Hpol)
    as (Hshape & Hfails).
  destruct (outcome (after_sleep attempt (envs attempt) w))
    as [[attempt'|]|e] eqn:Eo; rewrite Hb; clear Hb.
  - (* back to sleep *)
    destruct Hshape as (-> & Hcond & Hpace).
    apply andb_prop in Hcond. destruct Hcond as (_ & Hlt).
    apply Z.ltb_lt in Hlt.
    set (w1 := final (after_sleep attempt (envs attempt) w)) in *.
    rewrite outcome_prepend, final_prepend, emitted_prepend, pacing_app,
      Hpace.
    assert (Hfuel' : (Z.to_nat (max_attempts - (attempt + 1)) < fuel)%nat)
      by lia.
    destruct (IH (attempt + 1) w1 Hp Hfuel') as (Hend & (n & Hn & Hticks) & Hall).
    cbv zeta in *. split; [exact Hend|]. split.
    + exists (S n). split; [lia|]. cbn [app paced].
      destruct Hticks as [-> | ->]; [left|right]; reflexivity.
    + intros Hs Hf Hle. destruct (Hall Hs Hf) as (Ho & Ht & Htask); [lia|].
      split; [exact Ho|]. split; [|exact Htask].
      cbn [app]. rewrite Ht.
      replace (Z.to_nat (max_attempts - attempt) + 1)%nat
        with (S (Z.to_nat (max_attempts - (attempt + 1)) + 1)) by lia.
      reflexivity.
  - (* over *)
    destruct Hshape as (Hpace & Htask).
    cbn [outcome final emitted prepend ret]. rewrite app_nil_r.
    split; [discriminate|]. split.
    + destruct Hpace as [-> | ->].
      * exists 0%nat. split; [lia|]. right. reflexivity.
      * exists 1%nat. split; [lia|]. left. reflexivity.
    + intros Hs Hf Hle. specialize (Hfails Hs (Hf attempt)).
      destruct (Z.ltb_spec attempt max_attempts).
      * destruct Hfails as (Hx & _). discriminate.
      * destruct Hfails as (_ & -> & _).
        replace (max_attempts - attempt) with 0 by lia.
        repeat split. exact Htask.
  - (* an exception ends the coroutine *)
    cbn [outcome final emitted]. split; [discriminate|]. split.
    + destruct Hshape as [-> | ->].
      * exists 0%nat. split; [lia|]. right. reflexivity.
      * exists 1%nat. split; [lia|]. left. reflexivity.
    + intros Hs Hf Hle. specialize (Hfails Hs (Hf attempt)).
      destruct (attempt <? max_attempts); destruct Hfails as (Hx & _);
        discriminate.
Qed.

Lemma async_reconnect_run (should : bool) (max_attempts delay : Z)
    (envs : Z -> attempt_env) (fuel : nat) (w : World) :
  policy should max_attempts delay w ->
  (Z.to_nat max_attempts <= fuel)%nat ->
  let r := _async_reconnect fuel envs w in
  outcome r <> Ok None
  /\ (exists n,
         (n <= Z.to_nat max_attempts)%nat
         /\ (pacing (emitted r) = paced delay n
             \/ pacing (emitted r) = paced delay n ++ [Delay delay]))
  /\ (should = true -> (forall a, attempt_fails (envs a)) ->
      outcome r = Ok (Some tt)
      /\ pacing (emitted r) = paced delay (Z.to_nat max_attempts)
      /\ _reconnect_task (desk (final r)) = None).
Proof.
  intros Hpol Hfuel. cbv zeta. unfold _async_reconnect.
  match goal with
  | |- context [bind (loop_head 0) ?k w] =>
      pose proof (bind_inv (loop_head 0) k w) as Hb
  end.
  pose proof (loop_head_run _ _ _ 0 w Hpol) as Hl.
  destruct (should && (0 <? max_attempts)) eqn:Hcond.
  - apply andb_prop in Hcond. destruct Hcond as (Hs & Hlt).
    apply Z.ltb_lt in Hlt.
    rewrite Hl in Hb. cbn [outcome final emitted] in Hb. rewrite Hb.
    rewrite outcome_prepend, final_prepend, emitted_prepend.
    cbn [app pacing tick_of].
    assert (Hfuel' : (Z.to_nat (max_attempts - (0 + 1)) < fuel)%nat) by lia.
    destruct (reconnect_from_run _ _ _ envs fuel (0 + 1) w Hpol Hfuel')
      as (Hend & (n & Hn & Hticks) & Hall).
    cbv zeta in *. split; [exact Hend|]. split.
    + exists n. split; [lia|exact Hticks].
    + intros Hs' Hf. destruct (Hall Hs' Hf) as (Ho & Ht & Htask); [lia|].
      split; [exact Ho|]. split; [|exact Htask]. rewrite Ht.
      f_equal. lia.
  - rewrite Hl in Hb. destruct (after_loop_run _ _ _ w Hpol) as (es & Hal & Hes).
    rewrite Hal in Hb. cbn [outcome final emitted] in Hb. rewrite Hb.
    cbn [outcome final emitted prepend ret desk _reconnect_task
         set_reconnect_task].
    rewrite app_nil_r, Hes. split; [discriminate|]. split.
    + exists 0%nat. split; [lia|]. left. reflexivity.
    + intros Hs _. subst should. cbn [andb] in Hcond.
      apply Z.ltb_ge in Hcond.
      replace (Z.to_nat max_attempts) with 0%nat by lia.
      repeat split.
Qed.

(** ** At most one reconnection cycle *)

Create HintDb link_methods.
#[local] Hint Unfold exec async_connect async_disconnect
  _notification_handler transport_disconnected
  _trigger_callbacks await _send_command async_move_up async_move_down
  async_stop async_move_to_height async_stop_auto_move set_sensitivity
  register_callback remove_callback async_set_updated_data : link_methods.

Lemma one_cycle_on_disconnect : preserves one_cycle _on_disconnect.
Proof.
  intros w Hw. unfold _on_disconnect. exec.
  destruct (_should_reconnect (desk w)) eqn:Es,
           (_reconnect_task (desk w)) eqn:Et; exec;
    try (destruct Hw as [Hw|(t & Hw & Ht)]; [left; exact Hw|];
         right; exists t; split; [exact Hw|exact Ht]).
  destruct Hw as [Hw|(t & Hw & Ht)]; [|congruence].
  right. rewrite Hw. eexists. split; reflexivity.
Qed.

Lemma cycle_running_on_disconnect (ts : list Task) (id : nat) :
  preserves (cycle_running ts id) _on_disconnect.
Proof.
  intros w (Hts & Hid). unfold _on_disconnect. exec. rewrite Hid.
  destruct (_should_reconnect (desk w)); exec; split; assumption.
Qed.

Ltac one_cycle_modify :=
  apply preserves_modify; intros [[] ? ?]; unfold one_cycle; simpl; auto.

Ltac preserves_one_cycle :=
  autounfold with link_methods;
  repeat first
    [ apply one_cycle_on_disconnect | preserves_step | one_cycle_modify ].

Ltac running_modify :=
  apply preserves_modify; intros [[] ? ?]; unfold cycle_running; simpl; auto.

Ltac preserves_running :=
  autounfold with link_methods;
  repeat first
    [ apply cycle_running_on_disconnect | preserves_step | running_modify ].

Lemma one_cycle_async_disconnect (env : await_env) :
  preserves one_cycle (async_disconnect env).
Proof. preserves_one_cycle. Qed.

Lemma filter_own_task (t : Task) :
  filter (fun t' => task_id t' <> task_id t) [t] = [].
Proof.
  rewrite filter_cons. destruct (decide (task_id t <> task_id t)) as [H|_].
  - exfalso. apply H. reflexivity.
  - reflexivity.
Qed.

Lemma one_cycle_async_shutdown (env : await_env) :
  preserves one_cycle (async_shutdown env).
Proof.
  intros w Hw. unfold async_shutdown. rewrite bind_modify_run, bind_gets_run.
  simp_state.
  destruct (_reconnect_task (desk w)) as [id|] eqn:Et.
  - rewrite bind_assoc_run, bind_cancel_task_run, bind_modify_run. simp_state.
    apply one_cycle_async_disconnect. left. cbn [tasks].
    destruct Hw as [->|(t & -> & Ht)]; [reflexivity|].
    assert (id = task_id t) as -> by congruence.
    apply filter_own_task.
  - rewrite bind_ret_run.
    apply one_cycle_async_disconnect. left. cbn [tasks].
    destruct Hw as [Hw|(t & _ & Ht)]; [exact Hw|congruence].
Qed.

Section Running.
Variables (ts : list Task) (id : nat).

Lemma running_await (env : await_env) :
  preserves (cycle_running ts id) (await env).
Proof. preserves_running. Qed.

Lemma running_async_connect (env : connect_env) :
  preserves (cycle_running ts id) (async_connect env).
Proof. preserves_running. Qed.

Lemma running_after_loop : hoare (cycle_running ts id) after_loop (slice_post ts id).
Proof.
  intros w (Hts & _). unfold after_loop. exec.
  destruct (_should_reconnect (desk w)); exec; split; auto.
Qed.

Lemma running_loop_head (attempt : Z) :
  hoare (cycle_running ts id) (loop_head attempt) (slice_post ts id).
Proof.
  intros w (Hts & Hid). unfold loop_head. exec.
  destruct (_should_reconnect (desk w) &&
            (attempt <? _max_reconnect_attempts (desk w))); exec.
  - split; assumption.
  - apply running_after_loop. split; assumption.
Qed.

Lemma running_try_connect (attempt : Z) (env : attempt_env) :
  hoare (cycle_running ts id) (try_connect attempt env)
    (fun r w => tasks w = ts
                /\ (r = Ok false -> _reconnect_task (desk w) = Some id)).
Proof.
  unfold try_connect.
  apply hoare_try_except
    with (R := fun r w => tasks w = ts
                          /\ match r with
                             | Ok b => b = true
                             | Raise _ => _reconnect_task (desk w) = Some id
                             end).
  - apply hoare_bind with (R := fun _ => cycle_running ts id).
    + destruct (resolved env); [running_modify|apply preserves_ret].
    + intros _.
      apply hoare_bind with (R := fun _ => cycle_running ts id).
      * apply running_async_connect.
      * intros _ w (Hts & Hid). exec. split; [exact Hts|reflexivity].
      * intros e w (Hts & Hid). split; assumption.
    + intros e w (Hts & Hid). split; assumption.
  - intros e _ w (Hts & Hid). exec. split; [exact Hts|]. intros _. exact Hid.
  - intros b w (Hts & Hb). split; [exact Hts|]. intros Hf. congruence.
  - intros e w _ (Hts & Hid). split; [exact Hts|]. discriminate.
Qed.

Lemma running_after_sleep (attempt : Z) (env : attempt_env) :
  hoare (cycle_running ts id) (after_sleep attempt env) (slice_post ts id).
Proof.
  unfold after_sleep.
  apply hoare_bind with (R := fun _ => cycle_running ts id).
  - apply running_await.
  - intros _.
    apply hoare_bind with (R := fun _ => cycle_running ts id).
    + apply preserves_gets.
    + intros should. destruct should; cbn [negb].
      * apply hoare_bind
          with (R := fun r w =>
                       tasks w = ts
                       /\ (r = Ok false -> _reconnect_task (desk w) = Some id)).
        -- apply running_try_connect.
        -- intros [|].
           ++ intros w (Hts & _). split; [exact Hts|exact I].
           ++ eapply hoare_pre; [apply running_loop_head|].
              intros w (Hts & Hid). split; [exact Hts|]. apply Hid. reflexivity.
        -- intros e w (Hts & _). split; [exact Hts|exact I].
      * apply running_after_loop.
    + intros e w (Hts & _). split; [exact Hts|exact I].
  - intros e w (Hts & _). split; [exact Hts|exact I].
Qed.

Lemma running_cycle_step (at_ : option Z) (env : attempt_env) :
  hoare (cycle_running ts id) (cycle_step at_ env) (slice_post ts id).
Proof.
  destruct at_ as [attempt|]; [apply running_after_sleep|].
  apply running_loop_head.
Qed.
End Running.

Lemma one_cycle_resume_task (id : nat) (env : attempt_env) :
  preserves one_cycle (resume_task id env).
Proof.
  intros w Hw. unfold resume_task.
  destruct (find _ (tasks w)) as [t|] eqn:Ef; [|exact Hw].
  destruct Hw as [Hw|(t0 & Hts & Hid)]; [rewrite Hw in Ef; discriminate|].
  rewrite Hts in Ef. cbn [find] in Ef.
  destruct (Nat.eqb (task_id t0) id) eqn:Eid; [|discriminate].
  injection Ef as <-. apply Nat.eqb_eq in Eid. subst id.
  pose proof (running_cycle_step [t0] (task_id t0) (task_attempt t0) env w
                (conj Hts Hid)) as (Htasks & Hhandle).
  destruct (cycle_step (task_attempt t0) env w) as [o w' es].
  cbn [outcome final] in *. rewrite Htasks.
  destruct o as [[a|]|e].
  - right. cbn [map]. unfold set_task_attempt. rewrite Nat.eqb_refl.
    eexists. split; [reflexivity|exact Hhandle].
  - left. apply filter_own_task.
  - left. apply filter_own_task.
Qed.

Lemma one_cycle_exec (o : op) : preserves one_cycle (exec o).
Proof.
  destruct o;
    try apply one_cycle_resume_task;
    try apply one_cycle_async_shutdown;
    preserves_one_cycle.
Qed.

Lemma one_cycle_run_ops (ops : list op) (w : World) :
  one_cycle w -> one_cycle (run_ops ops w).
Proof.
  revert w. induction ops as [|o ops IH]; intros w Hw; [exact Hw|].
  simpl. apply IH. apply (one_cycle_exec o w Hw).
Qed.

Lemma one_cycle_length (w : World) : one_cycle w -> (length (tasks w) <= 1)%nat.
Proof. intros [->|(t & -> & _)]; simpl; lia. Qed.

(** ** The reconnection cycle *)

Lemma unreachable_fails : attempt_fails unreachable.
Proof.
  split; [reflexivity|]. intros w. exists (BleakError 0).
  split; [|reflexivity].
  unfold async_connect, unreachable, await. exec. reflexivity.
Qed.

Lemma on_disconnect_new_task (w : World) :
  let w' := final (_on_disconnect w) in
  tasks w' = tasks w
  \/ tasks w' = tasks w ++ [{| task_id := created w; task_attempt := None |}].
Proof.
  cbv zeta. unfold _on_disconnect. exec.
  destruct (_should_reconnect (desk w)), (_reconnect_task (desk w)); exec;
    auto.
Qed.

(** C5. A reconnection cycle, started in any world and fed anything by
    its environment, ends within [max_attempts] slices after at most
    [max_attempts] connect attempts, and its delays and attempts
    alternate, a delay of [_reconnect_delay] seconds first: every
    attempt comes right after its own delay.  When reconnection is
    enabled and every attempt fails, the coroutine returns after exactly
    [max_attempts] attempts and clears the task handle; a returned
    coroutine is out of the event loop, and resuming what is not there
    does nothing.  A new coordinator has 10 attempts and 5 seconds.
    After any history of operations at most one reconnection coroutine
    is alive.  A coroutine is created not yet started, and its first
    slice starts the loop with the counter at 0.  With a transport that
    cannot be reached, after one connect and one loss of the link the
    event loop sees ten attempts, five seconds before each, and nothing
    more however often it is run. *)
Theorem reconnection_cycle (dev : BLEDevice) (ops : list op) (w : World)
    (envs : Z -> attempt_env) (fuel : nat) :
  (Z.to_nat (_max_reconnect_attempts (desk w)) <= fuel)%nat ->
  let max_attempts := _max_reconnect_attempts (desk w) in
  let delay := _reconnect_delay (desk w) in
  let r := _async_reconnect fuel envs w in
  outcome r <> Ok None
  /\ (attempts (emitted r) <= Z.to_nat max_attempts)%nat
  /\ (exists n, pacing (emitted r) = paced delay n
                \/ pacing (emitted r) = paced delay n ++ [Delay delay])
  /\ (_should_reconnect (desk w) = true ->
      (forall a, attempt_fails (envs a)) ->
      outcome r = Ok (Some tt)
      /\ pacing (emitted r) = paced delay (Z.to_nat max_attempts)
      /\ attempts (emitted r) = Z.to_nat max_attempts
      /\ _reconnect_task (desk (final r)) = None)
  /\ (_max_reconnect_attempts (desk (init_world dev)) = 10
      /\ _reconnect_delay (desk (init_world dev)) = 5)
  /\ (length (tasks (run_ops ops (init_world dev))) <= 1)%nat
  /\ (forall w',
        tasks (final (_on_disconnect w')) = tasks w'
        \/ tasks (final (_on_disconnect w'))
           = tasks w' ++ [{| task_id := created w'; task_attempt := None |}])
  /\ (forall env, cycle_step None env = loop_head 0)
  /\ (forall id env w',
        find (fun t => Nat.eqb (task_id t) id) (tasks w') = None ->
        resume_task id env w' = ret tt w')
  /\ (let simulation :=
        [Connect all_return; LinkLost]
        ++ repeat (Resume 0 unreachable) 20 in
      pacing (trace_ops simulation (init_world dev)) = Attempt :: paced 5 10
      /\ tasks (run_ops simulation (init_world dev)) = []
      /\ _reconnect_task (desk (run_ops simulation (init_world dev))) = None).
Proof.
  intros Hfuel. cbv zeta.
  assert (Hpol : policy (_should_reconnect (desk w))
                   (_max_reconnect_attempts (desk w))
                   (_reconnect_delay (desk w)) w)
    by (repeat split).
  destruct (async_reconnect_run _ _ _ envs fuel w Hpol Hfuel)
    as (Hend & (n & Hn & Hticks) & Hall).
  cbv zeta in *.
  split; [exact Hend|]. split.
  { unfold attempts.
    destruct (paced_attempts (_reconnect_delay (desk w)) n) as (H1 & H2).
    destruct Hticks as [-> | ->]; [rewrite H1|rewrite H2]; exact Hn. }
  split; [exists n; exact Hticks|]. split.
  { intros Hs Hf. destruct (Hall Hs Hf) as (Ho & Hp & Ht).
    split; [exact Ho|]. split; [exact Hp|]. split; [|exact Ht].
    unfold attempts. rewrite Hp. apply paced_attempts. }
  split; [split; reflexivity|]. split.
  { apply one_cycle_length, one_cycle_run_ops. left. reflexivity. }
  split; [exact on_disconnect_new_task|].
  split; [reflexivity|]. split.
  { intros id env w' Hfind. unfold resume_task. rewrite Hfind. reflexivity. }
  vm_compute. repeat split.
Qed.

Lemma reconnection_cycle_witness :
  attempts (emitted (_async_reconnect 10 (fun _ => unreachable)
                       (init_world 0%nat)))
  = 10%nat.
Proof.
  destruct (reconnection_cycle 0%nat [] (init_world 0%nat)
              (fun _ => unreachable) 10)
    as (_ & _ & _ & Hall & _).
  - vm_compute. lia.
  - destruct Hall as (_ & _ & Hn & _).
    + reflexivity.
    + intros _. exact unreachable_fails.
    + exact Hn.
Defined.

(** * Further properties of the code *)

(** ** Frames *)

Lemma int_of_byte_inj (a b : byte) : int_of_byte a = int_of_byte b -> a = b.
Proof.
  intros H. pose proof (byte_of_int_of_byte a) as Ha.
  rewrite H, byte_of_int_of_byte in Ha. congruence.
Qed.

Lemma list_of_bytes_inj (a b : bytes) :
  list_of_bytes a = list_of_bytes b -> a = b.
Proof.
  revert b. induction a as [|x a IH]; intros [|y b] H; try discriminate.
  - reflexivity.
  - cbn [list_of_bytes map] in H. injection H as Hx Hab.
    f_equal; [apply int_of_byte_inj, Hx|apply IH, Hab].
Qed.

Lemma land_127_mod (z : Z) : Z.land z 0x7F = z mod 128.
Proof. change 0x7F with (Z.ones 7). rewrite Z.land_ones by lia. reflexivity. Qed.

Lemma calculate_checksum_range (data : bytes) :
  0 <= calculate_checksum data <= 127.
Proof.
  unfold calculate_checksum. rewrite land_127_mod.
  pose proof (Z.mod_pos_bound (sum (list_of_bytes data)) 128). lia.
Qed.

(** X1. A frame is three bytes longer than its body whatever the flags;
    it is [DD 00], then as many bytes as the body has, then one byte
    which is [calculate_checksum] of those middle bytes and never has
    its high bit set.  The frame of the empty body is [DD 00 00]. *)
Theorem frame_shape (body : bytes) (has_max_limit has_min_limit : bool) :
  exists middle checksum,
    build_command body has_max_limit has_min_limit
    = Ok ([xdd; x00] ++ middle ++ [checksum])
    /\ length middle = length body
    /\ length ([xdd; x00] ++ middle ++ [checksum]) = (length body + 3)%nat
    /\ int_of_byte checksum = calculate_checksum middle
    /\ 0 <= int_of_byte checksum <= 127
    /\ build_command [] has_max_limit has_min_limit = Ok [xdd; x00; x00].
Proof.
  destruct (build_command_returns body has_max_limit has_min_limit)
    as (adjusted & checksum & Hb & Hadj & Hc).
  assert (Hlen : length adjusted = length body).
  { apply (f_equal (@length Z)) in Hadj. unfold list_of_bytes in Hadj.
    rewrite length_map in Hadj. rewrite Hadj.
    destruct body; cbn; [reflexivity|]. rewrite length_map. reflexivity. }
  assert (Hsum : int_of_byte checksum = calculate_checksum adjusted).
  { rewrite Hc. unfold calculate_checksum, spec_checksum.
    rewrite sum_fold_right. reflexivity. }
  exists adjusted, checksum. split; [exact Hb|]. split; [exact Hlen|].
  split; [rewrite !length_app; cbn [length]; lia|].
  split; [exact Hsum|]. split.
  - rewrite Hsum. apply calculate_checksum_range.
  - destruct has_max_limit, has_min_limit; reflexivity.
Qed.





(** X3. With the flags fixed, different bodies give different frames:
    the body can be read back from the frame. *)
Theorem build_command_injective (body body' : bytes) (mx mn : bool) :
  build_command body mx mn = build_command body' mx mn -> body = body'.
Proof.
  intros H.
  destruct (build_command_returns body mx mn) as (a & c & Hb & Ha & _).
  destruct (build_command_returns body' mx mn) as (a' & c' & Hb' & Ha' & _).
  rewrite Hb, Hb' in H. injection H as H.
  apply app_inj_tail in H. destruct H as (<- & _).
  rewrite Ha in Ha'. apply list_of_bytes_inj.
  destruct body as [|b0 rest], body' as [|b0' rest'];
    cbn [list_of_bytes map spec_adjusted_body] in Ha' |- *;
    try discriminate; [reflexivity|].
  injection Ha' as Hhead Htail. f_equal; [|exact Htail].
  pose proof (int_of_byte_range b0). pose proof (int_of_byte_range b0').
  assert (Hoff : 0 <= spec_limit_offset mx mn < 256)
    by (destruct mx, mn; cbn; lia).
  set (x := int_of_byte b0) in *. set (y := int_of_byte b0') in *.
  set (o := spec_limit_offset mx mn) in *.
  destruct (Z_lt_le_dec (x + o) 256), (Z_lt_le_dec (y + o) 256).
  - rewrite !Z.mod_small in Hhead by lia. lia.
  - rewrite (Z.mod_small (x + o)) in Hhead by lia.
    replace (y + o) with ((y + o - 256) + 1 * 256) in Hhead by lia.
    rewrite Z.mod_add, Z.mod_small in Hhead by lia. lia.
  - rewrite (Z.mod_small (y + o)) in Hhead by lia.
    replace (x + o) with ((x + o - 256) + 1 * 256) in Hhead by lia.
    rewrite Z.mod_add, Z.mod_small in Hhead by lia. lia.
  - replace (x + o) with ((x + o - 256) + 1 * 256) in Hhead by lia.
    replace (y + o) with ((y + o - 256) + 1 * 256) in Hhead by lia.
    rewrite !Z.mod_add, !Z.mod_small in Hhead by lia. lia.
Qed.

Lemma build_command_injective_witness : [x41; x20] = [x41; x20].
Proof.
  apply (build_command_injective [x41; x20] [x41; x20] true false).
  reflexivity.
Defined.

Lemma same_adjusted_same_frame (b1 b2 : bytes) (f1 f2 g1 g2 : bool) :
  spec_adjusted_body (list_of_bytes b1) f1 f2
  = spec_adjusted_body (list_of_bytes b2) g1 g2 ->
  build_command b1 f1 f2 = build_command b2 g1 g2.
Proof.
  intros H.
  destruct (build_command_returns b1 f1 f2) as (a1 & c1 & -> & Ha1 & Hc1).
  destruct (build_command_returns b2 g1 g2) as (a2 & c2 & -> & Ha2 & Hc2).
  assert (a1 = a2) as -> by (apply list_of_bytes_inj; congruence).
  assert (c1 = c2) as -> by (apply int_of_byte_inj; congruence).
  reflexivity.
Qed.

(** X4. The limit flags are nothing but a change of the first byte of
    the body: the frame built with flags is the frame built without
    flags from the adjusted body.  The flags add up: setting the
    maximum flag on a body already adjusted for the minimum gives the
    frame of both flags. *)
Theorem limit_flags_compose (body : bytes) (mx mn : bool) :
  exists adjusted checksum adjusted_min checksum_min,
    build_command body mx mn = Ok ([xdd; x00] ++ adjusted ++ [checksum])
    /\ build_command adjusted false false = build_command body mx mn
    /\ build_command body false true
       = Ok ([xdd; x00] ++ adjusted_min ++ [checksum_min])
    /\ build_command adjusted_min true false = build_command body true true.
Proof.
  destruct (build_command_returns body mx mn) as (a & c & Hb & Ha & _).
  destruct (build_command_returns body false true) as (am & cm & Hbm & Ham & _).
  exists a, c, am, cm. split; [exact Hb|]. split; [|split; [exact Hbm|]].
  - apply same_adjusted_same_frame. rewrite Ha.
    destruct body as [|b0 rest]; [reflexivity|].
    cbn [list_of_bytes map spec_adjusted_body spec_limit_offset].
    rewrite Z.add_0_r, Z.mod_mod by lia. reflexivity.
  - apply same_adjusted_same_frame. rewrite Ham.
    destruct body as [|b0 rest]; [reflexivity|].
    cbn [list_of_bytes map spec_adjusted_body spec_limit_offset].
    rewrite Z.add_mod_idemp_l by lia. do 2 f_equal. lia.
Qed.

(** ** Commands *)

Lemma manual_frame (b0 b1 b2 b3 : byte) (sensitivity : Z) :
  0 <= sensitivity <= 8 ->
  int_of_byte b0 + int_of_byte b1 + int_of_byte b2 + int_of_byte b3 + 8 < 128 ->
  exists bs bc,
    int_of_byte bs = sensitivity
    /\ int_of_byte bc
       = int_of_byte b0 + int_of_byte b1 + int_of_byte b2 + int_of_byte b3
         + sensitivity
    /\ bytes_of_list (list_of_bytes [b0; b1; b2; b3] ++ [sensitivity])
       = Ok [b0; b1; b2; b3; bs]
    /\ build_command [b0; b1; b2; b3; bs] false false
       = Ok [xdd; x00; b0; b1; b2; b3; bs; bc].
Proof.
  intros Hs Hsum.
  destruct (byte_of_int_ok sensitivity) as (bs & Ebs & Hbs); [lia|].
  destruct (build_command_cons b0 [b1; b2; b3; bs] false false)
    as (x & bc & Hframe & Hx & Hbc).
  pose proof (int_of_byte_range b0). pose proof (int_of_byte_range b1).
  pose proof (int_of_byte_range b2). pose proof (int_of_byte_range b3).
  assert (x = b0) as ->.
  { apply int_of_byte_inj. rewrite Hx. cbn [spec_limit_offset].
    rewrite Z.add_0_r. apply Z.mod_small. lia. }
  exists bs, bc. split; [exact Hbs|]. split; [|split; [|exact Hframe]].
  - rewrite Hbc. unfold calculate_checksum, sum.
    cbn [list_of_bytes map fold_left]. rewrite Hbs, land_127_mod.
    rewrite Z.mod_small; lia.
  - rewrite bytes_of_list_app. cbn [bytes_of_list rbind]. rewrite Ebs.
    reflexivity.
Qed.

(** X5. With a sensitivity [s] within [0, 8], as every reachable state
    has it, the frames of the manual commands are
    [DD 00 41 20 00 00 s 61+s] for up, [DD 00 42 20 00 00 s 62+s] for
    down and [DD 00 40 20 00 00 s 60+s] for stop; stop auto-move is
    always [DD 00 C3 00 00 00 43]. *)
Theorem manual_command_frames (w : World) (env : await_env) :
  sensitivity_ok (desk w) ->
  exists bs up down stop,
    int_of_byte bs = _sensitivity (desk w)
    /\ int_of_byte up = 0x61 + _sensitivity (desk w)
    /\ int_of_byte down = 0x62 + _sensitivity (desk w)
    /\ int_of_byte stop = 0x60 + _sensitivity (desk w)
    /\ async_move_up env w
       = _send_command [xdd; x00; x41; x20; x00; x00; bs; up] env w
    /\ async_move_down env w
       = _send_command [xdd; x00; x42; x20; x00; x00; bs; down] env w
    /\ async_stop env w
       = _send_command [xdd; x00; x40; x20; x00; x00; bs; stop] env w
    /\ async_stop_auto_move env w
       = _send_command [xdd; x00; xc3; x00; x00; x00; x43] env w.
Proof.
  intros Hs. unfold sensitivity_ok in Hs.
  destruct (manual_frame x41 x20 x00 x00 _ Hs) as (bs & up & Hbs & Hup & Eu & Fu);
    [vm_compute; reflexivity|].
  destruct (manual_frame x42 x20 x00 x00 _ Hs) as (bs' & dn & Hbs' & Hdn & Ed & Fd);
    [vm_compute; reflexivity|].
  destruct (manual_frame x40 x20 x00 x00 _ Hs) as (bs'' & st & Hbs'' & Hst & Es & Fs);
    [vm_compute; reflexivity|].
  assert (bs' = bs) as -> by (apply int_of_byte_inj; congruence).
  assert (bs'' = bs) as -> by (apply int_of_byte_inj; congruence).
  exists bs, up, dn, st.
  split; [exact Hbs|]. split; [rewrite Hup; reflexivity|].
  split; [rewrite Hdn; reflexivity|]. split; [rewrite Hst; reflexivity|].
  split; [|split; [|split]].
  - unfold async_move_up. run. unfold CMD_UP. rewrite Eu. run.
    rewrite Fu. run. reflexivity.
  - unfold async_move_down. run. unfold CMD_DOWN. rewrite Ed. run.
    rewrite Fd. run. reflexivity.
  - unfold async_stop. run. unfold CMD_STOP. rewrite Es. run.
    rewrite Fs. run. reflexivity.
  - unfold async_stop_auto_move.
    replace (build_command CMD_AUTO_STOP false false)
      with (Ok [xdd; x00; xc3; x00; x00; x00; x43]) by (vm_compute; reflexivity).
    run. reflexivity.
Qed.

Lemma manual_command_frames_witness :
  async_move_up returns (final (exec (SetSensitivity 3) (init_world 0%nat)))
  = _send_command [xdd; x00; x41; x20; x00; x00; x03; x64] returns
      (final (exec (SetSensitivity 3) (init_world 0%nat))).
Proof.
  destruct (manual_command_frames
              (final (exec (SetSensitivity 3) (init_world 0%nat))) returns)
    as (bs & up & down & stop & Hbs & Hup & _ & _ & Hrun & _).
  - unfold sensitivity_ok. cbn. lia.
  - assert (bs = x03) as -> by (apply int_of_byte_inj; rewrite Hbs; reflexivity).
    assert (up = x64) as -> by (apply int_of_byte_inj; rewrite Hup; reflexivity).
    exact Hrun.
Defined.

Lemma send_command_run (command : bytes) (env : await_env) (w : World) :
  lost env = false ->
  _send_command command env w
  = match client (desk w) with
    | Some {| client_is_connected := true |} =>
        match raised env with
        | None => {| outcome := Ok tt; final := w;
                     emitted := [WriteGattChar command] |}
        | Some e =>
            if is_Exception e
            then {| outcome := Raise (UpdateFailed_send e); final := w;
                    emitted := [WriteGattChar command;
                                Log ERROR (Failed_to_send_command e)] |}
            else {| outcome := Raise e; final := w;
                    emitted := [WriteGattChar command] |}
        end
    | _ => raise UpdateFailed_not_connected w
    end.
Proof.
  intros Hl. unfold _send_command. run.
  destruct (client (desk w)) as [[[|]]|]; cbn [client_is_connected negb];
    try reflexivity.
  unfold try_except, await. rewrite Hl.
  destruct (raised env) as [e|]; [|reflexivity].
  run. cbn [bind emit raise prepend outcome final emitted app].
  destruct (is_Exception e); reflexivity.
Qed.

Lemma bytes_of_list_raise (l : list Z) (e : exn) :
  bytes_of_list l = Raise e -> e = ValueError.
Proof.
  induction l as [|z l IH]; cbn [bytes_of_list]; [discriminate|].
  unfold byte_of_int.
  destruct ((0 <=? z) && (z <? 256));
    [destruct (Byte.of_N (Z.to_N z))|]; cbn [rbind];
    try (intros [= <-]; reflexivity).
  destruct (bytes_of_list l); cbn [rbind]; [discriminate|].
  intros [= <-]. apply IH. reflexivity.
Qed.

Lemma int_of_float_raise (x : float) (e : exn) :
  int_of_float x = Raise e -> e = ValueError \/ e = OverflowError.
Proof.
  unfold int_of_float.
  destruct (Prim2SF x); intros [= <-]; auto.
Qed.

Lemma int_truediv_10_raise (a : Z) (e : exn) :
  int_truediv a 10 = Raise e -> e = OverflowError.
Proof.
  unfold int_truediv. cbn [Z.eqb].
  destruct (DBL_OVERFLOW * Z.abs 10 <=? Z.abs a); intros [= <-]; reflexivity.
Qed.

Lemma build_command_no_raise (body : bytes) (mx mn : bool) (e : exn) :
  build_command body mx mn <> Raise e.
Proof.
  destruct (build_command_returns body mx mn) as (a & c & E & _).
  rewrite E. discriminate.
Qed.

(** The commands in one list. *)
Ltac pure_steps :=
  run;
  repeat match goal with
    | |- context [bind (lift ?r) _ _] =>
        let E := fresh "E" in destruct r eqn:E; run
    end.

Ltac pure_error :=
  match goal with
  | E : bytes_of_list _ = Raise _ |- _ =>
      apply bytes_of_list_raise in E; subst; auto
  | E : int_of_float _ = Raise _ |- _ =>
      apply int_of_float_raise in E; destruct E; subst; auto
  | E : int_truediv _ 10 = Raise _ |- _ =>
      apply int_truediv_10_raise in E; subst; auto
  | E : build_command _ _ _ = Raise _ |- _ =>
      exfalso; exact (build_command_no_raise _ _ _ _ E)
  end.

Lemma command_cases (env : await_env) (height_cm : float) (m : M unit)
    (w : World) :
  In m [async_move_up env; async_move_down env; async_stop env;
        async_move_to_height height_cm env; async_stop_auto_move env] ->
  (exists e, (e = ValueError \/ e = OverflowError) /\ m w = raise e w)
  \/ (exists frame, m w = _send_command frame env w).
Proof.
  cbn [In]. intros [<-|[<-|[<-|[<-|[<-|[]]]]]].
  - unfold async_move_up. pure_steps;
      solve [right; eexists; reflexivity | left; eexists; split; [|reflexivity]; pure_error].
  - unfold async_move_down. pure_steps;
      solve [right; eexists; reflexivity | left; eexists; split; [|reflexivity]; pure_error].
  - unfold async_stop. pure_steps;
      solve [right; eexists; reflexivity | left; eexists; split; [|reflexivity]; pure_error].
  - unfold async_move_to_height. pure_steps;
      solve [right; eexists; reflexivity | left; eexists; split; [|reflexivity]; pure_error].
  - unfold async_stop_auto_move. pure_steps;
      solve [right; eexists; reflexivity | left; eexists; split; [|reflexivity]; pure_error].
Qed.

(** X6. While the link does not drop during the write, a movement
    command is read-only: whatever it returns or raises, the
    coordinator, its tasks and its listeners are left exactly as they
    were, and at most one frame is written to the desk. *)
Theorem commands_read_only (env : await_env) (height_cm : float)
    (m : M unit) (w : World) :
  lost env = false ->
  In m [async_move_up env; async_move_down env; async_stop env;
        async_move_to_height height_cm env; async_stop_auto_move env] ->
  final (m w) = w
  /\ (length (List.filter is_write (emitted (m w))) <= 1)%nat.
Proof.
  intros Hl Hin.
  destruct (command_cases env height_cm m w Hin)
    as [(e & _ & ->)|(frame & ->)]; [cbn; auto|].
  rewrite (send_command_run frame env w Hl).
  destruct (client (desk w)) as [[[|]]|]; [|cbn; auto..].
  destruct (raised env) as [e|]; [destruct (is_Exception e)|]; cbn; auto.
Qed.

Lemma commands_read_only_witness :
  final (async_move_to_height 100%float returns (init_world 0%nat))
  = init_world 0%nat
  /\ (length (List.filter is_write
        (emitted (async_move_to_height 100%float returns (init_world 0%nat))))
      <= 1)%nat.
Proof.
  apply (commands_read_only returns 100%float); [reflexivity|].
  cbn [In]. auto.
Defined.

Lemma await_outcome (env : await_env) (w : World) :
  outcome (await env w)
  = match raised env with Some e => Raise e | None => Ok tt end.
Proof.
  unfold await.
  match goal with
  | |- context [bind ?m ?k w] => pose proof (bind_inv m k w) as Hb
  end.
  destruct (lost env).
  - rewrite transport_disconnected_returns in Hb. rewrite Hb.
    rewrite outcome_prepend. destruct (raised env); reflexivity.
  - destruct (raised env); reflexivity.
Qed.

Lemma send_command_outcome (command : bytes) (env : await_env) (w : World) :
  outcome (_send_command command env w)
  = match client (desk w) with
    | Some {| client_is_connected := true |} =>
        match raised env with
        | None => Ok tt
        | Some e => if is_Exception e then Raise (UpdateFailed_send e)
                    else Raise e
        end
    | _ => Raise UpdateFailed_not_connected
    end.
Proof.
  unfold _send_command. run.
  destruct (client (desk w)) as [[[|]]|]; cbn [client_is_connected negb];
    try reflexivity.
  match goal with
  | |- context [try_except ?m ?h w] =>
      pose proof (try_except_inv m h w) as Ht;
      assert (Ho : outcome (m w) = outcome (await env w))
        by (rewrite bind_emit_run, outcome_prepend; reflexivity)
  end.
  rewrite Ho, await_outcome in Ht.
  destruct (raised env) as [e|] eqn:Er; cbv iota in Ht.
  - destruct (is_Exception e) eqn:Ee; rewrite Ht.
    + rewrite outcome_prepend, bind_emit_run, outcome_prepend.
      reflexivity.
    + rewrite Ho, await_outcome, Er. reflexivity.
  - rewrite Ht, Ho, await_outcome, Er. reflexivity.
Qed.

(** X7. A movement command never lets a transport error through as it
    is: whatever it raises is the missing-link error, the send error
    wrapping what the write raised, the cancellation the write was hit
    by, or the [ValueError]/[OverflowError] of building the frame from
    an unusable height or sensitivity. *)
Theorem command_errors (env : await_env) (height_cm : float)
    (m : M unit) (w : World) (e : exn) :
  In m [async_move_up env; async_move_down env; async_stop env;
        async_move_to_height height_cm env; async_stop_auto_move env] ->
  outcome (m w) = Raise e ->
  e = UpdateFailed_not_connected
  \/ (exists err, e = UpdateFailed_send err /\ raised env = Some err
                  /\ is_Exception err = true)
  \/ (e = CancelledError /\ raised env = Some CancelledError)
  \/ e = ValueError \/ e = OverflowError.
Proof.
  intros Hin.
  destruct (command_cases env height_cm m w Hin)
    as [(e' & He' & ->)|(frame & ->)].
  - cbn [raise outcome]. intros [= <-]. tauto.
  - rewrite send_command_outcome.
    destruct (client (desk w)) as [[[|]]|];
      try (intros [= <-]; auto).
    destruct (raised env) as [err|]; [|discriminate].
    destruct (is_Exception err) eqn:Ee; intros [= <-].
    + right. left. exists err. auto.
    + right. right. left. destruct err; try discriminate. auto.
Qed.

Lemma command_errors_witness :
  UpdateFailed_not_connected = UpdateFailed_not_connected
  \/ (exists err, UpdateFailed_not_connected = UpdateFailed_send err
                  /\ raised returns = Some err /\ is_Exception err = true)
  \/ (UpdateFailed_not_connected = CancelledError
      /\ raised returns = Some CancelledError)
  \/ UpdateFailed_not_connected = ValueError
  \/ UpdateFailed_not_connected = OverflowError.
Proof.
  apply (command_errors returns 100%float (async_stop returns)
           (init_world 0%nat)).
  - cbn [In]. auto.
  - vm_compute. reflexivity.
Defined.

(** ** Target heights *)

(** The frame of a move-to-height, whatever the order of the limits. *)
Lemma move_to_height_run (w : World) (height_cm : float) (env : await_env)
    (requested : Z) :
  int_of_float (PrimFloat.mul height_cm 10%float) = Ok requested ->
  well_typed (desk w) ->
  exists bh bl bs bc,
    int_of_byte bh * 256 + int_of_byte bl
    = Z.max (_min_height_mm (desk w))
            (Z.min requested (_max_height_mm (desk w)))
    /\ int_of_byte bs = _sensitivity (desk w)
    /\ async_move_to_height height_cm env w
       = _send_command [xdd; x00; x40; x28; bh; bl; bs; bc] env w.
Proof.
  intros Hreq (Hc & Hlo & Hhi & Hs).
  set (target := Z.max (_min_height_mm (desk w))
                       (Z.min requested (_max_height_mm (desk w)))).
  assert (Hu16 : 0 <= target < 65536) by (unfold target; lia).
  destruct (big_endian_u16 target Hu16) as (Hh & Hl & Hbe).
  destruct (auto_move_body _ _ _ Hh Hl Hs)
    as (bh & bl & bs & Ebody & Hbh & Hbl & Hbs).
  destruct (build_command_cons x40 [x28; bh; bl; bs] false false)
    as (x & bc & Eframe & Hx & _).
  assert (x = x40) as -> by (apply int_of_byte_inj; rewrite Hx; reflexivity).
  destruct (int_truediv_u16 target Hu16) as (q & Eq).
  exists bh, bl, bs, bc.
  split; [rewrite Hbh, Hbl; exact Hbe|]. split; [exact Hbs|].
  unfold async_move_to_height. rewrite Hreq. run.
  cbv zeta. fold target. rewrite Eq. run.
  rewrite Ebody. run. rewrite Eframe. run. reflexivity.
Qed.

(** X8. The limits a desk reports are stored without being compared.
    With a maximum below the minimum, every move-to-height, whatever the
    height asked for, sends the minimum as its target. *)
Theorem inverted_limits_send_minimum (w : World) (height_cm : float)
    (env : await_env) (requested : Z) :
  int_of_float (PrimFloat.mul height_cm 10%float) = Ok requested ->
  well_typed (desk w) ->
  _max_height_mm (desk w) < _min_height_mm (desk w) ->
  exists height_high height_low sensitivity checksum,
    int_of_byte height_high * 256 + int_of_byte height_low
    = _min_height_mm (desk w)
    /\ async_move_to_height height_cm env w
       = _send_command [xdd; x00; x40; x28; height_high; height_low;
                        sensitivity; checksum] env w.
Proof.
  intros Hreq Hw Hinv.
  destruct (move_to_height_run w height_cm env requested Hreq Hw)
    as (bh & bl & bs & bc & Htarget & _ & Hrun).
  exists bh, bl, bs, bc. split; [|exact Hrun].
  rewrite Htarget. lia.
Qed.

Lemma inverted_limits_send_minimum_witness :
  let w := final (exec (Notification [x9d; x00; x00; x00; x00; x00;
                                      x03; x00; x01; x00; x00])
                       (init_world 0%nat)) in
  _min_height_mm (desk w) = 768 /\ _max_height_mm (desk w) = 256
  /\ exists height_high height_low sensitivity checksum,
       int_of_byte height_high * 256 + int_of_byte height_low
       = _min_height_mm (desk w)
       /\ async_move_to_height 20%float returns w
          = _send_command [xdd; x00; x40; x28; height_high; height_low;
                           sensitivity; checksum] returns w.
Proof.
  cbv zeta. split; [vm_compute; reflexivity|].
  split; [vm_compute; reflexivity|].
  apply (inverted_limits_send_minimum _ 20%float returns 200).
  - vm_compute. reflexivity.
  - vm_compute. intuition discriminate.
  - vm_compute. reflexivity.
Defined.

(** The 12-bit field in arithmetic: the low nibble of the first byte
    and the second byte. *)
Lemma twelve_bits_value (b1 b2 : Z) :
  Z.lor (Z.land b2 0xFF) (Z.shiftl (Z.land b1 0x0F) 8)
  = (b1 mod 16) * 256 + b2 mod 256.
Proof.
  rewrite land_255_mod.
  change 0x0F with (Z.ones 4). rewrite Z.land_ones by lia.
  change (2 ^ 4) with 16.
  set (lo := b2 mod 256). set (hi := b1 mod 16).
  assert (Hdisjoint : Z.land lo (Z.shiftl hi 8) = 0).
  { apply Z.bits_inj'. intros n Hn. rewrite Z.land_spec, Z.bits_0.
    destruct (Z.lt_ge_cases n 8).
    - rewrite Z.shiftl_spec_low by lia. apply andb_false_r.
    - unfold lo. change 256 with (2 ^ 8).
      rewrite Z.mod_pow2_bits_high by lia. reflexivity. }
  pose proof (Z.add_lor_land lo (Z.shiftl hi 8)) as Hadd.
  rewrite Hdisjoint in Hadd. rewrite Z.shiftl_mul_pow2 in * by lia.
  change (2 ^ 8) with 256 in *. lia.
Qed.

(** X9. Heights go out and come back in the same two bytes.  The
    height bytes of a move-to-height frame, echoed in a height
    notification, set the current height to the target modulo 4096:
    to the target itself with limits of twelve bits, as every reachable
    state has them. *)
Theorem height_round_trip (w w' : World) (height_cm : float)
    (env : await_env) (requested : Z) :
  int_of_float (PrimFloat.mul height_cm 10%float) = Ok requested ->
  well_typed (desk w) ->
  heights_12bit (desk w') ->
  let target :=
    Z.max (_min_height_mm (desk w))
          (Z.min requested (_max_height_mm (desk w))) in
  exists height_high height_low sensitivity checksum,
    async_move_to_height height_cm env w
    = _send_command [xdd; x00; x40; x28; height_high; height_low;
                     sensitivity; checksum] env w
    /\ forall b2 b3 b4 b5 b8 b9 b10 rest,
         let r := _notification_handler
                    (x9d :: x01 :: b2 :: b3 :: b4 :: b5 :: height_high
                     :: height_low :: b8 :: b9 :: b10 :: rest) w' in
         outcome r = Ok tt
         /\ _current_height_mm (desk (final r)) = target mod 4096
         /\ (heights_12bit (desk w) ->
             _current_height_mm (desk (final r)) = target).
Proof.
  intros Hreq Hw Hw' target.
  destruct (move_to_height_run w height_cm env requested Hreq Hw)
    as (bh & bl & bs & bc & Htarget & _ & Hrun).
  fold target in Htarget.
  exists bh, bl, bs, bc. split; [exact Hrun|].
  intros b2 b3 b4 b5 b8 b9 b10 rest r. subst r.
  destruct (handler_height w' x9d x01 b2 b3 b4 b5 bh bl b8 b9 b10 rest
              eq_refl Hw' eq_refl) as (d & -> & _).
  cbn [outcome final desk set_current_height_mm _current_height_mm].
  rewrite twelve_bits_value.
  pose proof (int_of_byte_range bh). pose proof (int_of_byte_range bl).
  rewrite (Z.mod_small (int_of_byte bl)) by lia.
  assert (Hmod : int_of_byte bh mod 16 * 256 + int_of_byte bl
                 = target mod 4096).
  { rewrite <- Htarget.
    pose proof (Z.div_mod (int_of_byte bh) 16 ltac:(lia)) as Hd.
    pose proof (Z.mod_pos_bound (int_of_byte bh) 16 ltac:(lia)) as Hr.
    apply (Z.mod_unique _ _ (int_of_byte bh / 16)); lia. }
  split; [reflexivity|]. split; [exact Hmod|].
  intros (_ & Hlo & Hhi). rewrite Hmod. apply Z.mod_small.
  unfold target. lia.
Qed.

Lemma height_round_trip_witness :
  exists height_high height_low,
    (exists sensitivity checksum,
       async_move_to_height 100%float returns (init_world 0%nat)
       = _send_command [xdd; x00; x40; x28; height_high; height_low;
                        sensitivity; checksum] returns (init_world 0%nat))
    /\ _current_height_mm
         (desk (final (_notification_handler
                         [x9d; x01; x00; x00; x00; x00; height_high;
                          height_low; x00; x00; x00] (init_world 0%nat))))
       = 1000.
Proof.
  destruct (height_round_trip (init_world 0%nat) (init_world 0%nat)
              100%float returns 1000)
    as (hh & hl & s & c & Hrun & Hecho).
  - vm_compute. reflexivity.
  - vm_compute. intuition discriminate.
  - vm_compute. intuition discriminate.
  - exists hh, hl. split; [exists s, c; exact Hrun|].
    destruct (Hecho x00 x00 x00 x00 x00 x00 x00 []) as (_ & _ & H).
    apply H. vm_compute. intuition discriminate.
Defined.

(** ** What the decoder looks at *)

Lemma handler_canonical (w : World)
    (b1 b2 b3 b4 b5 b6 b7 b8 b9 b10 : byte) (rest : bytes) :
  _notification_handler
    (x9d :: b1 :: b2 :: b3 :: b4 :: b5 :: b6 :: b7 :: b8 :: b9 :: b10 :: rest)
    w
  = _notification_handler
      [x9d; b1; x00; x00; x00; x00; b6; b7; b8; b9; x00] w.
Proof.
  unfold _notification_handler.
  replace (len (x9d :: b1 :: b2 :: b3 :: b4 :: b5 :: b6 :: b7 :: b8 :: b9
                :: b10 :: rest) =? 0) with false
    by (symmetry; apply Z.eqb_neq; unfold len; simpl length; lia).
  replace (len (x9d :: b1 :: b2 :: b3 :: b4 :: b5 :: b6 :: b7 :: b8 :: b9
                :: b10 :: rest) <? 11) with false
    by (symmetry; apply Z.ltb_ge; unfold len; simpl length; lia).
  change (len [x9d; b1; x00; x00; x00; x00; b6; b7; b8; b9; x00] =? 0)
    with false.
  change (len [x9d; b1; x00; x00; x00; x00; b6; b7; b8; b9; x00] <? 11)
    with false.
  run. change (int_of_byte x9d =? 0x9D) with true. cbn [negb]. run.
  destruct (int_of_byte b1 =? 0x00); [run; reflexivity|].
  destruct (int_of_byte b1 =? 0x01); run; reflexivity.
Qed.

(** X10. Of a frame that starts with 0x9D the handler looks at bytes 1
    and 6 to 9 only: two such frames of eleven bytes or more that agree
    there are handled alike, whatever their other bytes, their trailing
    byte and their lengths are.  No checksum is verified. *)
Theorem handler_reads_five_bytes (w : World) (b1 b6 b7 b8 b9 : byte)
    (b2 b3 b4 b5 b10 b2' b3' b4' b5' b10' : byte) (rest rest' : bytes) :
  _notification_handler
    (x9d :: b1 :: b2 :: b3 :: b4 :: b5 :: b6 :: b7 :: b8 :: b9 :: b10 :: rest)
    w
  = _notification_handler
      (x9d :: b1 :: b2' :: b3' :: b4' :: b5' :: b6 :: b7 :: b8 :: b9 :: b10'
       :: rest') w.
Proof.
  rewrite (handler_canonical w b1 b2 b3 b4 b5 b6 b7 b8 b9 b10 rest).
  rewrite (handler_canonical w b1 b2' b3' b4' b5' b6 b7 b8 b9 b10' rest').
  reflexivity.
Qed.

(** ** What a notification leaves alone *)

Ltac aside_modify :=
  apply preserves_modify; intros [[] ? ?]; unfold heights_aside; simpl; auto.

(** X11. A notification, whatever its bytes and however the handler
    ends, writes nothing but the three heights: the link, the flags of
    the reconnection, the sensitivity, the listeners and the coroutines
    are as before. *)
Theorem handler_writes_heights_only (data : bytes) (w : World) :
  heights_aside w (final (_notification_handler data w)).
Proof.
  assert (H : preserves (heights_aside w) (_notification_handler data)).
  { autounfold with methods.
    repeat first [preserves_step | aside_modify]. }
  apply H. unfold heights_aside. repeat split.
Qed.

(** ** What never changes *)

Ltac fixed_modify :=
  apply preserves_modify; intros [[] ? ?]; unfold fixed_settings; simpl; auto.

Ltac preserves_fixed :=
  autounfold with methods;
  repeat first
    [ preserves_step
    | match goal with
      | |- preserves _ create_task => intros ? ?; assumption
      | |- preserves _ (cancel_task _) => intros ? ?; assumption
      end
    | fixed_modify ].

Lemma fixed_settings_resume_task (id : nat) (env : attempt_env) :
  preserves fixed_settings (resume_task id env).
Proof.
  intros w Hw. unfold resume_task.
  destruct (find _ (tasks w)) as [t|]; [|exact Hw].
  assert (H : preserves fixed_settings (cycle_step (task_attempt t) env))
    by preserves_fixed.
  specialize (H w Hw). destruct (cycle_step _ env w); exact H.
Qed.

(** X12. Whatever happened to a coordinator, it is not moving, it
    makes 10 reconnection attempts and it waits 5 seconds before each:
    no method assigns [_is_moving], [_max_reconnect_attempts] or
    [_reconnect_delay], so a snapshot never shows a moving desk. *)
Theorem settings_never_change (w : World) :
  reachable w ->
  is_moving (desk w) = false
  /\ _max_reconnect_attempts (desk w) = 10
  /\ _reconnect_delay (desk w) = 5.
Proof.
  intros (dev & ops & ->).
  assert (Hinit : fixed_settings (init_world dev)) by (repeat split).
  generalize dependent (init_world dev).
  induction ops as [|o ops IH]; intros w Hw; [exact Hw|].
  cbn [run_ops fold_left]. apply IH.
  assert (H : preserves fixed_settings (exec o)).
  { destruct o; try apply fixed_settings_resume_task; preserves_fixed. }
  apply (H w Hw).
Qed.

Lemma settings_never_change_witness :
  is_moving (desk (final (exec (MoveUp returns) (init_world 0%nat)))) = false
  /\ _max_reconnect_attempts
       (desk (final (exec (MoveUp returns) (init_world 0%nat)))) = 10
  /\ _reconnect_delay
       (desk (final (exec (MoveUp returns) (init_world 0%nat)))) = 5.
Proof.
  apply settings_never_change.
  exists 0%nat, [MoveUp returns]. reflexivity.
Defined.

(** ** Shutdown *)

Lemma shut_down_on_disconnect (n : nat) : preserves (shut_down n) _on_disconnect.
Proof.
  intros w (Hs & Ht & Hc). unfold _on_disconnect. exec. rewrite Hs.
  exec. repeat split; assumption.
Qed.

Lemma shut_down_cancel_task (n id : nat) :
  preserves (shut_down n) (cancel_task id).
Proof.
  intros w (Hs & Ht & Hc). unfold cancel_task, shut_down.
  cbn [final desk tasks created]. rewrite Ht. repeat split; assumption.
Qed.

Ltac shut_down_modify :=
  apply preserves_modify; intros [[] ? ?]; unfold shut_down; simpl;
  intuition auto.

Ltac preserves_shut_down :=
  autounfold with link_methods;
  repeat first
    [ apply shut_down_on_disconnect | apply shut_down_cancel_task
    | preserves_step | shut_down_modify ].

Lemma shut_down_async_disconnect (n : nat) (env : await_env) :
  preserves (shut_down n) (async_disconnect env).
Proof. preserves_shut_down. Qed.

Lemma shut_down_exec (n : nat) (o : op) : preserves (shut_down n) (exec o).
Proof.
  destruct o; try solve [preserves_shut_down].
  intros w (Hs & Ht & Hc). unfold exec, resume_task. rewrite Ht.
  cbn [find]. exact (conj Hs (conj Ht Hc)).
Qed.

Lemma shut_down_async_shutdown (w : World) (env : await_env) :
  one_cycle w -> shut_down (created w) (final (async_shutdown env w)).
Proof.
  intros Hw. unfold async_shutdown. rewrite bind_modify_run, bind_gets_run.
  simp_state.
  destruct (_reconnect_task (desk w)) as [id|] eqn:Et.
  - rewrite bind_assoc_run, bind_cancel_task_run, bind_modify_run.
    simp_state. apply shut_down_async_disconnect.
    unfold shut_down. cbn [desk tasks created].
    repeat split. destruct Hw as [->|(t & -> & Ht)]; [reflexivity|].
    assert (id = task_id t) as -> by congruence.
    apply filter_own_task.
  - rewrite bind_ret_run. apply shut_down_async_disconnect.
    unfold shut_down. cbn [desk tasks created].
    repeat split. destruct Hw as [Hw|(t & _ & Ht)]; [exact Hw|congruence].
Qed.

(** X13. A shutdown is final.  From a world with at most one
    reconnection coroutine, as every reachable one is, and however the
    closing of the link ends, reconnection is off and no coroutine is
    alive after it, and nothing that happens later, a lost link and a
    new connect included, turns reconnection on again or creates a
    coroutine. *)
Theorem shutdown_is_final (w : World) (env : await_env) (ops : list op) :
  one_cycle w ->
  let w' := run_ops ops (final (async_shutdown env w)) in
  _should_reconnect (desk w') = false
  /\ tasks w' = []
  /\ created w' = created w.
Proof.
  intros Hw. cbv zeta.
  pose proof (shut_down_async_shutdown w env Hw) as Hdown.
  generalize dependent (final (async_shutdown env w)).
  induction ops as [|o ops IH]; intros w' Hw'; [exact Hw'|].
  cbn [run_ops fold_left]. apply IH. apply (shut_down_exec _ o w' Hw').
Qed.

Lemma shutdown_is_final_witness :
  let w := run_ops [Connect all_return; LinkLost] (init_world 0%nat) in
  let w' := run_ops [LinkLost; Connect all_return; LinkLost]
              (final (async_shutdown returns w)) in
  tasks w = [{| task_id := 0%nat; task_attempt := None |}]
  /\ _should_reconnect (desk w') = false
  /\ tasks w' = []
  /\ created w' = created w.
Proof.
  cbv zeta. split; [vm_compute; reflexivity|].
  apply (shutdown_is_final
           (run_ops [Connect all_return; LinkLost] (init_world 0%nat))
           returns [LinkLost; Connect all_return; LinkLost]).
  right. eexists. split; vm_compute; reflexivity.
Defined.

(** ** Listeners *)

Lemma list_remove_absent (x : nat) (l : list nat) :
  existsb (Nat.eqb x) l = false -> list_remove x l = l.
Proof.
  induction l as [|y l IH]; [reflexivity|].
  cbn [existsb list_remove]. destruct (Nat.eqb x y); [discriminate|].
  cbn [orb]. intros H. rewrite (IH H). reflexivity.
Qed.

Lemma list_remove_last (x : nat) (l : list nat) :
  existsb (Nat.eqb x) l = false -> list_remove x (l ++ [x]) = l.
Proof.
  induction l as [|y l IH]; cbn [existsb list_remove app].
  - rewrite Nat.eqb_refl. reflexivity.
  - destruct (Nat.eqb x y); [discriminate|].
    cbn [orb]. intros H. rewrite (IH H). reflexivity.
Qed.

Lemma existsb_last (x : nat) (l : list nat) :
  existsb (Nat.eqb x) (l ++ [x]) = true.
Proof.
  rewrite existsb_app. cbn [existsb]. rewrite Nat.eqb_refl.
  rewrite orb_true_r. reflexivity.
Qed.

Lemma count_occ_list_remove (x y : nat) (l : list nat) :
  count_occ Nat.eq_dec (list_remove x l) y
  = if Nat.eqb y x then Nat.pred (count_occ Nat.eq_dec l y)
    else count_occ Nat.eq_dec l y.
Proof.
  induction l as [|z l IH]; cbn [list_remove count_occ].
  - destruct (Nat.eqb y x); reflexivity.
  - destruct (Nat.eqb_spec x z) as [<-|Hxz].
    + destruct (Nat.eq_dec x y) as [<-|Hxy].
      * rewrite Nat.eqb_refl. reflexivity.
      * destruct (Nat.eqb_spec y x) as [->|_]; [contradiction|reflexivity].
    + cbn [count_occ]. rewrite IH.
      destruct (Nat.eq_dec z y) as [<-|Hzy]; [|reflexivity].
      destruct (Nat.eqb_spec z x) as [->|_]; [contradiction|reflexivity].
Qed.

Lemma register_callback_run (callback : nat) (w : World) :
  register_callback callback w
  = {| outcome := Ok tt;
       final := {| desk := set_update_callbacks
                             (_update_callbacks (desk w) ++ [callback])
                             (desk w);
                   tasks := tasks w; created := created w |};
       emitted := [] |}.
Proof. unfold register_callback. rewrite bind_gets_run. reflexivity. Qed.

Lemma remove_callback_run (callback : nat) (w : World) :
  remove_callback callback w
  = if existsb (Nat.eqb callback) (_update_callbacks (desk w))
    then {| outcome := Ok tt;
            final := {| desk := set_update_callbacks
                                  (list_remove callback
                                     (_update_callbacks (desk w)))
                                  (desk w);
                        tasks := tasks w; created := created w |};
            emitted := [] |}
    else {| outcome := Ok tt; final := w; emitted := [] |}.
Proof.
  unfold remove_callback. rewrite bind_gets_run.
  destruct (existsb _ _); reflexivity.
Qed.

(** X14. Registering a listener that is not registered yet and
    removing it again gives back the very world there was: the other
    listeners are in their places, and neither call raises. *)
Theorem register_then_remove (callback : nat) (w : World) :
  existsb (Nat.eqb callback) (_update_callbacks (desk w)) = false ->
  let r := register_callback callback w in
  let r' := remove_callback callback (final r) in
  outcome r = Ok tt /\ outcome r' = Ok tt /\ final r' = w
  /\ emitted r = [] /\ emitted r' = [].
Proof.
  intros Habsent. cbv zeta.
  rewrite register_callback_run. cbn [outcome final emitted].
  rewrite remove_callback_run. simp_state.
  rewrite existsb_last, (list_remove_last _ _ Habsent).
  destruct w as [[] ts n]. repeat split.
Qed.

Lemma register_then_remove_witness :
  final (remove_callback 7%nat
           (final (register_callback 7%nat
                     (final (register_callback 3%nat (init_world 0%nat))))))
  = final (register_callback 3%nat (init_world 0%nat)).
Proof.
  apply (register_then_remove 7%nat
           (final (register_callback 3%nat (init_world 0%nat)))).
  reflexivity.
Defined.

(** X15. Removing a listener takes away one registration of it and
    no other: a listener registered twice is still called once, the
    other listeners are called as often as before, and removing a
    listener that is not registered does nothing and does not raise. *)
Theorem remove_callback_once (callback other : nat) (w : World) :
  let r := remove_callback callback w in
  outcome r = Ok tt
  /\ count_occ Nat.eq_dec (_update_callbacks (desk (final r))) other
     = (if Nat.eqb other callback
        then Nat.pred (count_occ Nat.eq_dec (_update_callbacks (desk w)) other)
        else count_occ Nat.eq_dec (_update_callbacks (desk w)) other)
  /\ (existsb (Nat.eqb callback) (_update_callbacks (desk w)) = false ->
      final r = w).
Proof.
  cbv zeta. rewrite remove_callback_run.
  destruct (existsb (Nat.eqb callback) (_update_callbacks (desk w))) eqn:E;
    simp_state.
  - split; [reflexivity|]. split; [|discriminate].
    apply count_occ_list_remove.
  - split; [reflexivity|]. split; [|reflexivity].
    rewrite <- (list_remove_absent _ _ E) at 1.
    apply count_occ_list_remove.
Qed.

Lemma registered_after (l : list nat) (w : World) :
  _update_callbacks (desk (run_ops (map RegisterCallback l) w))
  = _update_callbacks (desk w) ++ l.
Proof.
  revert w. induction l as [|cb l IH]; intros w.
  - cbn [map run_ops fold_left]. rewrite app_nil_r. reflexivity.
  - cbn [map run_ops fold_left]. fold (run_ops (map RegisterCallback l)).
    rewrite IH. unfold exec. rewrite register_callback_run. simp_state.
    rewrite <- app_assoc. reflexivity.
Qed.

(** X16. Listeners are called in the order of their registration,
    each as often as it was registered: after the listeners [l] were
    registered one by one, an update calls the listeners there were and
    then those of [l] in their order, and so does a lost link after its
    warning. *)
Theorem listeners_called_in_order (l : list nat) (w : World) :
  let w' := run_ops (map RegisterCallback l) w in
  _trigger_callbacks w'
  = {| outcome := Ok tt; final := w';
       emitted := map Callback (_update_callbacks (desk w) ++ l) |}
  /\ exists rest,
       emitted (_on_disconnect w')
       = Log WARNING Disconnected_from_desk
         :: map Callback (_update_callbacks (desk w) ++ l) ++ rest
       /\ List.filter is_notification rest = [].
Proof.
  cbv zeta. split.
  - rewrite trigger_callbacks_run, registered_after. reflexivity.
  - unfold _on_disconnect. exec. rewrite registered_after.
    destruct (_should_reconnect _ && is_None _); exec; unfold modify;
      simp_state.
    + exists [CreateTask (created (run_ops (map RegisterCallback l) w))].
      rewrite app_nil_r. split; reflexivity.
    + exists []. split; reflexivity.
Qed.

(** ** Handshake *)

Lemma async_stop_frame (w : World) (env : await_env) :
  sensitivity_ok (desk w) ->
  exists bs bc,
    int_of_byte bs = _sensitivity (desk w)
    /\ int_of_byte bc = 0x60 + _sensitivity (desk w)
    /\ forall w' : World,
         _sensitivity (desk w') = _sensitivity (desk w) ->
         async_stop env w'
         = _send_command [xdd; x00; x40; x20; x00; x00; bs; bc] env w'.
Proof.
  intros Hs. unfold sensitivity_ok in Hs.
  destruct (manual_frame x40 x20 x00 x00 _ Hs) as (bs & bc & Hbs & Hbc & E & F);
    [vm_compute; reflexivity|].
  exists bs, bc. split; [exact Hbs|]. split; [rewrite Hbc; reflexivity|].
  intros w' Hw'. unfold async_stop. run. rewrite Hw'. unfold CMD_STOP.
  rewrite E. run. rewrite F. run. reflexivity.
Qed.

Lemma connect_all_return_run (w : World) :
  sensitivity_ok (desk w) ->
  exists bs bc,
    int_of_byte bs = _sensitivity (desk w)
    /\ int_of_byte bc = 0x60 + _sensitivity (desk w)
    /\ async_connect all_return w
       = {| outcome := Ok tt;
            final :=
              {| desk := set_is_connected true
                           (set_client
                              (Some {| client_is_connected := true |})
                              (desk w));
                 tasks := tasks w; created := created w |};
            emitted :=
              [EstablishConnection (ble_device (desk w));
               StartNotify;
               Log INFO Connected_to_desk;
               WriteGattChar [xdd; x00; x40; x20; x00; x00; bs; bc];
               Sleep (Float 1.0);
               WriteGattChar [xdd; x01; x00; x00; x00; x00; x00; x00];
               Sleep (Float 0.5)] |}.
Proof.
  intros Hs.
  destruct (async_stop_frame w returns Hs) as (bs & bc & Hbs & Hbc & Hstop).
  exists bs, bc. split; [exact Hbs|]. split; [exact Hbc|].
  unfold async_connect, all_return, await. exec.
  match goal with
  | |- context [bind (async_stop returns) ?k ?w'] =>
      pose proof (bind_inv (async_stop returns) k w') as Hb;
      rewrite (Hstop w' eq_refl) in Hb
  end.
  rewrite send_command_run in Hb by reflexivity.
  cbn [desk client set_client set_is_connected raised returns outcome final
       emitted] in Hb.
  rewrite Hb. clear Hb. exec.
  match goal with
  | |- context [bind (_send_command CMD_INIT returns) ?k ?w'] =>
      pose proof (bind_inv (_send_command CMD_INIT returns) k w') as Hb
  end.
  rewrite send_command_run in Hb by reflexivity.
  cbn [desk client set_client set_is_connected raised returns outcome final
       emitted] in Hb.
  rewrite Hb. clear Hb. exec. reflexivity.
Qed.

(** X17. A connect that meets no failure does, in this order: open
    the connection to the stored device, subscribe to notifications,
    set the connection flag and log it, write the stop frame with the
    current sensitivity, wait 1.0 s, write the initialization frame as
    it is (no prefix, no checksum added), wait 0.5 s.  It returns with
    the flag true and a connected client, the rest of the coordinator
    untouched. *)
Theorem handshake_sequence (w : World) :
  sensitivity_ok (desk w) ->
  exists bs bc,
    int_of_byte bs = _sensitivity (desk w)
    /\ int_of_byte bc = 0x60 + _sensitivity (desk w)
    /\ async_connect all_return w
       = {| outcome := Ok tt;
            final :=
              {| desk := set_is_connected true
                           (set_client
                              (Some {| client_is_connected := true |})
                              (desk w));
                 tasks := tasks w; created := created w |};
            emitted :=
              [EstablishConnection (ble_device (desk w));
               StartNotify;
               Log INFO Connected_to_desk;
               WriteGattChar [xdd; x00; x40; x20; x00; x00; bs; bc];
               Sleep (Float 1.0);
               WriteGattChar [xdd; x01; x00; x00; x00; x00; x00; x00];
               Sleep (Float 0.5)] |}.
Proof. exact (connect_all_return_run w). Qed.

Lemma handshake_sequence_witness :
  List.filter is_write (emitted (async_connect all_return (init_world 0%nat)))
  = [WriteGattChar [xdd; x00; x40; x20; x00; x00; x00; x60];
     WriteGattChar [xdd; x01; x00; x00; x00; x00; x00; x00]].
Proof.
  destruct (handshake_sequence (init_world 0%nat))
    as (bs & bc & Hbs & Hbc & ->).
  - unfold sensitivity_ok. cbn. unfold DEFAULT_SENSITIVITY. lia.
  - assert (bs = x00) as -> by (apply int_of_byte_inj; rewrite Hbs; reflexivity).
    assert (bc = x60) as -> by (apply int_of_byte_inj; rewrite Hbc; reflexivity).
    reflexivity.
Defined.

(** X18. A connect that fails undoes nothing.  When opening the
    connection raises, the world is as before.  When the subscription
    raises, the new client stays stored.  When the wake-up write raises
    an [Exception], the connect raises the send error while the
    connection flag is already true and the client stays connected. *)
Theorem failed_connect_no_rollback (w : World) (env : connect_env)
    (e : exn) :
  sensitivity_ok (desk w) ->
  lost (at_establish env) = false ->
  let r := async_connect env w in
  let cl := Some {| client_is_connected := true |} in
  (raised (at_establish env) = Some e -> outcome r = Raise e /\ final r = w)
  /\ (raised (at_establish env) = None ->
      lost (at_start_notify env) = false ->
      (raised (at_start_notify env) = Some e ->
       outcome r = Raise e
       /\ final r = {| desk := set_client cl (desk w); tasks := tasks w;
                       created := created w |})
      /\ (raised (at_start_notify env) = None ->
          lost (at_stop_write env) = false ->
          raised (at_stop_write env) = Some e ->
          is_Exception e = true ->
          outcome r = Raise (UpdateFailed_send e)
          /\ final r = {| desk := set_is_connected true
                                    (set_client cl (desk w));
                          tasks := tasks w; created := created w |})).
Proof.
  intros Hs Hl0. cbv zeta.
  destruct (async_stop_frame w (at_stop_write env) Hs)
    as (bs & bc & _ & _ & Hstop).
  unfold async_connect, await. rewrite Hl0. exec. split.
  - intros ->. exec. split; reflexivity.
  - intros -> Hl1. rewrite Hl1. exec. split.
    + intros ->. exec. split; reflexivity.
    + intros -> Hl2 He Hex. exec.
      match goal with
      | |- context [bind (async_stop ?a) ?k ?w'] =>
          pose proof (bind_inv (async_stop a) k w') as Hb;
          rewrite (Hstop w' eq_refl) in Hb
      end.
      rewrite (send_command_run _ _ _ Hl2), He, Hex in Hb.
      cbn [desk client set_client set_is_connected outcome final emitted]
        in Hb.
      rewrite Hb. clear Hb. simp_state. split; reflexivity.
Qed.

Lemma failed_connect_no_rollback_witness :
  let env := {| at_establish := returns; at_start_notify := returns;
                at_stop_write := raises (BleakError 0);
                at_wake_sleep := returns; at_init_write := returns;
                at_init_sleep := returns |} in
  outcome (async_connect env (init_world 0%nat))
  = Raise (UpdateFailed_send (BleakError 0))
  /\ is_connected (desk (final (async_connect env (init_world 0%nat)))) = true.
Proof.
  cbv zeta.
  match goal with
  | |- context [async_connect ?env _] =>
      destruct (failed_connect_no_rollback (init_world 0%nat) env
                  (BleakError 0)) as (_ & H)
  end.
  - unfold sensitivity_ok. cbn. unfold DEFAULT_SENSITIVITY. lia.
  - reflexivity.
  - destruct (H eq_refl eq_refl) as (_ & H').
    destruct (H' eq_refl eq_refl eq_refl eq_refl) as (Ho & Hf).
    split; [exact Ho|]. rewrite Hf. reflexivity.
Defined.

(** ** Explicit disconnect and reconnection *)

(** X19. An explicit disconnect does not switch reconnection off.
    When the transport reports the loss of the link while the close is
    awaited, with reconnection enabled and no cycle running, the
    disconnect returns with the flag false and with a reconnection
    coroutine created and stored; a shutdown in the same situation
    switches reconnection off and creates none. *)
Theorem disconnect_starts_reconnection (w : World) (env : await_env) :
  client (desk w) = Some {| client_is_connected := true |} ->
  _should_reconnect (desk w) = true ->
  _reconnect_task (desk w) = None ->
  lost env = true ->
  raised env = None ->
  let r := async_disconnect env w in
  outcome r = Ok tt
  /\ _is_connected (desk (final r)) = false
  /\ _should_reconnect (desk (final r)) = true
  /\ _reconnect_task (desk (final r)) = Some (created w)
  /\ tasks (final r)
     = tasks w ++ [{| task_id := created w; task_attempt := None |}]
  /\ emitted r
     = [ClientDisconnect; Log WARNING Disconnected_from_desk]
       ++ map Callback (_update_callbacks (desk w))
       ++ [CreateTask (created w)]
  /\ _should_reconnect (desk (final (async_shutdown env w))) = false
  /\ tasks (final (async_shutdown env w)) = tasks w.
Proof.
  intros Hc Hs Ht Hl Hr. cbv zeta.
  unfold async_shutdown, async_disconnect, await, transport_disconnected,
    _on_disconnect.
  rewrite Hl, Hr. exec. rewrite Hc, Ht. exec. rewrite Hc. exec.
  rewrite Hs, Ht. exec. unfold modify. simp_state.
  rewrite ?app_nil_r, ?Hs. repeat split; reflexivity.
Qed.

Lemma disconnect_starts_reconnection_witness :
  let w := final (async_connect all_return (init_world 0%nat)) in
  tasks (final (async_disconnect {| lost := true; raised := None |} w))
  = [{| task_id := 0%nat; task_attempt := None |}].
Proof.
  cbv zeta.
  destruct (disconnect_starts_reconnection
              (final (async_connect all_return (init_world 0%nat)))
              {| lost := true; raised := None |})
    as (_ & _ & _ & _ & H & _).
  - vm_compute. reflexivity.
  - vm_compute. reflexivity.
  - vm_compute. reflexivity.
  - reflexivity.
  - reflexivity.
  - rewrite H. vm_compute. reflexivity.
Defined.

Lemma try_connect_success (attempt : Z) (env : attempt_env) (w : World) :
  sensitivity_ok (desk w) ->
  at_connect env = all_return ->
  exists es,
    try_connect attempt env w
    = {| outcome := Ok true;
         final :=
           {| desk :=
                set_reconnect_task None
                  (set_is_connected true
                     (set_client (Some {| client_is_connected := true |})
                        (match resolved env with
                         | Some dev => set_ble_device dev (desk w)
                         | None => desk w
                         end)));
              tasks := tasks w; created := created w |};
         emitted := es ++ [Log INFO Reconnected] |}
    /\ pacing es = [Attempt]
    /\ List.filter is_write es <> [].
Proof.
  intros Hs Hc. unfold try_connect. rewrite Hc.
  set (w1 := {| desk := match resolved env with
                        | Some dev => set_ble_device dev (desk w)
                        | None => desk w
                        end;
                tasks := tasks w; created := created w |}).
  assert (Hs1 : sensitivity_ok (desk w1)).
  { unfold w1. cbn [desk]. destruct (resolved env); exact Hs. }
  destruct (connect_all_return_run w1 Hs1) as (bs & bc & _ & _ & Hrun).
  match goal with
  | |- context [try_except ?m ?h w] =>
      pose proof (try_except_inv m h w) as Htry;
      assert (Hm : m w
                   = {| outcome := Ok true;
                        final :=
                          {| desk := set_reconnect_task None
                                       (desk (final (async_connect all_return w1)));
                             tasks := tasks w; created := created w |};
                        emitted := emitted (async_connect all_return w1)
                                   ++ [Log INFO Reconnected] |})
  end.
  { assert (Hw1 : forall k : unit -> M bool,
              bind (match resolved env with
                    | Some dev => modify (set_ble_device dev)
                    | None => ret tt
                    end) k w = k tt w1).
    { intros k. unfold w1. destruct (resolved env); exec; [reflexivity|].
      destruct w; reflexivity. }
    rewrite Hw1.
    match goal with
    | |- context [bind (async_connect all_return) ?k w1] =>
        pose proof (bind_inv (async_connect all_return) k w1) as Hb
    end.
    rewrite Hrun in Hb |- *. cbn [outcome final emitted] in Hb |- *.
    rewrite Hb. exec. rewrite ?app_nil_r. reflexivity. }
  rewrite Hm in Htry. cbn [outcome] in Htry. rewrite Htry, Hrun.
  cbn [final desk emitted]. eexists. split; [reflexivity|].
  split; [reflexivity|]. cbn. discriminate.
Qed.

(** X20. A reconnection attempt that meets a sleep that returns and
    a connect without failure ends the cycle: the coroutine returns
    after this one attempt with [Reconnected] logged last, the task
    handle cleared, the connection flag true and a connected client, on
    the device the Bluetooth integration now knows if it knows one.  The
    next loss of the link then starts a new cycle. *)
Theorem reconnect_succeeds (attempt : Z) (env : attempt_env) (w : World) :
  sensitivity_ok (desk w) ->
  _should_reconnect (desk w) = true ->
  at_sleep env = returns ->
  at_connect env = all_return ->
  let r := after_sleep attempt env w in
  outcome r = Ok None
  /\ attempts (emitted r) = 1%nat
  /\ (exists es, emitted r = es ++ [Log INFO Reconnected])
  /\ final r
     = {| desk :=
            set_reconnect_task None
              (set_is_connected true
                 (set_client (Some {| client_is_connected := true |})
                    (match resolved env with
                     | Some dev => set_ble_device dev (desk w)
                     | None => desk w
                     end)));
          tasks := tasks w; created := created w |}
  /\ emitted (_on_disconnect (final r))
     = [Log WARNING Disconnected_from_desk]
       ++ map Callback (_update_callbacks (desk w))
       ++ [CreateTask (created w)].
Proof.
  intros Hs Hshould Hsleep Hconn. cbv zeta.
  destruct (try_connect_success attempt env w Hs Hconn)
    as (es & Htry & Hpace & _).
  assert (Hrun : after_sleep attempt env w
                 = {| outcome := Ok None;
                      final := final (try_connect attempt env w);
                      emitted := emitted (try_connect attempt env w) |}).
  { unfold after_sleep. rewrite Hsleep. unfold await. exec.
    rewrite Hshould. exec.
    match goal with
    | |- context [bind (try_connect attempt env) ?k w] =>
        pose proof (bind_inv (try_connect attempt env) k w) as Hb
    end.
    rewrite Htry in Hb |- *. cbn [outcome final emitted] in Hb |- *.
    rewrite Hb. exec. rewrite ?app_nil_r. reflexivity. }
  rewrite Hrun, Htry. cbn [outcome final emitted].
  split; [reflexivity|]. split.
  { unfold attempts. rewrite pacing_app, Hpace. reflexivity. }
  split; [exists es; reflexivity|]. split; [reflexivity|].
  unfold _on_disconnect. exec.
  destruct (resolved env); exec; rewrite Hshould; exec; unfold modify;
    simp_state; rewrite ?app_nil_r; reflexivity.
Qed.

Lemma reconnect_succeeds_witness :
  outcome (after_sleep 3
             {| at_sleep := returns; resolved := Some 5%nat;
                at_connect := all_return |} (init_world 0%nat)) = Ok None
  /\ ble_device
       (desk (final (after_sleep 3
                       {| at_sleep := returns; resolved := Some 5%nat;
                          at_connect := all_return |} (init_world 0%nat))))
     = 5%nat.
Proof.
  destruct (reconnect_succeeds 3
              {| at_sleep := returns; resolved := Some 5%nat;
                 at_connect := all_return |} (init_world 0%nat))
    as (Ho & _ & _ & Hf & _).
  - unfold sensitivity_ok. cbn. unfold DEFAULT_SENSITIVITY. lia.
  - reflexivity.
  - reflexivity.
  - reflexivity.
  - split; [exact Ho|]. rewrite Hf. reflexivity.
Defined.

(** ** Sensitivity *)

(** X21. The sensitivity set is the sensitivity sent.  After
    [set_sensitivity n], for any integer [n], the next manual command
    carries [max 0 (min 8 n)] as its sensitivity byte, and the checksum
    that goes with it; setting the same value twice is setting it
    once. *)
Theorem sensitivity_reaches_commands (n : Z) (w : World) (env : await_env) :
  let w' := final (set_sensitivity n w) in
  exists bs up down stop,
    int_of_byte bs = Z.max 0 (Z.min 8 n)
    /\ int_of_byte up = 0x61 + Z.max 0 (Z.min 8 n)
    /\ int_of_byte down = 0x62 + Z.max 0 (Z.min 8 n)
    /\ int_of_byte stop = 0x60 + Z.max 0 (Z.min 8 n)
    /\ async_move_up env w'
       = _send_command [xdd; x00; x41; x20; x00; x00; bs; up] env w'
    /\ async_move_down env w'
       = _send_command [xdd; x00; x42; x20; x00; x00; bs; down] env w'
    /\ async_stop env w'
       = _send_command [xdd; x00; x40; x20; x00; x00; bs; stop] env w'
    /\ final (set_sensitivity n w') = w'.
Proof.
  cbv zeta. unfold set_sensitivity, modify. cbn [final].
  set (s := Z.max 0 (Z.min 8 n)).
  assert (Hs : 0 <= s <= 8) by (unfold s; lia).
  set (w' := {| desk := set_sensitivity_attr s (desk w); tasks := tasks w;
                created := created w |}).
  assert (Hw' : _sensitivity (desk w') = s) by reflexivity.
  destruct (manual_frame x41 x20 x00 x00 _ Hs) as (bs & up & Hbs & Hup & Eu & Fu);
    [vm_compute; reflexivity|].
  destruct (manual_frame x42 x20 x00 x00 _ Hs) as (bs' & dn & Hbs' & Hdn & Ed & Fd);
    [vm_compute; reflexivity|].
  destruct (manual_frame x40 x20 x00 x00 _ Hs) as (bs'' & st & Hbs'' & Hst & Es & Fs);
    [vm_compute; reflexivity|].
  assert (bs' = bs) as -> by (apply int_of_byte_inj; congruence).
  assert (bs'' = bs) as -> by (apply int_of_byte_inj; congruence).
  exists bs, up, dn, st.
  split; [exact Hbs|]. split; [rewrite Hup; reflexivity|].
  split; [rewrite Hdn; reflexivity|]. split; [rewrite Hst; reflexivity|].
  split; [|split; [|split]].
  - unfold async_move_up. run. rewrite Hw'. unfold CMD_UP. rewrite Eu. run.
    rewrite Fu. run. reflexivity.
  - unfold async_move_down. run. rewrite Hw'. unfold CMD_DOWN. rewrite Ed.
    run. rewrite Fd. run. reflexivity.
  - unfold async_stop. run. rewrite Hw'. unfold CMD_STOP. rewrite Es. run.
    rewrite Fs. run. reflexivity.
  - unfold w'. cbn [desk tasks created]. destruct w as [[] ts c].
    cbn [desk set_sensitivity_attr _sensitivity tasks created].
    fold s. reflexivity.
Qed.

(** ** A cycle that is cancelled *)

Lemma handle_stale_on_disconnect (id n : nat) :
  preserves (handle_stale id n) _on_disconnect.
Proof.
  intros w (Ht & Hh & Hc). unfold _on_disconnect. exec. rewrite Hh.
  rewrite andb_false_r. exec. repeat split; assumption.
Qed.

Ltac handle_stale_modify :=
  apply preserves_modify; intros [[] ? ?]; unfold handle_stale; simpl;
  intuition auto.

Ltac preserves_handle_stale :=
  autounfold with link_methods;
  repeat first
    [ apply handle_stale_on_disconnect | preserves_step
    | handle_stale_modify ].

Lemma handle_stale_exec (id n : nat) (o : op) :
  is_shutdown o = false -> preserves (handle_stale id n) (exec o).
Proof.
  destruct o; cbn [is_shutdown]; try discriminate; intros _;
    try solve [preserves_handle_stale].
  intros w (Ht & Hh & Hc). unfold exec, resume_task. rewrite Ht.
  cbn [find]. exact (conj Ht (conj Hh Hc)).
Qed.

(** X22. The task handle is cleared on the returns of the cycle
    only.  When the coroutine is cancelled in its sleep by anything but
    a shutdown, it ends without an attempt and without a log line, the
    coordinator keeps the handle of the dead coroutine, and from then
    on, as long as no shutdown runs, whatever happens starts no
    reconnection: a lost link finds the handle set and creates
    nothing. *)
Theorem cancelled_cycle_blocks_reconnection (w : World) (id : nat)
    (attempt : Z) (env : attempt_env) (ops : list op) :
  tasks w = [{| task_id := id; task_attempt := Some attempt |}] ->
  _reconnect_task (desk w) = Some id ->
  at_sleep env = raises CancelledError ->
  forallb (fun o => negb (is_shutdown o)) ops = true ->
  let r := resume_task id env w in
  emitted r = []
  /\ desk (final r) = desk w
  /\ tasks (final r) = []
  /\ tasks (run_ops ops (final r)) = []
  /\ _reconnect_task (desk (run_ops ops (final r))) = Some id
  /\ created (run_ops ops (final r)) = created w.
Proof.
  intros Ht Hh Hsleep Hops. cbv zeta.
  assert (Hrun : resume_task id env w
                 = {| outcome := Ok tt;
                      final := {| desk := desk w; tasks := [];
                                  created := created w |};
                      emitted := [] |}).
  { unfold resume_task. rewrite Ht. cbn [find task_id].
    rewrite Nat.eqb_refl. cbn [task_attempt cycle_step].
    unfold after_sleep, await. rewrite Hsleep. exec.
    rewrite Ht.
    pose proof (filter_own_task
                  {| task_id := id; task_attempt := Some attempt |}) as Hf.
    cbn [task_id] in Hf. rewrite Hf. reflexivity. }
  rewrite Hrun. cbn [emitted final desk tasks].
  split; [reflexivity|]. split; [reflexivity|]. split; [reflexivity|].
  assert (Hstale : handle_stale id (created w)
                     {| desk := desk w; tasks := []; created := created w |}).
  { repeat split. exact Hh. }
  clear Hrun. revert Hops.
  generalize dependent {| desk := desk w; tasks := []; created := created w |}.
  induction ops as [|o ops IH]; intros w' Hw' Hops'.
  - exact Hw'.
  - cbn [forallb] in Hops'. apply andb_prop in Hops'.
    destruct Hops' as (Ho & Hrest).
    cbn [run_ops fold_left]. apply IH; [|exact Hrest].
    apply (handle_stale_exec id (created w) o); [|exact Hw'].
    destruct (is_shutdown o); [discriminate|reflexivity].
Qed.

Lemma cancelled_cycle_blocks_reconnection_witness :
  let w := final (exec (Resume 0%nat unreachable)
                    (run_ops [Connect all_return; LinkLost]
                       (init_world 0%nat))) in
  let env := {| at_sleep := raises CancelledError; resolved := None;
                at_connect := all_return |} in
  tasks (run_ops [LinkLost; Connect all_return; LinkLost]
           (final (resume_task 0%nat env w))) = [].
Proof.
  cbv zeta.
  match goal with
  | |- tasks (run_ops ?ops (final (resume_task ?id ?env ?w))) = [] =>
      destruct (cancelled_cycle_blocks_reconnection w id 1 env ops)
        as (_ & _ & _ & H & _)
  end.
  - vm_compute. reflexivity.
  - vm_compute. reflexivity.
  - reflexivity.
  - reflexivity.
  - exact H.
Defined.

(** ** A live cycle finds reconnection enabled *)

Ltac enabled_modify :=
  apply preserves_modify; intros [[] ? ?]; simpl; auto.

Ltac preserves_enabled :=
  autounfold with methods;
  repeat first
    [ preserves_step
    | match goal with
      | |- preserves _ create_task => intros ? ?; assumption
      | |- preserves _ (cancel_task _) => intros ? ?; assumption
      end
    | enabled_modify ].

Lemma enabled_resume_task (id : nat) (env : attempt_env) :
  preserves (fun w => _should_reconnect (desk w) = true)
    (resume_task id env).
Proof.
  intros w Hw. unfold resume_task.
  destruct (find _ (tasks w)) as [t|]; [|exact Hw].
  assert (H : preserves (fun w => _should_reconnect (desk w) = true)
                (cycle_step (task_attempt t) env)) by preserves_enabled.
  specialize (H w Hw). destruct (cycle_step _ env w); exact H.
Qed.

Lemma enabled_exec (o : op) :
  is_shutdown o = false ->
  preserves (fun w => _should_reconnect (desk w) = true) (exec o).
Proof.
  destruct o; cbn [is_shutdown]; try discriminate; intros _;
    try apply enabled_resume_task; preserves_enabled.
Qed.

(** X23. Reconnection is switched off by a shutdown only, and a
    shutdown ends the cycle: in every state the coordinator can be in, a
    reconnection coroutine that is alive finds reconnection enabled. *)
Theorem live_cycle_is_enabled (w : World) :
  reachable w ->
  _should_reconnect (desk w) = true \/ tasks w = [].
Proof.
  intros (dev & ops & ->).
  induction ops as [|o ops IH] using rev_ind.
  - left. reflexivity.
  - unfold run_ops in *. rewrite fold_left_app. cbn [fold_left].
    fold (run_ops ops (init_world dev)) in *.
    set (w := run_ops ops (init_world dev)) in *.
    assert (Hone : one_cycle w).
    { apply one_cycle_run_ops. left. reflexivity. }
    destruct (is_shutdown o) eqn:Eo.
    + destruct o; try discriminate. right.
      apply (shut_down_async_shutdown w env Hone).
    + destruct IH as [Hen|Hnone].
      * left. apply (enabled_exec o Eo w Hen).
      * destruct (_should_reconnect (desk w)) eqn:Es.
        -- left. apply (enabled_exec o Eo w Es).
        -- right.
           apply (shut_down_exec (created w) o w).
           repeat split; assumption.
Qed.

Lemma live_cycle_is_enabled_witness :
  _should_reconnect
    (desk (run_ops [Connect all_return; LinkLost] (init_world 0%nat))) = true
  \/ tasks (run_ops [Connect all_return; LinkLost] (init_world 0%nat)) = [].
Proof.
  apply live_cycle_is_enabled.
  exists 0%nat, [Connect all_return; LinkLost]. reflexivity.
Defined.

(** ** The cover entity *)

(** A height of twelve bits survives the way to centimetres and back:
    [int((n / 10.0) * 10) = n], checked for each of the 4096 heights. *)
Lemma tenth_round_trip (n : Z) :
  0 <= n <= 4095 ->
  exists x,
    int_truediv_float n 10%float = Ok x
    /\ int_of_float (PrimFloat.mul x 10%float) = Ok n.
Proof.
  intros Hn.
  assert (Hall :
    forallb
      (fun k =>
         match int_truediv_float (Z.of_nat k) 10%float with
         | Ok x =>
             match int_of_float (PrimFloat.mul x 10%float) with
             | Ok m => m =? Z.of_nat k
             | Raise _ => false
             end
         | Raise _ => false
         end) (seq 0 4096) = true) by (vm_compute; reflexivity).
  rewrite forallb_forall in Hall.
  specialize (Hall (Z.to_nat n)).
  rewrite Z2Nat.id in Hall by lia.
  destruct (int_truediv_float n 10%float) as [x|e].
  - exists x. split; [reflexivity|].
    destruct (int_of_float (PrimFloat.mul x 10%float)) as [m|e].
    + f_equal. apply Z.eqb_eq. apply Hall. apply in_seq. lia.
    + discriminate Hall. apply in_seq. lia.
  - discriminate Hall. apply in_seq. lia.
Qed.

(** X24. Closing the cover sends the stored minimum as the target,
    opening it sends the larger of the two limits, which is the maximum
    when the limits are in order; the heights, of twelve bits as every
    reachable state has them, come back unchanged from their conversion
    to centimetres.  Stopping the cover is the stop command. *)
Theorem cover_open_close (w : World) (env : await_env) :
  desk_inv w ->
  exists oh ol oc ch cl cc bs,
    int_of_byte oh * 256 + int_of_byte ol
    = Z.max (_min_height_mm (desk w)) (_max_height_mm (desk w))
    /\ int_of_byte ch * 256 + int_of_byte cl = _min_height_mm (desk w)
    /\ int_of_byte bs = _sensitivity (desk w)
    /\ async_open_cover env w
       = _send_command [xdd; x00; x40; x28; oh; ol; bs; oc] env w
    /\ async_close_cover env w
       = _send_command [xdd; x00; x40; x28; ch; cl; bs; cc] env w
    /\ async_stop_cover env w = async_stop env w.
Proof.
  intros ((Hs0 & Hs8) & Hc & Hlo & Hhi).
  assert (Hw : well_typed (desk w)) by (unfold well_typed; lia).
  destruct (tenth_round_trip _ Hhi) as (xhi & Ehi & Rhi).
  destruct (tenth_round_trip _ Hlo) as (xlo & Elo & Rlo).
  destruct (move_to_height_run w xhi env _ Rhi Hw)
    as (oh & ol & bs & oc & Hopen & Hbs & Ropen).
  destruct (move_to_height_run w xlo env _ Rlo Hw)
    as (ch & cl & bs' & cc & Hclose & Hbs' & Rclose).
  assert (bs' = bs) as -> by (apply int_of_byte_inj; congruence).
  exists oh, ol, oc, ch, cl, cc, bs.
  split; [rewrite Hopen; lia|]. split; [rewrite Hclose; lia|].
  split; [exact Hbs|]. split; [|split; [|reflexivity]].
  - unfold async_open_cover. run. unfold max_height_cm. rewrite Ehi. run.
    exact Ropen.
  - unfold async_close_cover. run. unfold min_height_cm. rewrite Elo. run.
    exact Rclose.
Qed.

Lemma cover_open_close_witness :
  exists oh ol oc bs,
    int_of_byte oh * 256 + int_of_byte ol = 1220
    /\ async_open_cover returns (init_world 0%nat)
       = _send_command [xdd; x00; x40; x28; oh; ol; bs; oc] returns
           (init_world 0%nat).
Proof.
  destruct (cover_open_close (init_world 0%nat) returns)
    as (oh & ol & oc & _ & _ & _ & bs & Ho & _ & _ & Hrun & _).
  - vm_compute. intuition discriminate.
  - exists oh, ol, oc, bs. split; [exact Ho|exact Hrun].
Defined.

(** The digits of a mantissa bound it. *)
Lemma digits2_pos_bound (m : positive) :
  Z.pos m < 2 ^ Z.pos (digits2_pos m).
Proof.
  induction m as [p IH|p IH|]; cbn [digits2_pos];
    rewrite ?Pos2Z.inj_succ, ?Z.pow_succ_r by lia; lia.
Qed.

(** [int(x)] for a float strictly between 0 and 100. *)
Lemma int_of_float_between (x : float) :
  PrimFloat.ltb 0%float x = true ->
  PrimFloat.ltb x 100%float = true ->
  exists n, int_of_float x = Ok n /\ 0 <= n <= 99.
Proof.
  rewrite !ltb_spec. pose proof (Prim2SF_valid x) as Hvalid.
  replace (Prim2SF 0%float) with (S754_zero false)
    by (vm_compute; reflexivity).
  replace (Prim2SF 100%float) with (S754_finite false 7036874417766400 (-46))
    by (vm_compute; reflexivity).
  unfold int_of_float.
  destruct (Prim2SF x) as [s|s| |s m e]; unfold SFltb; cbn [SFcompare];
    try discriminate.
  - destruct s; discriminate.
  - destruct s; [discriminate|]. intros _ Hlt.
    cbn [SpecFloat.valid_binary] in Hvalid. unfold bounded in Hvalid.
    apply andb_prop in Hvalid. destruct Hvalid as (Hcanon & _).
    unfold canonical_mantissa, fexp in Hcanon. apply Z.eqb_eq in Hcanon.
    pose proof (digits2_pos_bound m) as Hm.
    assert (Hdigits : Z.pos (digits2_pos m) <= 53).
    { change prec with 53 in Hcanon. lia. }
    assert (Hm53 : Z.pos m < 2 ^ 53).
    { eapply Z.lt_le_trans; [exact Hm|].
      apply Z.pow_le_mono_r; lia. }
    change (2 ^ 53) with 9007199254740992 in Hm53.
    clear Hm Hcanon Hdigits.
    destruct (Z.compare_spec e (-46)) as [Heq|He|He]; [| |discriminate].
    + subst e. change (0 <=? -46) with false. cbv iota.
      eexists. split; [reflexivity|].
      assert (Hlt' : Z.pos m < 7036874417766400).
      { apply Pos2Z.pos_lt_pos. unfold Pos.lt, Pos.compare.
        destruct (PosDef.Pos.compare_cont Eq m 7036874417766400);
          [discriminate|reflexivity|discriminate]. }
      change (2 ^ (- (-46))) with 70368744177664. clear Hlt.
      split; [apply Z.div_pos; [apply Pos2Z.is_nonneg|reflexivity]|].
      apply (proj1 (Z.lt_succ_r _ 99)).
      apply Z.div_lt_upper_bound; [reflexivity|]. exact Hlt'.
    + replace (0 <=? e) with false by (symmetry; apply Z.leb_gt; lia).
      eexists. split; [reflexivity|].
      assert (Hpow : 2 ^ 47 <= 2 ^ (- e)) by (apply Z.pow_le_mono_r; lia).
      change (2 ^ 47) with 140737488355328 in Hpow. clear Hlt.
      set (d := 2 ^ (- e)) in *.
      split; [apply Z.div_pos; [apply Pos2Z.is_nonneg|lia]|].
      apply (Z.le_trans _ 63); [|discriminate].
      apply (proj1 (Z.lt_succ_r _ 63)).
      apply Z.div_lt_upper_bound; lia.
Qed.

(** A height in centimetres minus itself is zero, for each of the 4096
    heights. *)
Lemma tenth_minus_itself (n : Z) :
  0 <= n <= 4095 ->
  exists x,
    int_truediv_float n 10%float = Ok x
    /\ PrimFloat.eqb (PrimFloat.sub x x) 0%float = true.
Proof.
  intros Hn.
  assert (Hall :
    forallb
      (fun k =>
         match int_truediv_float (Z.of_nat k) 10%float with
         | Ok x => PrimFloat.eqb (PrimFloat.sub x x) 0%float
         | Raise _ => false
         end) (seq 0 4096) = true) by (vm_compute; reflexivity).
  rewrite forallb_forall in Hall.
  specialize (Hall (Z.to_nat n)).
  rewrite Z2Nat.id in Hall by lia.
  destruct (int_truediv_float n 10%float) as [x|e].
  - exists x. split; [reflexivity|]. apply Hall. apply in_seq. lia.
  - discriminate Hall. apply in_seq. lia.
Qed.

(** X25. With heights of twelve bits, as every reachable state has
    them, the position of the cover is always there: it is [None]
    exactly when the coordinator is not connected, and otherwise an
    integer from 0 to 100, whatever the three heights are, a current
    height outside the limits and limits in the wrong order included.
    With equal limits it is 0. *)
Theorem cover_position_in_range (c : Coordinator) :
  heights_12bit c ->
  exists p,
    current_cover_position c = Ok p
    /\ match p with
       | None => is_connected c = false
       | Some n => is_connected c = true /\ 0 <= n <= 100
       end
    /\ (is_connected c = true -> _min_height_mm c = _max_height_mm c ->
        p = Some 0).
Proof.
  intros (Hc & Hlo & Hhi). unfold current_cover_position.
  destruct (is_connected c); cbn [negb].
  - destruct (float_of_int_12bit _ Hc) as (xc & Ec).
    destruct (tenth_minus_itself _ Hlo) as (xlo & Elo & Hzero).
    destruct (float_of_int_12bit _ Hhi) as (xhi & Ehi).
    unfold max_height_cm, min_height_cm, current_height_cm.
    rewrite Ehi, Elo, Ec. cbn [rbind]. cbv zeta.
    destruct (PrimFloat.eqb (PrimFloat.sub xhi xlo) 0%float) eqn:Erange.
    { eexists. split; [reflexivity|]. split; [split; [reflexivity|lia]|].
      reflexivity. }
    assert (Hne : _min_height_mm c <> _max_height_mm c).
    { intros Heq. rewrite <- Heq in Ehi. rewrite Elo in Ehi.
      injection Ehi as <-. congruence. }
    set (position := PrimFloat.mul _ 100%float).
    destruct (PrimFloat.ltb position 100%float) eqn:Hle.
    + destruct (PrimFloat.ltb 0%float position) eqn:Hge.
      * destruct (int_of_float_between position Hge Hle) as (n & -> & Hn).
        cbn [rbind]. eexists. split; [reflexivity|].
        split; [split; [reflexivity|lia]|]. intros _ Heq. contradiction.
      * eexists. split; [reflexivity|].
        split; [split; [reflexivity|lia]|]. intros _ Heq. contradiction.
    + eexists. split; [reflexivity|].
      split; [split; [reflexivity|lia]|]. intros _ Heq. contradiction.
  - exists None. split; [reflexivity|]. split; [reflexivity|discriminate].
Qed.

Lemma cover_position_in_range_witness :
  let c := desk (run_ops [Connect all_return;
                          Notification [x9d; x01; x00; x00; x00; x00; x03;
                                        xe8; x00; x00; x00]]
                   (init_world 0%nat)) in
  current_cover_position c = Ok (Some 56)
  /\ exists p,
       current_cover_position c = Ok p
       /\ match p with
          | None => is_connected c = false
          | Some n => is_connected c = true /\ 0 <= n <= 100
          end
       /\ (is_connected c = true -> _min_height_mm c = _max_height_mm c ->
           p = Some 0).
Proof.
  cbv zeta. split; [vm_compute; reflexivity|].
  apply cover_position_in_range.
  vm_compute. intuition discriminate.
Defined.

(** ** A connect while a cycle is running *)

Lemma loop_head_no_attempt (attempt : Z) (w : World) :
  List.filter is_attempt (pacing (emitted (loop_head attempt w))) = [].
Proof.
  unfold loop_head. exec.
  destruct (_should_reconnect (desk w) && _); exec; [reflexivity|].
  unfold after_loop. exec.
  destruct (_should_reconnect (desk w)); exec; unfold modify; simp_state;
    reflexivity.
Qed.

Lemma after_sleep_one_attempt (attempt : Z) (env : attempt_env) (w : World) :
  _should_reconnect (desk w) = true ->
  at_sleep env = returns ->
  attempts (emitted (after_sleep attempt env w)) = 1%nat.
Proof.
  intros Hs Hsleep. unfold after_sleep. rewrite Hsleep. unfold await.
  exec. rewrite Hs. exec.
  match goal with
  | |- context [bind (try_connect attempt env) ?k w] =>
      pose proof (bind_inv (try_connect attempt env) k w) as Hb
  end.
  destruct (try_connect_run attempt env w) as (Hpace & _ & _).
  unfold attempts.
  destruct (outcome (try_connect attempt env w)) as [[|]|e]; rewrite Hb.
  - rewrite emitted_prepend, pacing_app, Hpace. reflexivity.
  - rewrite emitted_prepend, pacing_app, Hpace.
    cbn [app List.filter is_attempt length].
    rewrite loop_head_no_attempt. reflexivity.
  - cbn [emitted]. rewrite Hpace. reflexivity.
Qed.

(** X26. A connect called while a reconnection cycle is running does
    not end the cycle, whether the connect succeeds or fails: the
    coroutine stays alive with its handle stored and reconnection
    enabled, and when its sleep is over it opens a connection of its
    own, one attempt, without looking at the connection flag. *)
Theorem connect_keeps_cycle (ts : list Task) (id : nat) (env : connect_env)
    (attempt : Z) (env' : attempt_env) (w : World) :
  cycle_running ts id w ->
  _should_reconnect (desk w) = true ->
  at_sleep env' = returns ->
  let w' := final (async_connect env w) in
  cycle_running ts id w'
  /\ _should_reconnect (desk w') = true
  /\ attempts (emitted (after_sleep attempt env' w')) = 1%nat.
Proof.
  intros Hrun Hs Hsleep. cbv zeta.
  assert (Hs' : _should_reconnect (desk (final (async_connect env w))) = true)
    by exact (enabled_exec (Connect env) eq_refl w Hs).
  split; [exact (running_async_connect ts id env w Hrun)|].
  split; [exact Hs'|].
  apply after_sleep_one_attempt; assumption.
Qed.

Lemma connect_keeps_cycle_witness :
  let w := final (exec (Resume 0%nat unreachable)
                    (run_ops [Connect all_return; LinkLost]
                       (init_world 0%nat))) in
  let w' := final (async_connect all_return w) in
  is_connected (desk w') = true
  /\ tasks w' = [{| task_id := 0%nat; task_attempt := Some 1 |}]
  /\ attempts (emitted (after_sleep 1 {| at_sleep := returns;
                                         resolved := None;
                                         at_connect := all_return |} w'))
     = 1%nat.
Proof.
  cbv zeta.
  match goal with
  | |- _ /\ tasks (final (async_connect ?env ?w)) = ?ts
            /\ attempts (emitted (after_sleep ?a ?env' _)) = _ =>
      destruct (connect_keeps_cycle ts 0%nat env a env' w)
        as ((Hts & _) & _ & Hatt)
  end.
  - split; vm_compute; reflexivity.
  - vm_compute. reflexivity.
  - reflexivity.
  - split; [vm_compute; reflexivity|]. split; [exact Hts|exact Hatt].
Defined.

(** ** Commands after the link went down *)

Lemma command_without_link (env : await_env) (height_cm : float)
    (m : M unit) (w : World) :
  match client (desk w) with
  | Some cl => client_is_connected cl
  | None => false
  end = false ->
  In m [async_move_up env; async_move_down env; async_stop env;
        async_move_to_height height_cm env; async_stop_auto_move env] ->
  final (m w) = w /\ emitted (m w) = []
  /\ exists e, outcome (m w) = Raise e.
Proof.
  intros Hdown Hin.
  destruct (command_cases env height_cm m w Hin)
    as [(e & _ & ->)|(frame & ->)].
  - cbn [raise final emitted outcome]. eauto.
  - rewrite (send_command_not_connected w frame env Hdown).
    cbn [raise final emitted outcome]. eauto.
Qed.

Lemma link_down_after_loss (w : World) :
  match client (desk (final (transport_disconnected w))) with
  | Some cl => client_is_connected cl
  | None => false
  end = false.
Proof.
  unfold transport_disconnected, _on_disconnect. exec.
  destruct (_should_reconnect (desk w) && is_None (_reconnect_task (desk w)));
    exec; unfold modify; simp_state; destruct (client (desk w));
    reflexivity.
Qed.

Lemma link_down_after_disconnect (env : await_env) (w : World) :
  outcome (async_disconnect env w) = Ok tt ->
  match client (desk (final (async_disconnect env w))) with
  | Some cl => client_is_connected cl
  | None => false
  end = false.
Proof.
  unfold async_disconnect. exec.
  destruct (client (desk w)) as [[[|]]|] eqn:Ec; exec;
    try (intros _; unfold modify; simp_state; rewrite Ec; reflexivity).
  unfold await, transport_disconnected, _on_disconnect.
  destruct env as [[|] [e|]]; exec; try discriminate;
    try (destruct (_should_reconnect (desk w)
                   && is_None (_reconnect_task (desk w)));
         exec; try discriminate);
    intros _; unfold modify; simp_state; rewrite ?Ec; reflexivity.
Qed.

(** X27. Once the link is down no command reaches the desk.  After
    the transport reported the link lost, and after an explicit
    disconnect that returned, each of the five movement commands raises
    without writing a frame, without a log line and without changing
    anything. *)
Theorem commands_fail_after_link_down (w : World) (env env' : await_env)
    (height_cm : float) (m : M unit) :
  In m [async_move_up env'; async_move_down env'; async_stop env';
        async_move_to_height height_cm env'; async_stop_auto_move env'] ->
  (let w1 := final (transport_disconnected w) in
   final (m w1) = w1 /\ emitted (m w1) = []
   /\ exists e, outcome (m w1) = Raise e)
  /\ (outcome (async_disconnect env w) = Ok tt ->
      let w2 := final (async_disconnect env w) in
      final (m w2) = w2 /\ emitted (m w2) = []
      /\ exists e, outcome (m w2) = Raise e).
Proof.
  intros Hin. cbv zeta. split.
  - apply (command_without_link env' height_cm); [|exact Hin].
    apply link_down_after_loss.
  - intros Hok.
    apply (command_without_link env' height_cm); [|exact Hin].
    apply link_down_after_disconnect. exact Hok.
Qed.

Lemma commands_fail_after_link_down_witness :
  let w := final (async_connect all_return (init_world 0%nat)) in
  outcome (async_move_up returns w) = Ok tt
  /\ exists e,
       outcome (async_move_up returns (final (transport_disconnected w)))
       = Raise e.
Proof.
  cbv zeta. split; [vm_compute; reflexivity|].
  destruct (commands_fail_after_link_down
              (final (async_connect all_return (init_world 0%nat)))
              returns returns 100%float (async_move_up returns))
    as ((_ & _ & H) & _).
  - cbn [In]. auto.
  - exact H.
Defined.
